(** * TradingView news scraper: a shallow embedding of [index.js]

    The program reads stock listing URLs from a Google Sheet, visits every
    listing page, extracts the recent article cards, opens every article,
    decides whether it is publicly readable, extracts its body text and
    posts it to a WordPress endpoint.

    The embedding follows the source function by function.  Everything the
    program obtains from outside (the clock, [Date] parsing, the sheet, the
    pages it loads, the browser's handling of the article tabs, the answers
    of the publishing endpoint) is an explicit input; everything it does
    to the outside (log lines, navigations, POST requests) is recorded in
    a trace of events. *)

From Stdlib Require Import ZArith QArith Qround String Ascii List Lia Bool.
From stdpp Require Import base list strings gmap pretty.

#[local] Set Warnings "-clear-no-such-hyp".

Local Open Scope string_scope.
Local Open Scope list_scope.
Local Open Scope Z_scope.

(** ** JavaScript values and strings *)

(** The values that flow through the fields of a card: [null], [undefined]
    or a string.  [getAttribute] answers [null] or a string, an optional
    chain [x?.p] answers [undefined] or a string. *)
Inductive jsval : Type :=
| JsUndefined
| JsNull
| JsStr (s : string).

#[global] Instance jsval_eq_dec : EqDecision jsval.
Proof. solve_decision. Defined.

Module Js.

(** [ToBoolean]: [null], [undefined] and the empty string are falsy. *)
Definition truthy (v : jsval) : bool :=
  match v with
  | JsStr s => negb (String.eqb s "")
  | _ => false
  end.

(** [a || b] *)
Definition or (a b : jsval) : jsval := if truthy a then a else b.

(** [`${v}`]: the string conversion of a template literal. *)
Definition toStr (v : jsval) : string :=
  match v with
  | JsUndefined => "undefined"
  | JsNull => "null"
  | JsStr s => s
  end.

(** [String.prototype.toLowerCase] on the code units 0..255: the letters
    A..Z and the capital letters of Latin-1, 192..222 without the
    multiplication sign 215, move up by 32; nothing else changes. *)
Definition lowerChar (c : ascii) : ascii :=
  let n := nat_of_ascii c in
  if ((Nat.leb 65 n && Nat.leb n 90)
      || (Nat.leb 192 n && Nat.leb n 222 && negb (Nat.eqb n 215)))%bool
  then ascii_of_nat (n + 32) else c.

Fixpoint toLowerCase (s : string) : string :=
  match s with
  | EmptyString => EmptyString
  | String c s' => String (lowerChar c) (toLowerCase s')
  end.

(** [s.includes(sub)] *)
Fixpoint includes (s sub : string) : bool :=
  String.prefix sub s ||
  match s with
  | EmptyString => false
  | String _ s' => includes s' sub
  end.

(** White space of [String.prototype.trim] among the code units 0..255:
    TAB, LF, VT, FF, CR, SPACE and NBSP. *)
Definition isSpace (c : ascii) : bool :=
  let n := nat_of_ascii c in
  (Nat.leb 9 n && Nat.leb n 13)%bool || Nat.eqb n 32 || Nat.eqb n 160.

Fixpoint trimStart (s : string) : string :=
  match s with
  | EmptyString => EmptyString
  | String c s' => if isSpace c then trimStart s' else s
  end.

Fixpoint trimEnd (s : string) : string :=
  match s with
  | EmptyString => EmptyString
  | String c s' =>
      match trimEnd s' with
      | EmptyString => if isSpace c then EmptyString else String c EmptyString
      | t => String c t
      end
  end.

Definition trim (s : string) : string := trimEnd (trimStart s).

(** [xs.some(p => s.includes(p))] *)
Definition includesAny (s : string) (phrases : list string) : bool :=
  existsb (includes s) phrases.

End Js.

(** ** Numbers

    A JavaScript number is modelled as an exact rational or [NaN].  The
    numbers of the program are time values (integral milliseconds, at most
    8.64e15 in magnitude), their differences and the quotient of such a
    difference by the 86400000 milliseconds of a day.  For a current time
    of this era the difference is below 2^53, hence exact; the quotient is
    below 2^27, where the spacing of doubles (at most 2^-26) is smaller
    than 1/86400000, so rounding never moves the quotient onto or across
    an integer: [Math.floor] of it and its comparison with an integral
    window agree with the exact rational ones. *)
Definition jsnum : Type := option Q.

Module Num.

Definition ofZ (z : Z) : jsnum := Some (inject_Z z).

(** The number a [Date] converts to: its time value, [NaN] when the date
    is invalid. *)
Definition ofTime (t : option Z) : jsnum :=
  match t with
  | Some z => ofZ z
  | None => None
  end.

Definition sub (a b : jsnum) : jsnum :=
  match a, b with
  | Some x, Some y => Some (x - y)%Q
  | _, _ => None
  end.

(** Division by a non-zero constant. *)
Definition div (a b : jsnum) : jsnum :=
  match a, b with
  | Some x, Some y => Some (x / y)%Q
  | _, _ => None
  end.

(** [Math.floor]; [Math.floor(NaN)] is [NaN]. *)
Definition floor (a : jsnum) : jsnum :=
  match a with
  | Some x => Some (inject_Z (Qfloor x))
  | None => None
  end.

(** [a <= b]; every comparison with [NaN] is false. *)
Definition le (a b : jsnum) : bool :=
  match a, b with
  | Some x, Some y => Qle_bool x y
  | _, _ => false
  end.

End Num.

(** [1000 * 60 * 60 * 24] *)
Definition MS_PER_DAY : Z := 1000 * 60 * 60 * 24.

(** ** The host: clock and date handling

    [Date_parse s] is the time value of [new Date(s)] for a string [s],
    [None] for an invalid date; [Date_now] is the time value of
    [new Date()]; [Date_isoDate t] is [toISOString().split("T")[0]] of the
    date with time value [t].  The clock is read as one instant: the
    time that passes during a call or a run is not modelled. *)
Record Host : Type := {
  Date_parse : string -> option Z;
  Date_now : Z;
  Date_isoDate : Z -> string
}.

(** The time value of [new Date(v)]: [new Date(null)] is the epoch,
    [new Date(undefined)] is invalid. *)
Definition Date_new (h : Host) (v : jsval) : option Z :=
  match v with
  | JsUndefined => None
  | JsNull => Some 0
  | JsStr s => Date_parse h s
  end.

(** ** Selectors

    A selector string is kept as its syntax tree: a chain of compound
    selectors joined by the descendant combinator, every compound an
    optional tag name and a list of conditions.  A list of selectors
    stands for the strings joined by a comma. *)
Inductive cond : Type :=
| Has (name : string)                 (* [name] *)
| Equals (name value : string)        (* [name="value"] *)
| Contains (name value : string)      (* [name*="value"] *)
| ClassIs (c : string).               (* .c *)

Record compound : Type := {
  sel_tag : option string;
  sel_conds : list cond
}.

Definition selector : Type := list compound.

#[global] Instance cond_eq_dec : EqDecision cond.
Proof. solve_decision. Defined.

#[global] Instance compound_eq_dec : EqDecision compound.
Proof. solve_decision. Defined.

Definition tag (t : string) : selector :=
  [{| sel_tag := Some t; sel_conds := [] |}].
Definition tagged (t : string) (cs : list cond) : selector :=
  [{| sel_tag := Some t; sel_conds := cs |}].
Definition any (cs : list cond) : selector :=
  [{| sel_tag := None; sel_conds := cs |}].
Definition inside (outer inner : selector) : selector := outer ++ inner.

(** ** Effects: a trace of events and the way the computation ends *)

(** An [Error] object: its [message], its [code] and the [response.data]
    an HTTP client attaches to it. *)
Record jsError : Type := {
  message : string;
  code : option Z;
  response_data : option string
}.

Definition Error (msg : string) : jsError :=
  {| message := msg; code := None; response_data := None |}.

(** The JSON body of the request to the publishing endpoint. *)
Record Payload : Type := {
  Headline : jsval;
  Fullarticle : string;
  Provider : jsval;
  Symbol : jsval;
  date : string
}.

(** The functions the program evaluates in a page. *)
Inductive evaluation : Type :=
| AutoScroll                    (* autoScroll *)
| Extraction                    (* trySelectors *)
| ProviderScan                  (* the gate, provider text *)
| LoginIndicatorScan            (* the gate, visible text *)
| LoginElementScan              (* the gate, login elements *)
| InnerText (sel : selector)    (* page.$eval(sel, el => el.innerText.trim()) *)
| FallbackScan.                 (* the generic containers *)

Inductive event : Type :=
| EvLog (line : string)                  (* console.log *)
| EvError (line : string)                (* console.error *)
| EvDelay (ms : Z)                       (* await delay(ms) *)
| EvAuthorize                            (* auth.authorize *)
| EvSheetGet (range : string)            (* sheets.spreadsheets.values.get *)
| EvGoto (url : jsval) (timeout : Z)     (* page.goto *)
| EvEvaluate (what : evaluation)         (* page.evaluate, page.$eval *)
| EvWaitForSelector (sel : selector) (timeout : Z)
| EvPost (url : jsval) (body : Payload)  (* axios.post *)
| EvLaunch                               (* puppeteer.launch *)
| EvNewPage                              (* browser.newPage *)
| EvClosePage                            (* articlePage.close *)
| EvCloseBrowser.                        (* browser.close *)

#[global] Instance Payload_eq_dec : EqDecision Payload.
Proof. solve_decision. Defined.

#[global] Instance evaluation_eq_dec : EqDecision evaluation.
Proof. solve_decision. Defined.

#[global] Instance event_eq_dec : EqDecision event.
Proof. solve_decision. Defined.

(** A call that has settled: it returned a value or threw an error (for
    an awaited promise: it was fulfilled or rejected). *)
Inductive outcome (A : Type) : Type :=
| Returned (a : A)
| Thrown (e : jsError).

Arguments Returned {A} a.
Arguments Thrown {A} e.

(** An awaited promise: settled, or never settled.  Nothing after an
    [await] on a promise that stays pending is run, neither a [catch] nor
    a [finally]. *)
Inductive promise (A : Type) : Type :=
| Settled (o : outcome A)
| Pending.

Arguments Settled {A} o.
Arguments Pending {A}.

Coercion Settled : outcome >-> promise.

Record M (A : Type) : Type := mkM {
  trace : list event;
  result : promise A
}.

Arguments mkM {A} trace result.
Arguments trace {A} m.
Arguments result {A} m.

#[global] Instance M_ret : MRet M := fun A a => mkM [] (Returned a).

#[global] Instance M_bind : MBind M := fun A B f m =>
  match result m with
  | Settled (Returned a) => mkM (trace m ++ trace (f a)) (result (f a))
  | Settled (Thrown e) => mkM (trace m) (Thrown e)
  | Pending => mkM (trace m) Pending
  end.

(** [throw e] *)
Definition throw {A : Type} (e : jsError) : M A := mkM [] (Thrown e).

(** One observable action. *)
Definition emit (ev : event) : M unit := mkM [ev] (Returned tt).

(** An action whose result the outside world decides. *)
Definition call {A : Type} (ev : event) (answer : promise A) : M A :=
  mkM [ev] answer.

(** [try { body } catch (error) { handler }] *)
Definition try_catch {A : Type} (body : M A) (handler : jsError -> M A) : M A :=
  match result body with
  | Settled (Returned a) => body
  | Settled (Thrown e) =>
      mkM (trace body ++ trace (handler e)) (result (handler e))
  | Pending => body
  end.

(** [try { body } finally { cleanup }]: once the body has settled the
    cleanup runs, and an error of the cleanup replaces the outcome of the
    body. *)
Definition try_finally {A : Type} (body : M A) (cleanup : M unit) : M A :=
  match result body with
  | Settled o =>
      match result cleanup with
      | Settled (Returned _) => mkM (trace body ++ trace cleanup) (Settled o)
      | Settled (Thrown e) => mkM (trace body ++ trace cleanup) (Thrown e)
      | Pending => mkM (trace body ++ trace cleanup) Pending
      end
  | Pending => body
  end.

(** The line feed of the log lines that start with one, and the quotation
    mark of the one that quotes a headline. *)
Definition newline : string := String (ascii_of_nat 10) EmptyString.
Definition quote : string := String (ascii_of_nat 34) EmptyString.

Definition console_log (line : string) : M unit := emit (EvLog line).
Definition console_error (line : string) : M unit := emit (EvError line).
Definition delay (ms : Z) : M unit := emit (EvDelay ms).

(** ** The recency check at module level (lines 64-79)

    No step of the body throws on the values modelled here; the
    [try]/[catch] of the source is kept as it is written. *)
Definition isRecentArticle (h : Host) (timestamp : jsval) (daysBack : Z)
  : M bool :=
  try_catch
    (if negb (Js.truthy timestamp) then mret false
     else
       let articleDate := Date_new h timestamp in
       let today := Some (Date_now h) in
       let daysDifference :=
         Num.floor
           (Num.div (Num.sub (Num.ofTime today) (Num.ofTime articleDate))
                    (Num.ofZ MS_PER_DAY)) in
       mret (Num.le daysDifference (Num.ofZ daysBack)))
    (fun error =>
       _ ← console_error ("Error parsing date: " +:+ message error);
       mret false).

(** ** Configuration (lines 8-23) *)

(** [process.env]: every variable is a string or [undefined]. *)
Record Env : Type := {
  WP_API_URL : jsval;
  WP_USER : jsval;
  WP_PASS : jsval;
  SHEET_ID : jsval;
  SHEET_NAME : jsval
}.

Record Config : Type := {
  wpApiUrl : jsval;
  wpUser : jsval;
  wpPass : jsval
}.

Definition DEFAULT_WP_API_URL : string :=
  "https://profitbooking.in/wp-json/scraper/v1/tradingview".

Definition CONFIG (env : Env) : Config :=
  {| wpApiUrl := Js.or (WP_API_URL env) (JsStr DEFAULT_WP_API_URL);
     wpUser := WP_USER env;
     wpPass := WP_PASS env |}.

(** ** Storage (lines 104-144) *)

(** The object built by the orchestrator for one article. *)
Record WpData : Type := {
  wp_headline : jsval;
  wp_content : string;
  wp_symbol : jsval;
  wp_provider : jsval;
  wp_timestamp : jsval
}.

(** The publishing endpoint: the answer of [axios.post] to a request,
    [response.data] or a rejection. *)
Definition Network : Type := jsval -> Payload -> outcome string.

(** [error.response?.data]: [undefined] on an error without response. *)
Definition optional (data : option string) : jsval :=
  match data with
  | Some d => JsStr d
  | None => JsUndefined
  end.

(** [new Date(v).toISOString().split("T")[0]]; [toISOString] throws a
    [RangeError] on an invalid date. *)
Definition isoDateOf (h : Host) (v : jsval) : M string :=
  match Date_new h v with
  | Some t => mret (Date_isoDate h t)
  | None => throw (Error "Invalid time value")
  end.

Definition storeInWordPress (h : Host) (env : Env) (net : Network)
    (data : WpData) : M bool :=
  if negb (Js.truthy (wpApiUrl (CONFIG env))) then
    _ ← console_log "WordPress API URL not configured. Skipping storage.";
    mret true
  else
    recent ← isRecentArticle h (wp_timestamp data) 1;
    if negb recent then
      _ ← console_log "Skipping storage - article is not recent";
      mret false
    else
      try_catch
        (d ← isoDateOf h (wp_timestamp data);
         let body :=
           {| Headline := wp_headline data;
              Fullarticle := wp_content data;
              Provider := Js.or (wp_provider data) (JsStr "General");
              Symbol := wp_symbol data;
              date := d |} in
         response ← call (EvPost (wpApiUrl (CONFIG env)) body)
                         (net (wpApiUrl (CONFIG env)) body);
         _ ← console_log ("Stored in WordPress: " +:+ response);
         mret true)
        (fun error =>
           _ ← console_error
                 ("WP API Error: " +:+
                  Js.toStr (Js.or (optional (response_data error))
                                  (JsStr (message error))));
           mret false).

(** ** Reading the sheet (lines 146-232) *)

(** The spreadsheet service: the answer of [auth.authorize()] and, for a
    range, the [data.values] of the response ([undefined] when the range
    holds nothing) or a rejection. *)
Record Sheets : Type := {
  authorize : outcome unit;
  values_get : string -> outcome (option (list (list string)))
}.

Record StockEntry : Type := {
  se_Symbol : jsval;
  se_Stock_name : jsval;
  se_link : jsval
}.

(** [headers.indexOf(name)] *)
Fixpoint indexOf (headers : list string) (name : string) : Z :=
  match headers with
  | [] => -1
  | x :: rest =>
      if String.eqb x name then 0
      else let i := indexOf rest name in if i =? -1 then -1 else i + 1
  end.

(** [row[i]]: [undefined] outside the row. *)
Definition at_index (row : list string) (i : Z) : jsval :=
  if i <? 0 then JsUndefined
  else match row !! Z.to_nat i with
       | Some v => JsStr v
       | None => JsUndefined
       end.

(** [String.fromCharCode(n)] for a code unit below 256. *)
Definition fromCharCode (n : Z) : string :=
  String (ascii_of_nat (Z.to_nat n)) EmptyString.

Definition sheetName (env : Env) : string := Js.toStr (SHEET_NAME env).

Definition getStockUrlsFromSheet (env : Env) (sheets : Sheets)
  : M (list StockEntry) :=
  _ ← call EvAuthorize (authorize sheets);
  _ ← console_log "NewsProcessor: Google Sheet authentication successful.";
  try_catch
    (let headerRange := sheetName env +:+ "!1:1" in
     headerValues ← call (EvSheetGet headerRange) (values_get sheets headerRange);
     headers ← match headerValues with
               | Some (first :: _) => mret first
               | Some [] =>
                   throw (Error "Cannot read properties of undefined (reading 'length')")
               | None => mret []
               end;
     if (length headers =? 0)%nat then
       throw (Error "Could not read headers from the Google Sheet. Make sure the sheet is not empty.")
     else
       let scrapLinkColIndex := indexOf headers "Scrap_Link" in
       let symbolColIndex := indexOf headers "Symbol" in
       let stockNameColIndex := indexOf headers "Stock name" in
       if (scrapLinkColIndex =? -1) || (symbolColIndex =? -1)
          || (stockNameColIndex =? -1)
       then
         throw (Error "Required columns (Scrap_Link, Symbol, Stock name) not found in the Google Sheet.")
       else
         let startCol :=
           Z.min (Z.min symbolColIndex stockNameColIndex) scrapLinkColIndex in
         let endCol :=
           Z.max (Z.max symbolColIndex stockNameColIndex) scrapLinkColIndex in
         let dataRange :=
           sheetName env +:+ "!" +:+ fromCharCode (65 + startCol) +:+ ":"
           +:+ fromCharCode (65 + endCol) in
         rows ← call (EvSheetGet dataRange) (values_get sheets dataRange);
         match rows with
         | None | Some [] =>
             _ ← console_log "No data found in the Google Sheet.";
             mret []
         | Some (_ :: dataRows) =>
             let stockData :=
               filter (fun entry => Js.truthy (se_link entry) = true)
                 (map (fun row =>
                         {| se_Symbol := at_index row (symbolColIndex - startCol);
                            se_Stock_name :=
                              at_index row (stockNameColIndex - startCol);
                            se_link :=
                              at_index row (scrapLinkColIndex - startCol) |})
                      dataRows) in
             _ ← console_log ("Loaded " +:+ pretty (length stockData)
                              +:+ " stock URLs from Google Sheet.");
             mret stockData
         end)
    (fun error =>
       _ ← console_error ("Error accessing Google Sheet: " +:+ message error);
       _ ← (if decide (code error = Some 403) then
              console_error
                "Permission denied. Make sure the service account has read access to the Google Sheet."
            else mret tt);
       mret []).

(** ** The selector registry (lines 26-61) *)

Record Registry : Type := {
  articleSelectors : list selector;
  headlineSelectors : list selector;
  providerSelectors : list selector;
  contentSelectors : list selector;
  timeSelectors : list selector
}.

Definition SELECTOR_REGISTRY : Registry :=
  {| articleSelectors :=
       [ tagged "article" [Contains "class" "article-"];
         tagged "a" [Contains "href" "/news/"];
         any [Equals "data-qa-id" "news-headline-card"];
         tagged "div" [Contains "class" "card-"; Contains "class" "news"];
         tagged "tr" [Contains "class" "row-"] ];
     headlineSelectors :=
       [ any [Has "data-overflow-tooltip-text"];
         any [Equals "data-qa-id" "news-headline-title"];
         tagged "div" [Contains "class" "title-"];
         tag "h3";
         tag "h4" ];
     providerSelectors :=
       [ any [Contains "class" "provider-"];
         tagged "span" [Contains "class" "provider"];
         tagged "div" [Contains "class" "source"] ];
     contentSelectors :=
       [ any [ClassIs "body-KX2tCBZq"];
         tagged "div" [Contains "class" "body-"];
         tagged "div" [Contains "class" "content-"];
         inside (tagged "article" [Equals "data-role" "article"])
                (tagged "div" [Contains "class" "content"]);
         tagged "div" [Contains "class" "article-body"];
         any [Equals "itemprop" "articleBody"] ];
     timeSelectors :=
       [ tag "relative-time";
         tag "time";
         any [Has "datetime"];
         any [Contains "class" "date-"];
         any [Contains "class" "time-"] ] |}.

(** ** Documents

    The selector engine and the layout belong to the browser: a document
    answers the queries of the program.  An element carries what the
    program reads from it. *)
Record Node : Type := {
  attributes : list (string * string);
  textContent : jsval;
  innerText : jsval;
  href : jsval;              (* [undefined] on an element that has none *)
  src : string;
  offsetParent_isNull : bool
}.

(** [el.getAttribute(name)]: [null] when the attribute is absent. *)
Fixpoint lookupAttr (attrs : list (string * string)) (name : string) : jsval :=
  match attrs with
  | [] => JsNull
  | (n, v) :: rest => if String.eqb n name then JsStr v else lookupAttr rest name
  end.

Definition getAttribute (el : Node) (name : string) : jsval :=
  lookupAttr (attributes el) name.

(** [v?.trim()] *)
Definition trimmed (v : jsval) : jsval :=
  match v with
  | JsStr s => JsStr (Js.trim s)
  | _ => JsUndefined
  end.

(** An article card of a listing page: the element and the answers to the
    queries made below it and above it. *)
Record Card : Type := {
  card_element : Node;
  card_querySelector : selector -> option Node;
  card_querySelectorAll : selector -> list Node;
  card_closest : selector -> option Node
}.

(** A loaded page.  [page_fault ev] is the error with which the browser
    rejects the call recorded as [ev] (a crashed page, a destroyed
    execution context), if it does.  [page_scrollHeight k] is
    [document.body.scrollHeight] as the scroll timer finds it when it
    fires for the time number [k], counted from 0: a document may grow
    while it is scrolled. *)
Record Page : Type := {
  page_cards : list selector -> list Card;
  page_querySelector : selector -> option Node;
  page_querySelectorAll : list selector -> list Node;
  page_scrollHeight : nat -> Z;
  page_fault : event -> option jsError
}.

(** [await page.evaluate(f)]: the browser rejects the call, or [f] runs in
    the page; [f] answers a value or throws, or the promise it answers
    stays pending. *)
Definition page_evaluate {A : Type} (page : Page) (ev : event)
    (f : promise A) : M A :=
  call ev (match page_fault page ev with
           | Some e => Settled (Thrown e)
           | None => f
           end).

(** ** Extraction of the article cards (lines 234-369) *)

Record Article : Type := {
  headline : jsval;
  provider : jsval;
  timestamp : jsval;
  link : jsval;
  symbol : jsval
}.

Module InPage.

(** The helper declared again inside the page function (lines 237-247):
    no guard on the timestamp, no [Math.floor].  The page runs on the
    machine of the program; its clock and its [Date] are those of the
    host. *)
Definition isRecentArticle (h : Host) (timestamp : jsval) (maxDaysAgo : Z)
  : bool :=
  let articleDate := Date_new h timestamp in
  let today := Some (Date_now h) in
  let diffTime := Num.sub (Num.ofTime today) (Num.ofTime articleDate) in
  let daysDiff := Num.div diffTime (Num.ofZ MS_PER_DAY) in
  Num.le daysDiff (Num.ofZ maxDaysAgo).

(** The loop shared by the three fields:
    [for (const selector of sels) { const el = element.querySelector(selector);
       if (el) { field = read(el); if (field) break; } }]
    started with [field] at its current value. *)
Fixpoint forSelectors (read : Node -> jsval) (element : Card)
    (sels : list selector) (field : jsval) : jsval :=
  match sels with
  | [] => field
  | sel :: rest =>
      match card_querySelector element sel with
      | Some el =>
          let field' := read el in
          if Js.truthy field' then field'
          else forSelectors read element rest field'
      | None => forSelectors read element rest field
      end
  end.

Definition readHeadline (el : Node) : jsval :=
  Js.or (Js.or (getAttribute el "data-overflow-tooltip-text")
               (getAttribute el "title"))
        (trimmed (textContent el)).

Definition readProvider (el : Node) : jsval := trimmed (textContent el).

Definition readTimestamp (el : Node) : jsval :=
  Js.or (Js.or (Js.or (getAttribute el "event-time")
                      (getAttribute el "datetime"))
               (getAttribute el "data-timestamp"))
        (trimmed (textContent el)).

Definition restrictedIndicators : list string :=
  [ "sign in to read exclusive news";
    "login to read";
    "subscribe to read";
    "premium content";
    "members only";
    "exclusive news";
    "requires subscription" ].

(** [x?.href] *)
Definition hrefOf (x : option Node) : jsval :=
  match x with
  | Some el => href el
  | None => JsUndefined
  end.

(** The part of [s] after its last slash, if it has a slash. *)
Fixpoint afterLastSlash (s : string) : option string :=
  match s with
  | EmptyString => None
  | String c s' =>
      match afterLastSlash s' with
      | Some seg => Some seg
      | None => if Ascii.eqb c "/" then Some s' else None
      end
  end.

(** [s] without its final [.svg], if it ends with it. *)
Fixpoint withoutSvg (s : string) : option string :=
  match s with
  | EmptyString => None
  | String c s' =>
      if String.eqb s ".svg" then Some EmptyString
      else option_map (String c) (withoutSvg s')
  end.

(** [s.replace(/-/g, "")] *)
Fixpoint stripHyphens (s : string) : string :=
  match s with
  | EmptyString => EmptyString
  | String c s' =>
      if Ascii.eqb c "-" then stripHyphens s' else String c (stripHyphens s')
  end.

(** [const match = src.match(/\/([^\/]+)\.svg$/);
     return match ? match[1].replace(/-/g, "") : null]:
    the pattern matches when [src] ends with a slash, a non-empty run
    without slash and [.svg]; the group is that run. *)
Definition iconCode (src : string) : jsval :=
  match withoutSvg src with
  | Some body =>
      match afterLastSlash body with
      | Some seg => if String.eqb seg "" then JsNull else JsStr (stripHyphens seg)
      | None => JsNull
      end
  | None => JsNull
  end.

(** [codes.join("")] of string values. *)
Definition joinCodes (codes : list jsval) : string :=
  String.concat "" (map Js.toStr codes).

Definition svgImages : selector := tagged "img" [Contains "src" ".svg"].

Definition cardSymbol (element : Card) : jsval :=
  let symbolImgs := card_querySelectorAll element svgImages in
  if (0 <? length symbolImgs)%nat then
    let codes := filter (fun c => Js.truthy c = true)
                        (map (fun img => iconCode (src img)) symbolImgs) in
    if (0 <? length codes)%nat then JsStr (joinCodes codes) else JsNull
  else JsNull.

(** The body of the [forEach] callback: the record pushed for the card, or
    nothing when the callback returns early. *)
Definition extractCard (h : Host) (selectors : Registry) (symbol : jsval)
    (element : Card) : option Article :=
  let headline :=
    forSelectors readHeadline element (headlineSelectors selectors) JsNull in
  let headline :=
    if negb (Js.truthy headline) then readHeadline (card_element element)
    else headline in
  if negb (Js.truthy headline) then None
  else
    let headlineLower := Js.toLowerCase (Js.toStr headline) in
    if Js.includesAny headlineLower restrictedIndicators then None
    else
      let provider :=
        forSelectors readProvider element (providerSelectors selectors) JsNull in
      let link :=
        Js.or (Js.or (href (card_element element))
                     (hrefOf (card_querySelector element (tag "a"))))
              (hrefOf (card_closest element (tag "a"))) in
      if negb (Js.truthy link) then None
      else
        let timestamp :=
          forSelectors readTimestamp element (timeSelectors selectors) JsNull in
        if negb (Js.truthy timestamp) || negb (isRecentArticle h timestamp 3)
        then None
        else
          Some {| headline := headline;
                  provider := Js.or provider (JsStr "Unknown");
                  timestamp := timestamp;
                  link := link;
                  symbol := Js.or (cardSymbol element) symbol |}.

(** [`${article.headline}-${article.timestamp}-${article.symbol}`] *)
Definition key (article : Article) : string :=
  Js.toStr (headline article) +:+ "-" +:+ Js.toStr (timestamp article)
  +:+ "-" +:+ Js.toStr (symbol article).

(** The loop over [articles] (lines 356-362), with [seenKeys] at its
    current value; the result is what the loop appends to
    [uniqueArticles]. *)
Fixpoint uniqueFrom (seenKeys : gset string) (articles : list Article)
  : list Article :=
  match articles with
  | [] => []
  | article :: rest =>
      if decide (key article ∈ seenKeys) then uniqueFrom seenKeys rest
      else article :: uniqueFrom ({[key article]} ∪ seenKeys) rest
  end.

Definition uniqueArticles (articles : list Article) : list Article :=
  uniqueFrom ∅ articles.

(** The function evaluated in the page. *)
Definition run (h : Host) (page : Page) (selectors : Registry)
    (symbol : jsval) : list Article :=
  let articles :=
    omap (extractCard h selectors symbol)
         (page_cards page (articleSelectors selectors)) in
  uniqueArticles articles.

End InPage.

Definition trySelectors (h : Host) (page : Page) (selectors : Registry)
    (symbol : jsval) : M (list Article) :=
  page_evaluate page (EvEvaluate Extraction) (Returned (InPage.run h page selectors symbol)).

(** ** The access gate (lines 371-438) *)

Definition knownFreeProviders : list string :=
  [ "moneycontrol"; "reuters"; "business standard"; "investing.com" ].

Definition loginIndicatorPhrases : list string :=
  [ "sign in to read";
    "login to continue";
    "subscribe to read";
    "premium content";
    "members only";
    "requires subscription";
    "sign up to continue reading";
    "paywall";
    "membership required" ].

Definition loginSelectors : list selector :=
  [ any [Contains "class" "paywall"];
    any [Contains "class" "subscription"];
    any [Contains "class" "premium"];
    any [Contains "id" "login"];
    any [Contains "class" "sign-in"];
    tagged "button" [Contains "class" "subscribe"];
    any [Contains "class" "member-only"];
    any [Has "data-login-required"] ].

Definition visibleContainers : list selector :=
  [ tag "div"; tag "section"; tag "article"; tag "header" ].

(** [providerEl?.innerText?.toLowerCase().trim() || ""] *)
Definition providerTextOf (page : Page) : string :=
  match page_querySelector page (any [Contains "class" "provider"]) with
  | Some providerEl =>
      match innerText providerEl with
      | JsStr s => Js.trim (Js.toLowerCase s)
      | _ => ""
      end
  | None => ""
  end.

(** [el.innerText?.toLowerCase().includes(text)], falsy without a text. *)
Definition textIncludes (el : Node) (text : string) : bool :=
  match innerText el with
  | JsStr s => Js.includes (Js.toLowerCase s) text
  | _ => false
  end.

Definition loginIndicatorsOf (page : Page) : bool :=
  let elements :=
    filter (fun el => offsetParent_isNull el = false)
           (page_querySelectorAll page visibleContainers) in
  existsb (fun el => existsb (textIncludes el) loginIndicatorPhrases) elements.

Definition hasLoginElementsOf (page : Page) : bool :=
  existsb (fun sel => bool_decide (is_Some (page_querySelector page sel)))
          loginSelectors.

(** The body of the [try]. *)
Definition checkIfArticleRequiresLogin_body (page : Page) : M bool :=
  providerText ←
    page_evaluate page (EvEvaluate ProviderScan) (Returned (providerTextOf page));
  if existsb (Js.includes providerText) knownFreeProviders then
    _ ← console_log ("Skipping login check - public provider detected: "
                     +:+ providerText);
    mret false
  else
    loginIndicators ←
      page_evaluate page (EvEvaluate LoginIndicatorScan)
                    (Returned (loginIndicatorsOf page));
    hasLoginElements ←
      page_evaluate page (EvEvaluate LoginElementScan)
                    (Returned (hasLoginElementsOf page));
    mret (loginIndicators || hasLoginElements).

Definition checkIfArticleRequiresLogin (page : Page) : M bool :=
  try_catch
    (checkIfArticleRequiresLogin_body page)
    (fun error =>
       _ ← console_log ("Error during login check: " +:+ message error);
       mret false).

(** ** Extraction of the article body (lines 440-536) *)

Definition restrictedPhrases : list string :=
  [ "sign in to read exclusive news";
    "login or create a forever free account";
    "subscribe to read this article";
    "this article is reserved for our members";
    "premium content";
    "requires subscription" ].

Definition fallbackContainers : list selector :=
  [ tag "article";
    tag "main";
    any [Equals "role" "main"];
    any [ClassIs "article-content"];
    any [ClassIs "content"];
    any [ClassIs "post-content"] ].

(** [await page.waitForSelector(selector, { timeout: 3000 })]: rejected
    when no element matches within the timeout. *)
Definition waitForSelector (page : Page) (sel : selector) : M unit :=
  page_evaluate page (EvWaitForSelector sel 3000)
    (match page_querySelector page sel with
     | Some _ => Returned tt
     | None => Thrown (Error "Waiting for selector failed: timeout 3000ms exceeded")
     end).

(** [await page.$eval(selector, (el) => el.innerText.trim())] *)
Definition evalInnerTextTrim (page : Page) (sel : selector) : M string :=
  page_evaluate page (EvEvaluate (InnerText sel))
    (match page_querySelector page sel with
     | Some el =>
         match innerText el with
         | JsStr s => Returned (Js.trim s)
         | _ => Thrown (Error "Cannot read properties of undefined (reading 'trim')")
         end
     | None => Thrown (Error "failed to find element matching selector")
     end).

(** [content && content.length > 50] and the like. *)
Definition longerThan (n : nat) (content : string) : bool :=
  negb (String.eqb content "") && (n <? String.length content)%nat.

(** The loop over the content selectors (lines 452-483).  [Some r]: the
    function returns [r] ([None] for [null]) from inside the loop;
    [None]: the loop has run to its end. *)
Fixpoint specificSelectors (page : Page) (sels : list selector)
  : M (option (option string)) :=
  match sels with
  | [] => mret None
  | selector :: rest =>
      r ← try_catch
            (_ ← waitForSelector page selector;
             content ← evalInnerTextTrim page selector;
             if longerThan 50 content then
               let contentLower := Js.toLowerCase content in
               if negb (Js.includesAny contentLower restrictedPhrases) then
                 _ ← console_log
                       ("Successfully extracted content ("
                        +:+ pretty (String.length content) +:+ " characters)");
                 mret (Some (Some content))
               else
                 _ ← console_log "Content contains restricted phrases - skipping";
                 mret (Some None)
             else mret None)
            (fun error => mret None);
      match r with
      | Some returned => mret (Some returned)
      | None => specificSelectors page rest
      end
  end.

(** The function evaluated in the page by the fallback (lines 487-509). *)
Fixpoint firstLongContainer (page : Page) (containers : list selector)
  : option string :=
  match containers with
  | [] => None
  | containerSelector :: rest =>
      match page_querySelector page containerSelector with
      | Some container =>
          match trimmed (innerText container) with
          | JsStr text =>
              if longerThan 100 text then Some text
              else firstLongContainer page rest
          | _ => firstLongContainer page rest
          end
      | None => firstLongContainer page rest
      end
  end.

Definition extractArticleContent (page : Page) : M (option string) :=
  _ ← delay 3000;
  requiresLogin ← checkIfArticleRequiresLogin page;
  if (requiresLogin : bool) then
    _ ← console_log "Article requires login/subscription - skipping";
    mret None
  else
    specific ← specificSelectors page (contentSelectors SELECTOR_REGISTRY);
    match specific with
    | Some returned => mret returned
    | None =>
        fallback ←
          try_catch
            (content ← page_evaluate page (EvEvaluate FallbackScan)
                         (Returned (firstLongContainer page fallbackContainers));
             match content with
             | Some content =>
                 let contentLower := Js.toLowerCase content in
                 if negb (Js.includesAny contentLower restrictedPhrases) then
                   _ ← console_log
                         ("Fallback extraction successful ("
                          +:+ pretty (String.length content) +:+ " characters)");
                   mret (Some content)
                 else mret None
             | None => mret None
             end)
            (fun error =>
               _ ← console_log ("Fallback content extraction failed: "
                                +:+ message error);
               mret None);
        match fallback with
        | Some content => mret (Some content)
        | None =>
            _ ← console_log "No publicly available content found";
            mret None
        end
    end.

(** ** Scrolling (lines 81-98)

    The function evaluated in the page scrolls by 500 pixels every 200
    milliseconds and stops at the first firing of the timer after which
    the distance scrolled has reached the height the document had at that
    firing.  [heightAt k] is [document.body.scrollHeight] at the firing
    number [k] (the document may grow while it is scrolled); the result is
    the number of firings, [None] when the fuel runs out first. *)
Fixpoint scrollLoop (fuel : nat) (heightAt : nat -> Z) (firing : nat)
    (totalHeight : Z) : option nat :=
  match fuel with
  | O => None
  | S fuel' =>
      let distance := 500 in
      let scrollHeight := heightAt firing in
      let totalHeight := totalHeight + distance in
      if scrollHeight <=? totalHeight then Some (S firing)
      else scrollLoop fuel' heightAt (S firing) totalHeight
  end.

Definition autoScroll_inPage (fuel : nat) (heightAt : nat -> Z) : option nat :=
  scrollLoop fuel heightAt 0 0.

(** [await page.evaluate(...)] of that function: the promise it answers
    is fulfilled when the loop ends.  The loop has no bound of its own
    and the program sets none; a browser that gives up on the call
    rejects it, which is [page_fault].  [patience] is the number of
    firings of the timer for which the run is watched, and a scroll that
    has not ended by then is pending. *)
Definition autoScroll (patience : nat) (page : Page) : M unit :=
  page_evaluate page (EvEvaluate AutoScroll)
    (match autoScroll_inPage patience (page_scrollHeight page) with
     | Some _ => Settled (Returned tt)
     | None => Pending
     end).

(** ** The orchestrator (lines 538-727) *)

(** Everything outside the program.  [goto url] is the answer of
    [page.goto(url)]: the page as it stands once loaded, or a rejection.
    The tab the program opens for an article is named by the link of the
    article: [newPage link] is the answer of [browser.newPage()] for it,
    [isClosed link] what [articlePage.isClosed()] answers when the
    [finally] asks, and [closePage link] the answer of
    [articlePage.close()].  [patience] is the number of firings of the
    scroll timer for which a scroll is watched.

    The start of the browser and of its listing page (lines 539-565) and
    the calls of [browser.close()] are taken to succeed: the embedding
    describes the runs that reach the sheet with a browser that obeys
    when told to close.  The interception of style sheet and image
    requests changes nothing the program reads and is left out. *)
Record World : Type := {
  host : Host;
  env : Env;
  sheets : Sheets;
  goto : jsval -> outcome Page;
  newPage : jsval -> outcome unit;
  isClosed : jsval -> bool;
  closePage : jsval -> outcome unit;
  patience : nat;
  network : Network
}.

(** How an iteration of the article loop ends: by [continue] or by
    reaching the end of its body. *)
Inductive ending : Type := Continued | Completed.

(** The counters [articlesStoredForThisStock] and [skippedDueToLogin]. *)
Definition counters : Type := (nat * nat)%type.

Definition articleLabel (index total : nat) (stockSymbol : jsval) : string :=
  pretty (index + 1)%nat +:+ "/" +:+ pretty total +:+ " for "
  +:+ Js.toStr stockSymbol.

(** The [try] of an iteration and its [catch] (lines 640-702): the
    counters after the iteration and the way it ends.  (The two set-up
    calls that open the [try] are left out: a rejection of one of them
    takes the path of a rejected navigation.  Of the object logged before
    the request the trace keeps the headline.) *)
Definition processArticle_try (w : World) (stockSymbol : jsval) (total : nat)
    (index : nat) (article : Article) (c : counters) : M (counters * ending) :=
  try_catch
    (articlePage ← call (EvGoto (link article) 15000) (goto w (link article));
     _ ← console_log "Checking if article requires login...";
     content ← extractArticleContent articlePage;
     match content with
     | Some content =>
         if String.eqb content "" then
           _ ← console_log ("Skipping article " +:+ pretty (index + 1)%nat
                            +:+ " for " +:+ Js.toStr stockSymbol
                            +:+ " - no accessible content (likely requires login/subscription)");
           mret ((c.1, S c.2), Continued)
         else
           let wpData :=
             {| wp_headline := headline article;
                wp_content := content;
                wp_symbol := Js.or (symbol article) stockSymbol;
                wp_provider := provider article;
                wp_timestamp := timestamp article |} in
           _ ← console_log ("Data to be sent to WordPress: "
                            +:+ Js.toStr (headline article));
           stored ← storeInWordPress (host w) (env w) (network w) wpData;
           if (stored : bool) then
             _ ← console_log ("Successfully stored article "
                              +:+ articleLabel index total stockSymbol
                              +:+ " in WordPress");
             mret ((S c.1, c.2), Completed)
           else mret (c, Completed)
     | None =>
         _ ← console_log ("Skipping article " +:+ pretty (index + 1)%nat
                          +:+ " for " +:+ Js.toStr stockSymbol
                          +:+ " - no accessible content (likely requires login/subscription)");
         mret ((c.1, S c.2), Continued)
     end)
    (fun error =>
       _ ← console_error ("Error processing article "
                          +:+ pretty (index + 1)%nat +:+ " for "
                          +:+ Js.toStr stockSymbol +:+ ": "
                          +:+ message error);
       mret (c, Completed)).

(** One iteration of the loop over [articlesOnPage] (lines 625-711).
    [browser.newPage()] is awaited before the [try]; the [finally] closes
    the tab unless it is closed already. *)
Definition processArticle (w : World) (stockSymbol : jsval) (total : nat)
    (index : nat) (article : Article) (c : counters) : M counters :=
  if negb (Js.truthy (link article)) then
    _ ← console_log ("Skipping article " +:+ pretty (index + 1)%nat
                     +:+ " with no link for " +:+ Js.toStr stockSymbol);
    mret c
  else
    _ ← call EvNewPage (newPage w (link article));
    _ ← console_log ("Processing article " +:+ articleLabel index total stockSymbol
                     +:+ ": " +:+ quote +:+ Js.toStr (headline article)
                     +:+ quote);
    r ← try_finally
          (processArticle_try w stockSymbol total index article c)
          (if negb (isClosed w (link article)) then
             call EvClosePage (closePage w (link article))
           else mret tt);
    match r.2 with
    | Continued => mret r.1
    | Completed => _ ← delay 1000; mret r.1
    end.

Fixpoint forArticles (w : World) (stockSymbol : jsval) (total : nat)
    (index : nat) (articles : list Article) (c : counters) : M counters :=
  match articles with
  | [] => mret c
  | article :: rest =>
      c' ← processArticle w stockSymbol total index article c;
      forArticles w stockSymbol total (S index) rest c'
  end.

(** One iteration of the loop over [stockUrls] (lines 584-718). *)
Definition processStock (w : World) (stockEntry : StockEntry) : M unit :=
  let stockName := se_Stock_name stockEntry in
  let stockSymbol := se_Symbol stockEntry in
  let stockLink := se_link stockEntry in
  _ ← console_log (newline +:+ "Processing news for " +:+ Js.toStr stockName +:+ " ("
                   +:+ Js.toStr stockSymbol +:+ ") from "
                   +:+ Js.toStr stockLink +:+ " ---");
  loaded ← try_catch
             (page ← call (EvGoto stockLink 30000) (goto w stockLink);
              _ ← console_log ("Successfully loaded news page for "
                               +:+ Js.toStr stockSymbol +:+ ".");
              _ ← delay 3000;
              mret (Some page))
             (fun error =>
                _ ← console_error ("Failed to load news page for "
                                   +:+ Js.toStr stockSymbol +:+ ": "
                                   +:+ message error);
                mret None);
  match loaded with
  | None => mret tt
  | Some page =>
      _ ← autoScroll (patience w) page;
      _ ← delay 2000;
      articlesOnPage ← trySelectors (host w) page SELECTOR_REGISTRY stockSymbol;
      _ ← console_log ("Found " +:+ pretty (length articlesOnPage)
                       +:+ " recent articles on " +:+ Js.toStr stockSymbol
                       +:+ "'s news page.");
      c ← forArticles w stockSymbol (length articlesOnPage) 0 articlesOnPage
                      (0%nat, 0%nat);
      _ ← console_log ("Finished processing " +:+ Js.toStr stockSymbol +:+ ": "
                       +:+ pretty c.1 +:+ " articles stored, " +:+ pretty c.2
                       +:+ " skipped (login required).");
      delay 2000
  end.

Fixpoint forStocks (w : World) (stockUrls : list StockEntry) : M unit :=
  match stockUrls with
  | [] => mret tt
  | stockEntry :: rest => _ ← processStock w stockEntry; forStocks w rest
  end.

Definition scrapeTradingViewNews (w : World) : M unit :=
  _ ← emit EvLaunch;
  _ ← emit EvNewPage;
  retrieved ←
    try_catch
      (stockUrls ← getStockUrlsFromSheet (env w) (sheets w);
       if (length stockUrls =? 0)%nat then
         _ ← console_log "No stock URLs found to process. Exiting.";
         _ ← emit EvCloseBrowser;
         mret None
       else mret (Some stockUrls))
      (fun error =>
         _ ← console_error ("Failed to retrieve stock URLs from Google Sheet: "
                            +:+ message error);
         _ ← emit EvCloseBrowser;
         mret None);
  match retrieved with
  | None => mret tt
  | Some stockUrls =>
      _ ← forStocks w stockUrls;
      _ ← console_log (newline +:+ "--- Scraping Complete ---");
      _ ← console_log "Finished processing all stock URLs from Google Sheet.";
      _ ← emit EvCloseBrowser;
      console_log (newline +:+ "Browser closed.")
  end.

(** [scrapeTradingViewNews().catch(console.error)] (line 727);
    [console.error] prints the error with its stack, the trace keeps the
    message. *)
Definition main (w : World) : M unit :=
  try_catch (scrapeTradingViewNews w)
            (fun error => console_error (message error)).

(** ** Observations on a trace *)

(** The POST requests of a trace, in order. *)
Definition posts (t : list event) : list (jsval * Payload) :=
  omap (fun ev => match ev with
                  | EvPost url body => Some (url, body)
                  | _ => None
                  end) t.

(** The addresses a trace navigates to, in order. *)
Definition navigations (t : list event) : list jsval :=
  omap (fun ev => match ev with
                  | EvGoto url _ => Some url
                  | _ => None
                  end) t.

(** The in-page functions a trace evaluates, in order. *)
Definition evaluations (t : list event) : list evaluation :=
  omap (fun ev => match ev with
                  | EvEvaluate what => Some what
                  | _ => None
                  end) t.

(** ** A concrete host for the examples

    The clock stands at 2026-11-03T00:00:00Z; the dates are the ISO
    strings of the table with their time values. *)
Definition exampleDates : list (string * Z) :=
  [ ("2026-11-04T00:00:00.000Z", 1793750400000);
    ("2026-11-02T09:30:00.000Z", 1793611800000);
    ("2026-11-01T12:00:00.000Z", 1793534400000);
    ("2026-10-20T00:00:00.000Z", 1792454400000) ].

Fixpoint lookupDate (table : list (string * Z)) (s : string) : option Z :=
  match table with
  | [] => None
  | (k, t) :: rest => if String.eqb k s then Some t else lookupDate rest s
  end.

Fixpoint lookupIso (table : list (string * Z)) (t : Z) : string :=
  match table with
  | [] => "1970-01-01"
  | (k, t') :: rest =>
      if t' =? t then String.substring 0 10 k else lookupIso rest t
  end.

Definition exampleHost : Host :=
  {| Date_parse := lookupDate exampleDates;
     Date_now := 1793664000000;
     Date_isoDate := lookupIso exampleDates |}.

(** An environment without [WP_API_URL], an endpoint that accepts every
    request, and an article published the day before. *)
Definition exampleEnv : Env :=
  {| WP_API_URL := JsUndefined;
     WP_USER := JsStr "editor";
     WP_PASS := JsStr "secret";
     SHEET_ID := JsStr "sheet-1";
     SHEET_NAME := JsStr "Stocks" |}.

Definition acceptingNetwork : Network := fun _ _ => Returned "ok".

Definition exampleData : WpData :=
  {| wp_headline := JsStr "Nifty ends flat";
     wp_content := "Indian shares ended flat on Monday as gains in banks offset losses in IT.";
     wp_symbol := JsStr "NIFTY";
     wp_provider := JsStr "Reuters";
     wp_timestamp := JsStr "2026-11-02T09:30:00.000Z" |}.

Definition staleData : WpData :=
  {| wp_headline := JsStr "Nifty ends flat";
     wp_content := "Indian shares ended flat on Monday as gains in banks offset losses in IT.";
     wp_symbol := JsStr "NIFTY";
     wp_provider := JsStr "Reuters";
     wp_timestamp := JsStr "2026-10-20T00:00:00.000Z" |}.

(** A sheet whose header row lacks the [Symbol] column, and a world around
    it in which every navigation would succeed. *)
Definition sheetWithoutSymbol : Sheets :=
  {| authorize := Returned tt;
     values_get := fun range =>
       if String.eqb range "Stocks!1:1"
       then Returned (Some [["Scrap_Link"; "Stock name"]])
       else Returned (Some [["Scrap_Link"; "Stock name"];
                            ["https://in.tradingview.com/symbols/NSE-NIFTY/news/";
                             "Nifty 50"]]) |}.

Definition emptyPage : Page :=
  {| page_cards := fun _ => [];
     page_querySelector := fun _ => None;
     page_querySelectorAll := fun _ => [];
     page_scrollHeight := fun _ => 1200;
     page_fault := fun _ => None |}.

Definition worldWithoutSymbol : World :=
  {| host := exampleHost;
     env := exampleEnv;
     sheets := sheetWithoutSymbol;
     goto := fun _ => Returned emptyPage;
     newPage := fun _ => Returned tt;
     isClosed := fun _ => false;
     closePage := fun _ => Returned tt;
     patience := 100;
     network := acceptingNetwork |}.

(** An element with a rendered text and nothing else. *)
Definition textElement (text : string) : Node :=
  {| attributes := [];
     textContent := JsStr text;
     innerText := JsStr text;
     href := JsUndefined;
     src := "";
     offsetParent_isNull := false |}.

(** An article page with a provider line and an element of class
    [paywall]. *)
Definition paywalledPage (providerLine : string) : Page :=
  {| page_cards := fun _ => [];
     page_querySelector := fun sel =>
       if decide (sel = any [Contains "class" "provider"])
       then Some (textElement providerLine)
       else if decide (sel = any [Contains "class" "paywall"])
       then Some (textElement "Subscribe")
       else None;
     page_querySelectorAll := fun _ => [];
     page_scrollHeight := fun _ => 1200;
     page_fault := fun _ => None |}.

(** The same page in a browser that rejects the visible-text scan. *)
Definition crashingPage : Page :=
  {| page_cards := fun _ => [];
     page_querySelector := page_querySelector (paywalledPage "Bloomberg");
     page_querySelectorAll := fun _ => [];
     page_scrollHeight := fun _ => 1200;
     page_fault := fun ev =>
       if decide (ev = EvEvaluate LoginIndicatorScan)
       then Some (Error "Execution context was destroyed")
       else None |}.

(** An article page whose only text is that of the element the first
    content selector finds. *)
Definition bodyPage (text : string) : Page :=
  {| page_cards := fun _ => [];
     page_querySelector := fun sel =>
       if decide (sel = any [ClassIs "body-KX2tCBZq"])
       then Some (textElement text)
       else None;
     page_querySelectorAll := fun _ => [];
     page_scrollHeight := fun _ => 1200;
     page_fault := fun _ => None |}.

Definition text40 : string := "  Markets were flat on Monday; banks rose.  ".
Definition text60restricted : string :=
  "Sign In To Read Exclusive News on this week's stock markets.".
Definition text60clean : string :=
  "  Indian shares ended flat on Monday as banks offset IT losses  ".

(** A card of a listing page: a link whose title is in an [h3] and whose
    time is the [datetime] attribute of a [time] element; no provider
    element, no icon. *)
Definition newsCard (title time url : string) : Card :=
  {| card_element :=
       {| attributes := [("href", url)];
          textContent := JsStr title;
          innerText := JsStr title;
          href := JsStr url;
          src := "";
          offsetParent_isNull := false |};
     card_querySelector := fun sel =>
       if decide (sel = tag "h3") then Some (textElement title)
       else if decide (sel = tag "time") then
         Some {| attributes := [("datetime", time)];
                 textContent := JsStr "";
                 innerText := JsStr "";
                 href := JsUndefined;
                 src := "";
                 offsetParent_isNull := false |}
       else None;
     card_querySelectorAll := fun _ => [];
     card_closest := fun _ => None |}.

(** A listing page that renders one recent story twice, next to a story
    of two weeks ago and a teaser for subscribers. *)
Definition listingPage : Page :=
  {| page_cards := fun sels =>
       if decide (sels = articleSelectors SELECTOR_REGISTRY) then
         [ newsCard "Nifty ends flat" "2026-11-02T09:30:00.000Z"
                    "https://in.tradingview.com/news/nifty-ends-flat/";
           newsCard "Sensex hits record" "2026-10-20T00:00:00.000Z"
                    "https://in.tradingview.com/news/sensex-hits-record/";
           newsCard "Premium content: the week ahead" "2026-11-02T09:30:00.000Z"
                    "https://in.tradingview.com/news/the-week-ahead/";
           newsCard "Nifty ends flat" "2026-11-02T09:30:00.000Z"
                    "https://in.tradingview.com/news/nifty-ends-flat/" ]
       else [];
     page_querySelector := fun _ => None;
     page_querySelectorAll := fun _ => [];
     page_scrollHeight := fun _ => 1200;
     page_fault := fun _ => None |}.

Definition listedArticle : Article :=
  {| headline := JsStr "Nifty ends flat";
     provider := JsStr "Unknown";
     timestamp := JsStr "2026-11-02T09:30:00.000Z";
     link := JsStr "https://in.tradingview.com/news/nifty-ends-flat/";
     symbol := JsStr "NIFTY" |}.

(** Two articles that differ in headline and in timestamp and whose keys
    are the same string. *)
Definition articleA : Article :=
  {| headline := JsStr "Nifty ends flat";
     provider := JsStr "Unknown";
     timestamp := JsStr "Mon-2-Nov-2026";
     link := JsStr "https://in.tradingview.com/news/nifty-ends-flat/";
     symbol := JsStr "NIFTY" |}.

Definition articleB : Article :=
  {| headline := JsStr "Nifty ends flat-Mon";
     provider := JsStr "Unknown";
     timestamp := JsStr "2-Nov-2026";
     link := JsStr "https://in.tradingview.com/news/nifty-ends-flat-mon/";
     symbol := JsStr "NIFTY" |}.

(** A host whose [Date] reads both timestamps as the second of November,
    and a listing page with a card for each of the two articles. *)
Definition lenientHost : Host :=
  {| Date_parse := lookupDate [ ("Mon-2-Nov-2026", 1793577600000);
                                ("2-Nov-2026", 1793577600000) ];
     Date_now := 1793664000000;
     Date_isoDate := fun _ => "2026-11-02" |}.

Definition collidingPage : Page :=
  {| page_cards := fun sels =>
       if decide (sels = articleSelectors SELECTOR_REGISTRY) then
         [ newsCard "Nifty ends flat" "Mon-2-Nov-2026"
                    "https://in.tradingview.com/news/nifty-ends-flat/";
           newsCard "Nifty ends flat-Mon" "2-Nov-2026"
                    "https://in.tradingview.com/news/nifty-ends-flat-mon/" ]
       else [];
     page_querySelector := fun _ => None;
     page_querySelectorAll := fun _ => [];
     page_scrollHeight := fun _ => 1200;
     page_fault := fun _ => None |}.

(** The identity of an article according to the data model: its headline,
    its timestamp and its symbol. *)
Definition triple (a : Article) : jsval * jsval * jsval :=
  (headline a, timestamp a, symbol a).

(** A sheet with the three columns, one stock with a link and one row
    without, and the world in which the listing page above is behind that
    link and every article link leads to a page with a clean body. *)
Definition exampleSheet : Sheets :=
  {| authorize := Returned tt;
     values_get := fun range =>
       if String.eqb range "Stocks!1:1"
       then Returned (Some [["Symbol"; "Stock name"; "Scrap_Link"]])
       else Returned
              (Some [["Symbol"; "Stock name"; "Scrap_Link"];
                     ["NIFTY"; "Nifty 50";
                      "https://in.tradingview.com/symbols/NSE-NIFTY/news/"];
                     ["SENSEX"; "BSE Sensex"]]) |}.

Definition exampleWorld : World :=
  {| host := exampleHost;
     env := exampleEnv;
     sheets := exampleSheet;
     goto := fun url =>
       if decide (url = JsStr "https://in.tradingview.com/symbols/NSE-NIFTY/news/")
       then Returned listingPage
       else Returned (bodyPage text60clean);
     newPage := fun _ => Returned tt;
     isClosed := fun _ => false;
     closePage := fun _ => Returned tt;
     patience := 100;
     network := acceptingNetwork |}.


(** A host for which a timestamp of two days and a half ago parses. *)
Definition archiveHost : Host :=
  {| Date_parse := lookupDate [("2026-10-31T12:00:00.000Z", 1793448000000)];
     Date_now := 1793664000000;
     Date_isoDate := fun _ => "2026-10-31" |}.

(** A card whose [h3] is empty and whose title sits in the [title]
    attribute of a [h4]; it shows the icons of two symbols. *)
Definition iconNode (url : string) : Node :=
  {| attributes := [("src", url)];
     textContent := JsStr "";
     innerText := JsStr "";
     href := JsUndefined;
     src := url;
     offsetParent_isNull := false |}.

Definition iconCard : Card :=
  {| card_element := textElement "";
     card_querySelector := fun sel =>
       if decide (sel = tag "h3") then Some (textElement "   ")
       else if decide (sel = tag "h4") then
         Some {| attributes := [("title", "Tata Motors beats estimates")];
                 textContent := JsStr "Tata Motors beats...";
                 innerText := JsStr "Tata Motors beats...";
                 href := JsUndefined;
                 src := "";
                 offsetParent_isNull := false |}
       else None;
     card_querySelectorAll := fun sel =>
       if decide (sel = InPage.svgImages) then
         [ iconNode "https://s3-symbol-logo.tradingview.com/tata-motors.svg";
           iconNode "https://s3-symbol-logo.tradingview.com/country/IN.svg" ]
       else [];
     card_closest := fun _ => None |}.


(** An endpoint that rejects every request with the answer of the
    server. *)
Definition rejectingNetwork : Network := fun _ _ =>
  Thrown {| message := "Request failed with status code 401";
            code := None;
            response_data := Some "rest_forbidden" |}.


(** An endpoint whose rejections carry an empty answer. *)
Definition silentNetwork : Network := fun _ _ =>
  Thrown {| message := "Request failed with status code 502";
            code := None;
            response_data := Some EmptyString |}.


(** A spreadsheet service that refuses the authorization, one that
    refuses to serve the sheet, and worlds around them. *)
Definition unauthorizedSheet : Sheets :=
  {| authorize := Thrown (Error "invalid_grant");
     values_get := fun _ => Returned None |}.

Definition forbiddenSheet : Sheets :=
  {| authorize := Returned tt;
     values_get := fun _ =>
       Thrown {| message := "The caller does not have permission";
                 code := Some 403;
                 response_data := None |} |}.

Definition worldWith (sh : Sheets) : World :=
  {| host := exampleHost;
     env := exampleEnv;
     sheets := sh;
     goto := fun _ => Returned emptyPage;
     newPage := fun _ => Returned tt;
     isClosed := fun _ => false;
     closePage := fun _ => Returned tt;
     patience := 100;
     network := acceptingNetwork |}.

(** What a request to the publishing endpoint must satisfy: the
    configured address, a headline that is not empty and carries no
    restricted indicator, a text of more than 50 characters without
    restricted phrase, and a provider. *)
Definition safePost (url : jsval) (post : jsval * Payload) : Prop :=
  post.1 = url
  /\ Js.truthy (Headline post.2) = true
  /\ Js.includesAny (Js.toLowerCase (Js.toStr (Headline post.2)))
                    InPage.restrictedIndicators = false
  /\ (50 < String.length (Fullarticle post.2))%nat
  /\ Js.includesAny (Js.toLowerCase (Fullarticle post.2)) restrictedPhrases
     = false
  /\ Js.truthy (Provider post.2) = true.

(** The events of a trace that start or end the browser or a page, in
    order. *)
Definition browserEvents (t : list event) : list event :=
  filter (fun ev => ev = EvLaunch \/ ev = EvNewPage \/ ev = EvClosePage
                    \/ ev = EvCloseBrowser) t.

(** The events that open or close the tab of an article. *)
Definition tabEvent (ev : event) : Prop := ev = EvNewPage \/ ev = EvClosePage.

(** The browser fails the tab of an article with the error [e]: it
    rejects the opening of the tab, or it rejects the closing of a tab
    that does not say it is closed. *)
Definition tabFails (w : World) (e : jsError) (article : Article) : Prop :=
  Js.truthy (link article) = true
  /\ (newPage w (link article) = Thrown e
      \/ (newPage w (link article) = Returned tt
          /\ isClosed w (link article) = false
          /\ closePage w (link article) = Thrown e)).

(** The selectors a trace waits for, in order. *)
Definition waits (t : list event) : list selector :=
  omap (fun ev => match ev with
                  | EvWaitForSelector sel _ => Some sel
                  | _ => None
                  end) t.

(** A world whose one stock has a listing page on which the scroll is
    rejected, and one whose listing page does not load. *)
Definition unscrollablePage : Page :=
  {| page_cards := page_cards listingPage;
     page_querySelector := fun _ => None;
     page_querySelectorAll := fun _ => [];
     page_scrollHeight := fun _ => 1200;
     page_fault := fun ev =>
       if decide (ev = EvEvaluate AutoScroll)
       then Some (Error "Execution context was destroyed")
       else None |}.

Definition niftyEntry : StockEntry :=
  {| se_Symbol := JsStr "NIFTY";
     se_Stock_name := JsStr "Nifty 50";
     se_link := JsStr "https://in.tradingview.com/symbols/NSE-NIFTY/news/" |}.

Definition worldWithPage (answer : outcome Page) : World :=
  {| host := exampleHost;
     env := exampleEnv;
     sheets := exampleSheet;
     goto := fun url =>
       if decide (url = JsStr "https://in.tradingview.com/symbols/NSE-NIFTY/news/")
       then answer
       else Returned (bodyPage text60clean);
     newPage := fun _ => Returned tt;
     isClosed := fun _ => false;
     closePage := fun _ => Returned tt;
     patience := 100;
     network := acceptingNetwork |}.

(** The world of the example with a browser that refuses to close the
    tabs of the articles. *)
Definition stubbornTabWorld : World :=
  {| host := exampleHost;
     env := exampleEnv;
     sheets := exampleSheet;
     goto := goto exampleWorld;
     newPage := fun _ => Returned tt;
     isClosed := fun _ => false;
     closePage := fun _ =>
       Thrown (Error "Protocol error (Target.closeTarget): Target closed");
     patience := 100;
     network := acceptingNetwork |}.

(** The listing page of the example as a feed that loads more stories
    whenever its end comes near: at every firing of the scroll timer the
    document is higher than the distance scrolled. *)
Definition endlessPage : Page :=
  {| page_cards := page_cards listingPage;
     page_querySelector := fun _ => None;
     page_querySelectorAll := fun _ => [];
     page_scrollHeight := fun k => 600 * (Z.of_nat k + 1);
     page_fault := fun _ => None |}.

(** An article page without the element of the first content selector:
    a [div] of a class [body-...] holds a teaser, a [div] of a class
    [content-...] the text, and the element with the [articleBody] item
    property a clean text. *)
Definition contentPage (teaser text : string) : Page :=
  {| page_cards := fun _ => [];
     page_querySelector := fun sel =>
       if decide (sel = tagged "div" [Contains "class" "body-"])
       then Some (textElement teaser)
       else if decide (sel = tagged "div" [Contains "class" "content-"])
       then Some (textElement text)
       else if decide (sel = any [Equals "itemprop" "articleBody"])
       then Some (textElement text60clean)
       else None;
     page_querySelectorAll := fun _ => [];
     page_scrollHeight := fun _ => 1200;
     page_fault := fun _ => None |}.

(** An article page without provider line and without any of the login
    elements, whose one container shows a notice, or hides it. *)
Definition noticePage (notice : string) (hidden : bool) : Page :=
  {| page_cards := fun _ => [];
     page_querySelector := fun _ => None;
     page_querySelectorAll := fun sels =>
       if decide (sels = visibleContainers) then
         [ {| attributes := [];
              textContent := JsStr notice;
              innerText := JsStr notice;
              href := JsUndefined;
              src := "";
              offsetParent_isNull := hidden |} ]
       else [];
     page_scrollHeight := fun _ => 1200;
     page_fault := fun _ => None |}.

(** * Properties *)

(** ** The model at work *)

Example trim_examples :
  Js.trim "  a b  " = "a b" /\ Js.trim "   " = "" /\ Js.trim "" = "".
Proof. repeat split. Qed.

Example includes_examples :
  Js.includes "abc" "" = true /\ Js.includes "abc" "bc" = true
  /\ Js.includes "abc" "cb" = false
  /\ Js.includes (Js.toLowerCase "Premium CONTENT inside") "premium content" = true.
Proof. repeat split. Qed.

Example indexOf_examples :
  indexOf ["Symbol"; "Stock name"; "Scrap_Link"] "Scrap_Link" = 2
  /\ indexOf ["Symbol"; "Stock name"] "Scrap_Link" = -1.
Proof. split; reflexivity. Qed.

Example iconCode_examples :
  InPage.iconCode "https://s3-symbol-logo.tradingview.com/tata-motors.svg"
  = JsStr "tatamotors"
  /\ InPage.iconCode "https://s3-symbol-logo.tradingview.com/nifty.png" = JsNull
  /\ InPage.iconCode "logo.svg" = JsNull
  /\ InPage.iconCode "https://s3-symbol-logo.tradingview.com/.svg" = JsNull.
Proof. repeat split. Qed.

(** One stock, one listing page with four cards of which one survives,
    one article stored. *)
Example a_whole_run :
  result (main exampleWorld) = Returned tt
  /\ navigations (trace (main exampleWorld))
     = [ JsStr "https://in.tradingview.com/symbols/NSE-NIFTY/news/";
         JsStr "https://in.tradingview.com/news/nifty-ends-flat/" ]
  /\ posts (trace (main exampleWorld))
     = [ (JsStr DEFAULT_WP_API_URL,
          {| Headline := JsStr "Nifty ends flat";
             Fullarticle :=
               "Indian shares ended flat on Monday as banks offset IT losses";
             Provider := JsStr "Unknown";
             Symbol := JsStr "NIFTY";
             date := "2026-11-02" |}) ].
Proof. repeat split; vm_compute; reflexivity. Qed.

(** Every phrase and provider name the program searches for is written
    in lower case: searching the lower-cased text for it is a search
    without regard to case. *)
Example phrases_are_lower_case :
  Forall (fun p => Js.toLowerCase p = p)
         (restrictedPhrases ++ InPage.restrictedIndicators
          ++ loginIndicatorPhrases ++ knownFreeProviders).
Proof. repeat constructor. Qed.

(** ** Numbers *)

Lemma MS_PER_DAY_pos : MS_PER_DAY = Z.pos 86400000.
Proof. reflexivity. Qed.

Lemma floor_of_days (a b : Z) (d : positive) :
  Num.floor (Num.div (Num.sub (Num.ofZ a) (Num.ofZ b)) (Num.ofZ (Z.pos d)))
  = Num.ofZ ((a - b) / Z.pos d).
Proof.
  unfold Num.floor, Num.div, Num.sub, Num.ofZ.
  unfold Qminus, Qplus, Qopp, Qdiv, Qinv, Qmult, inject_Z, Qfloor; simpl.
  rewrite !Z.mul_1_r. reflexivity.
Qed.

Lemma le_of_days (a b w : Z) (d : positive) :
  Num.le (Num.div (Num.sub (Num.ofZ a) (Num.ofZ b)) (Num.ofZ (Z.pos d)))
         (Num.ofZ w)
  = (a - b <=? w * Z.pos d).
Proof.
  unfold Num.le, Num.div, Num.sub, Num.ofZ.
  unfold Qminus, Qplus, Qopp, Qdiv, Qinv, Qmult, inject_Z, Qle_bool; simpl.
  rewrite !Z.mul_1_r. reflexivity.
Qed.

Lemma le_ofZ (a b : Z) : Num.le (Num.ofZ a) (Num.ofZ b) = (a <=? b).
Proof.
  unfold Num.le, Num.ofZ, Qle_bool, inject_Z; simpl.
  rewrite !Z.mul_1_r. reflexivity.
Qed.

(** ** The two recency checks as integer arithmetic *)

Lemma isRecentArticle_eq (h : Host) (t : jsval) (w : Z) :
  isRecentArticle h t w =
  mret (Js.truthy t &&
        match Date_new h t with
        | Some p => (Date_now h - p) / MS_PER_DAY <=? w
        | None => false
        end).
Proof.
  unfold isRecentArticle.
  destruct (Js.truthy t); cbn [negb andb]; [|reflexivity].
  destruct (Date_new h t) as [p|]; [|reflexivity].
  rewrite MS_PER_DAY_pos. cbn [Num.ofTime].
  rewrite floor_of_days, le_ofZ. reflexivity.
Qed.

Lemma inPage_isRecentArticle_eq (h : Host) (t : jsval) (w : Z) :
  InPage.isRecentArticle h t w =
  match Date_new h t with
  | Some p => Date_now h - p <=? w * MS_PER_DAY
  | None => false
  end.
Proof.
  unfold InPage.isRecentArticle.
  destruct (Date_new h t) as [p|]; [|reflexivity].
  rewrite MS_PER_DAY_pos. cbn [Num.ofTime].
  apply le_of_days.
Qed.

(** ** The monad *)

Lemma bind_ret_l {A B : Type} (a : A) (f : A -> M B) : (mret a ≫= f) = f a.
Proof. unfold mbind, mret, M_bind, M_ret; simpl. destruct (f a); reflexivity. Qed.

Lemma result_bind {A B : Type} (m : M A) (f : A -> M B) :
  result (m ≫= f) =
  match result m with
  | Settled (Returned a) => result (f a)
  | Settled (Thrown e) => Thrown e
  | Pending => Pending
  end.
Proof. unfold mbind, M_bind. destruct (result m) as [[a|e]|]; reflexivity. Qed.

Lemma trace_bind {A B : Type} (m : M A) (f : A -> M B) :
  trace (m ≫= f) =
  match result m with
  | Settled (Returned a) => trace m ++ trace (f a)
  | _ => trace m
  end.
Proof. unfold mbind, M_bind. destruct (result m) as [[a|e]|]; reflexivity. Qed.

Lemma posts_app (t1 t2 : list event) : posts (t1 ++ t2) = posts t1 ++ posts t2.
Proof. apply omap_app. Qed.

Lemma navigations_app (t1 t2 : list event) :
  navigations (t1 ++ t2) = navigations t1 ++ navigations t2.
Proof. apply omap_app. Qed.

Lemma evaluations_app (t1 t2 : list event) :
  evaluations (t1 ++ t2) = evaluations t1 ++ evaluations t2.
Proof. apply omap_app. Qed.

(** ** Recency *)

(** C1.  The module-level recency check never throws and logs nothing.  On
    a present timestamp that parses to the time value [p] it answers true
    exactly when the whole-day difference [floor((now - p) / 1 day)] is at
    most the window; a timestamp in the future (negative difference) is
    recent for every window of zero days or more; a missing (null,
    undefined, empty) or unparsable timestamp is not recent. *)
Theorem isRecentArticle_whole_day_window (h : Host) (t : jsval) (w : Z) :
  (exists b : bool, isRecentArticle h t w = mret b) /\
  (forall p : Z,
      Js.truthy t = true -> Date_new h t = Some p ->
      (isRecentArticle h t w = mret true <->
       (Date_now h - p) / MS_PER_DAY <= w) /\
      (Date_now h - p < 0 -> 0 <= w -> isRecentArticle h t w = mret true)) /\
  (Js.truthy t = false \/ Date_new h t = None ->
   isRecentArticle h t w = mret false).
Proof.
  rewrite isRecentArticle_eq. split; [eauto|]. split.
  - intros p Ht Hp. rewrite Ht, Hp. cbn [andb]. split.
    + split.
      * intros H. injection H as H. apply Z.leb_le in H. exact H.
      * intros H. apply Z.leb_le in H. rewrite H. reflexivity.
    + intros Hneg Hw.
      assert ((Date_now h - p) / MS_PER_DAY < 0) as Hd.
      { apply Z.div_lt_upper_bound; [reflexivity | lia]. }
      assert (((Date_now h - p) / MS_PER_DAY <=? w) = true) as ->
          by (apply Z.leb_le; lia).
      reflexivity.
  - intros [Ht | Hp].
    + rewrite Ht. reflexivity.
    + rewrite Hp. destruct (Js.truthy t); reflexivity.
Qed.

Lemma isRecentArticle_whole_day_window_witness :
  isRecentArticle exampleHost (JsStr "2026-11-04T00:00:00.000Z") 1 = mret true
  /\ isRecentArticle exampleHost (JsStr "2026-11-01T12:00:00.000Z") 1 = mret true
  /\ isRecentArticle exampleHost (JsStr "yesterday") 1 = mret false.
Proof.
  pose proof (isRecentArticle_whole_day_window exampleHost
                (JsStr "2026-11-04T00:00:00.000Z") 1) as (_ & Hfuture & _).
  pose proof (isRecentArticle_whole_day_window exampleHost
                (JsStr "2026-11-01T12:00:00.000Z") 1) as (_ & Hpast & _).
  pose proof (isRecentArticle_whole_day_window exampleHost
                (JsStr "yesterday") 1) as (_ & _ & Hbad).
  split; [|split].
  - destruct (Hfuture 1793750400000 eq_refl eq_refl) as [_ Hf].
    apply Hf; [reflexivity | lia].
  - destruct (Hpast 1793534400000 eq_refl eq_refl) as [[_ Hp] _].
    apply Hp. vm_compute. discriminate.
  - apply Hbad. right. reflexivity.
Defined.

(** The module-level check and the helper declared in the page do not
    compute the same boolean: at an age of a day and a half and a window
    of one day the first answers true, the second false; on [null] and a
    window that reaches back to 1970 the first answers false, the second
    true. *)
Lemma recency_helpers_differ :
  isRecentArticle exampleHost (JsStr "2026-11-01T12:00:00.000Z") 1 = mret true
  /\ InPage.isRecentArticle exampleHost (JsStr "2026-11-01T12:00:00.000Z") 1
     = false
  /\ isRecentArticle exampleHost (JsStr "2026-11-01T12:00:00.000Z") 1
     <> mret (InPage.isRecentArticle exampleHost
                (JsStr "2026-11-01T12:00:00.000Z") 1)
  /\ isRecentArticle exampleHost JsNull 30000 = mret false
  /\ InPage.isRecentArticle exampleHost JsNull 30000 = true.
Proof. repeat split; vm_compute; congruence. Qed.

(** C4, amended.  On a present timestamp, whenever the helper declared in
    the page answers true the module-level check answers true as well,
    and the two answer the same boolean exactly when the age of the
    timestamp does not lie strictly between [w] days and [w + 1] days:
    there the module-level check, which floors the age to whole days,
    answers true and the in-page helper, which compares the fractional
    age, answers false. *)
Theorem recency_helpers_agree_up_to_partial_day (h : Host) (t : jsval) (w : Z) :
  Js.truthy t = true ->
  (InPage.isRecentArticle h t w = true -> isRecentArticle h t w = mret true) /\
  (isRecentArticle h t w = mret (InPage.isRecentArticle h t w) <->
   forall p : Z, Date_new h t = Some p ->
     ~ (w * MS_PER_DAY < Date_now h - p < (w + 1) * MS_PER_DAY)).
Proof.
  intros Ht. rewrite isRecentArticle_eq, inPage_isRecentArticle_eq, Ht.
  cbn [andb]. destruct (Date_new h t) as [p|].
  - pose proof (Z.div_mod (Date_now h - p) MS_PER_DAY ltac:(discriminate)) as Hdm.
    pose proof (Z.mod_pos_bound (Date_now h - p) MS_PER_DAY eq_refl) as Hmod.
    set (q := (Date_now h - p) / MS_PER_DAY) in *.
    set (r := (Date_now h - p) mod MS_PER_DAY) in *.
    split.
    + intros H. apply Z.leb_le in H.
      assert ((q <=? w) = true) as -> by (apply Z.leb_le; nia).
      reflexivity.
    + split.
      * intros H p' [= <-] [Hlo Hhi].
        assert ((q <=? w) = true) as Hq by (apply Z.leb_le; nia).
        assert ((Date_now h - p <=? w * MS_PER_DAY) = false) as Hi
            by (apply Z.leb_gt; lia).
        rewrite Hq, Hi in H. discriminate.
      * intros H. specialize (H p eq_refl). f_equal.
        destruct (Z.leb_spec q w) as [Hq|Hq];
          destruct (Z.leb_spec (Date_now h - p) (w * MS_PER_DAY)) as [Hd|Hd];
          try reflexivity; exfalso.
        -- apply H. nia.
        -- nia.
  - split; [discriminate|]. split; [intros _ p' Hp; discriminate | intros _; reflexivity].
Qed.

Lemma recency_helpers_agree_up_to_partial_day_witness :
  InPage.isRecentArticle exampleHost (JsStr "2026-11-02T09:30:00.000Z") 3 = true
  /\ isRecentArticle exampleHost (JsStr "2026-11-02T09:30:00.000Z") 3 = mret true.
Proof.
  split; [reflexivity|].
  destruct (recency_helpers_agree_up_to_partial_day exampleHost
              (JsStr "2026-11-02T09:30:00.000Z") 3 eq_refl) as [Himp _].
  apply Himp. reflexivity.
Defined.

(** ** Storage *)

Lemma wpApiUrl_truthy (env : Env) : Js.truthy (wpApiUrl (CONFIG env)) = true.
Proof.
  unfold CONFIG, Js.or; simpl.
  destruct (Js.truthy (WP_API_URL env)) eqn:E; [exact E | reflexivity].
Qed.

Lemma storeInWordPress_stale (h : Host) (env : Env) (net : Network)
    (data : WpData) :
  isRecentArticle h (wp_timestamp data) 1 = mret false ->
  storeInWordPress h env net data =
  mkM [EvLog "Skipping storage - article is not recent"] (Returned false).
Proof.
  intros H. unfold storeInWordPress.
  rewrite wpApiUrl_truthy, H, bind_ret_l. reflexivity.
Qed.

Lemma storeInWordPress_recent (h : Host) (env : Env) (net : Network)
    (data : WpData) :
  isRecentArticle h (wp_timestamp data) 1 = mret true ->
  exists p : Z,
    Date_new h (wp_timestamp data) = Some p /\
    let url := wpApiUrl (CONFIG env) in
    let body := {| Headline := wp_headline data;
                   Fullarticle := wp_content data;
                   Provider := Js.or (wp_provider data) (JsStr "General");
                   Symbol := wp_symbol data;
                   date := Date_isoDate h p |} in
    storeInWordPress h env net data =
    match net url body with
    | Returned response =>
        mkM [EvPost url body; EvLog ("Stored in WordPress: " +:+ response)]
            (Returned true)
    | Thrown error =>
        mkM [EvPost url body;
             EvError ("WP API Error: " +:+
                      Js.toStr (Js.or (optional (response_data error))
                                      (JsStr (message error))))]
            (Returned false)
    end.
Proof.
  intros H. pose proof H as H'. rewrite isRecentArticle_eq in H'.
  injection H' as H'. apply andb_prop in H' as [Ht Hd].
  destruct (Date_new h (wp_timestamp data)) as [p|] eqn:Hp; [|discriminate].
  exists p. split; [reflexivity|]. intros url body.
  unfold storeInWordPress. rewrite wpApiUrl_truthy, H, bind_ret_l.
  cbn [negb]. unfold isoDateOf. rewrite Hp, bind_ret_l.
  fold url. fold body.
  unfold try_catch, call, console_log, console_error, emit, mbind, M_bind,
    mret, M_ret.
  cbn [result trace].
  destruct (net url body); reflexivity.
Qed.

Lemma isRecentArticle_cases (h : Host) (t : jsval) (w : Z) :
  isRecentArticle h t w = mret true \/ isRecentArticle h t w = mret false.
Proof.
  rewrite isRecentArticle_eq.
  match goal with |- mret ?b = _ \/ _ => destruct b end; auto.
Qed.

(** C7.  For every environment, endpoint and article: when the timestamp
    of the article fails the 1-day recency window, [storeInWordPress]
    returns false and its trace holds no POST request; a POST request
    appears in the trace only for an article that passes the window. *)
Theorem storeInWordPress_posts_only_recent (h : Host) (env : Env)
    (net : Network) (data : WpData) :
  (isRecentArticle h (wp_timestamp data) 1 = mret false ->
   result (storeInWordPress h env net data) = Returned false /\
   posts (trace (storeInWordPress h env net data)) = []) /\
  (posts (trace (storeInWordPress h env net data)) <> [] ->
   isRecentArticle h (wp_timestamp data) 1 = mret true).
Proof.
  split.
  - intros H. rewrite (storeInWordPress_stale h env net data H). split; reflexivity.
  - intros Hposts.
    destruct (isRecentArticle_cases h (wp_timestamp data) 1) as [H|H]; [exact H|].
    rewrite (storeInWordPress_stale h env net data H) in Hposts.
    exfalso. apply Hposts. reflexivity.
Qed.

Lemma storeInWordPress_posts_only_recent_witness :
  result (storeInWordPress exampleHost exampleEnv acceptingNetwork staleData)
  = Returned false
  /\ posts (trace (storeInWordPress exampleHost exampleEnv acceptingNetwork
                     staleData)) = []
  /\ isRecentArticle exampleHost (wp_timestamp exampleData) 1 = mret true.
Proof.
  destruct (storeInWordPress_posts_only_recent exampleHost exampleEnv
              acceptingNetwork staleData) as [Hstale _].
  destruct (storeInWordPress_posts_only_recent exampleHost exampleEnv
              acceptingNetwork exampleData) as [_ Hrecent].
  split; [apply Hstale; reflexivity|].
  split; [apply Hstale; reflexivity|].
  apply Hrecent. vm_compute. discriminate.
Defined.

(** Without [WP_API_URL] in the environment the storage step is not
    skipped: the article of the example is posted to the built-in
    endpoint. *)
Lemma absent_url_still_posts :
  posts (trace (storeInWordPress exampleHost exampleEnv acceptingNetwork
                  exampleData))
  = [ (JsStr "https://profitbooking.in/wp-json/scraper/v1/tradingview",
       {| Headline := JsStr "Nifty ends flat";
          Fullarticle := wp_content exampleData;
          Provider := JsStr "Reuters";
          Symbol := JsStr "NIFTY";
          date := "2026-11-02" |}) ]
  /\ result (storeInWordPress exampleHost exampleEnv acceptingNetwork
               exampleData) = Returned true.
Proof. split; vm_compute; reflexivity. Qed.

(** C10, amended.  When the publishing endpoint URL is absent from the
    environment (undefined or empty), the configuration falls back to the
    built-in endpoint and storage is not skipped: the call returns
    without raising, an article inside the 1-day window is posted, once,
    to the built-in endpoint, and an article outside of it is not
    posted. *)
Theorem absent_url_falls_back_to_default (h : Host) (env : Env)
    (net : Network) (data : WpData) :
  Js.truthy (WP_API_URL env) = false ->
  wpApiUrl (CONFIG env) = JsStr DEFAULT_WP_API_URL /\
  (exists b : bool, result (storeInWordPress h env net data) = Returned b) /\
  (isRecentArticle h (wp_timestamp data) 1 = mret true ->
   exists body : Payload,
     posts (trace (storeInWordPress h env net data))
     = [(JsStr DEFAULT_WP_API_URL, body)]
     /\ Headline body = wp_headline data
     /\ Fullarticle body = wp_content data) /\
  (isRecentArticle h (wp_timestamp data) 1 = mret false ->
   posts (trace (storeInWordPress h env net data)) = []).
Proof.
  intros Henv.
  assert (wpApiUrl (CONFIG env) = JsStr DEFAULT_WP_API_URL) as Hurl.
  { unfold CONFIG, Js.or; simpl. rewrite Henv. reflexivity. }
  split; [exact Hurl|]. split; [|split].
  - destruct (isRecentArticle_cases h (wp_timestamp data) 1) as [H|H].
    + destruct (storeInWordPress_recent h env net data H) as (p & _ & ->).
      destruct (net _ _); eauto.
    + rewrite (storeInWordPress_stale h env net data H). eauto.
  - intros H.
    destruct (storeInWordPress_recent h env net data H) as (p & _ & Heq).
    cbv zeta in Heq. rewrite Heq, Hurl. clear Heq.
    exists {| Headline := wp_headline data;
              Fullarticle := wp_content data;
              Provider := Js.or (wp_provider data) (JsStr "General");
              Symbol := wp_symbol data;
              date := Date_isoDate h p |}.
    split; [|split; reflexivity].
    destruct (net _ _); reflexivity.
  - intros H. rewrite (storeInWordPress_stale h env net data H). reflexivity.
Qed.

Lemma absent_url_falls_back_to_default_witness :
  wpApiUrl (CONFIG exampleEnv) = JsStr DEFAULT_WP_API_URL
  /\ exists b : bool,
       result (storeInWordPress exampleHost exampleEnv acceptingNetwork
                 exampleData) = Returned b.
Proof.
  destruct (absent_url_falls_back_to_default exampleHost exampleEnv
              acceptingNetwork exampleData eq_refl) as (Hurl & Hret & _).
  split; [exact Hurl | exact Hret].
Defined.

(** ** Deduplication *)

Lemma uniqueFrom_elem (seen : gset string) (l : list Article) (a : Article) :
  a ∈ InPage.uniqueFrom seen l -> a ∈ l /\ InPage.key a ∉ seen.
Proof.
  revert seen. induction l as [|x l IH]; intros seen; simpl.
  - intros H. inversion H.
  - destruct (decide (InPage.key x ∈ seen)) as [Hin|Hnin].
    + intros H. apply IH in H as [H1 H2]. split; [right; exact H1 | exact H2].
    + intros H. apply elem_of_cons in H as [->|H].
      * split; [left | exact Hnin].
      * apply IH in H as [H1 H2]. split; [right; exact H1 | set_solver].
Qed.

Lemma uniqueFrom_sublist (seen : gset string) (l : list Article) :
  sublist (InPage.uniqueFrom seen l) l.
Proof.
  revert seen. induction l as [|x l IH]; intros seen; simpl.
  - constructor.
  - destruct (decide (InPage.key x ∈ seen)).
    + apply sublist_cons, IH.
    + apply sublist_skip, IH.
Qed.

Lemma uniqueFrom_keys_NoDup (seen : gset string) (l : list Article) :
  NoDup (map InPage.key (InPage.uniqueFrom seen l)).
Proof.
  revert seen. induction l as [|x l IH]; intros seen; simpl.
  - constructor.
  - destruct (decide (InPage.key x ∈ seen)); [apply IH|].
    simpl. constructor; [|apply IH].
    intros Hin. apply list_elem_of_fmap in Hin as (y & Hk & Hy).
    apply uniqueFrom_elem in Hy as [_ Hy]. apply Hy. rewrite <- Hk. set_solver.
Qed.

(** An article is kept exactly when no article before it has its key. *)
Lemma uniqueFrom_app (seen : gset string) (l1 l2 : list Article) :
  InPage.uniqueFrom seen (l1 ++ l2) =
  InPage.uniqueFrom seen l1 ++
  InPage.uniqueFrom (list_to_set (map InPage.key l1) ∪ seen) l2.
Proof.
  revert seen. induction l1 as [|x l1 IH]; intros seen; simpl.
  - f_equal. set_solver.
  - destruct (decide (InPage.key x ∈ seen)) as [Hin|Hnin].
    + rewrite IH. f_equal. f_equal. set_solver.
    + simpl. rewrite IH. f_equal. f_equal. f_equal. set_solver.
Qed.

Lemma uniqueArticles_keeps_first (l1 l2 : list Article) (a : Article) :
  InPage.key a ∉ map InPage.key l1 ->
  exists kept rest,
    InPage.uniqueArticles (l1 ++ a :: l2) = kept ++ a :: rest
    /\ kept = InPage.uniqueArticles l1.
Proof.
  intros Hfresh. unfold InPage.uniqueArticles. rewrite uniqueFrom_app. simpl.
  destruct (decide (InPage.key a ∈ list_to_set (map InPage.key l1) ∪ (∅ : gset string)))
    as [Hin|Hnin].
  - exfalso. apply Hfresh. set_solver.
  - eauto.
Qed.

Lemma uniqueArticles_drops_repeat (l1 l2 : list Article) (a : Article) :
  InPage.key a ∈ map InPage.key l1 ->
  InPage.uniqueArticles (l1 ++ a :: l2) = InPage.uniqueArticles (l1 ++ l2).
Proof.
  intros Hold. unfold InPage.uniqueArticles. rewrite !uniqueFrom_app. simpl.
  destruct (decide (InPage.key a ∈ list_to_set (map InPage.key l1) ∪ (∅ : gset string)))
    as [Hin|Hnin]; [reflexivity|].
  exfalso. apply Hnin. set_solver.
Qed.

(** Articles with the same headline, timestamp and symbol have the same
    key, so the later one is dropped. *)
Lemma key_of_triple (a b : Article) : triple a = triple b -> InPage.key a = InPage.key b.
Proof. unfold triple, InPage.key. intros [= -> -> ->]. reflexivity. Qed.

(** C2, at the failing input.  The two articles differ in headline and in
    timestamp, yet the loop keeps the first only: both keys are the string
    [Nifty ends flat-Mon-2-Nov-2026-NIFTY].  Each of the two survives when
    it is alone, and both are what the extractor builds from the two cards
    of a listing page. *)
Theorem dedupe_key_collision :
  triple articleA <> triple articleB
  /\ InPage.key articleA = InPage.key articleB
  /\ InPage.uniqueArticles [articleA; articleB] = [articleA]
  /\ InPage.uniqueArticles [articleB] = [articleB]
  /\ omap (InPage.extractCard lenientHost SELECTOR_REGISTRY (JsStr "NIFTY"))
          (page_cards collidingPage (articleSelectors SELECTOR_REGISTRY))
     = [articleA; articleB]
  /\ result (trySelectors lenientHost collidingPage SELECTOR_REGISTRY
               (JsStr "NIFTY")) = Returned [articleA].
Proof.
  split; [discriminate|]. split; [reflexivity|].
  repeat split; vm_compute; reflexivity.
Qed.

(** ** The sheet and the start of a run *)

Lemma indexOf_absent (headers : list string) (name : string) :
  indexOf headers name = -1 <-> name ∉ headers.
Proof.
  assert (forall hs, -1 <= indexOf hs name) as Hge.
  { induction hs as [|x hs IH]; simpl; [lia|].
    destruct (String.eqb x name); [lia|].
    destruct (Z.eqb_spec (indexOf hs name) (-1)); lia. }
  induction headers as [|x hs IH]; simpl.
  - split; [intros _ H; inversion H | reflexivity].
  - destruct (String.eqb_spec x name) as [->|Hne].
    + split; [discriminate | intros H; exfalso; apply H; left].
    + destruct (Z.eqb_spec (indexOf hs name) (-1)) as [He|He].
      * split; [|reflexivity]. intros _ Hin.
        apply elem_of_cons in Hin as [->|Hin]; [congruence|].
        apply IH in Hin; [exact Hin | exact He].
      * split.
        -- specialize (Hge hs). lia.
        -- intros Hnin. exfalso. apply He, IH.
           intros Hin. apply Hnin. right. exact Hin.
Qed.

Lemma getStockUrlsFromSheet_missing_header (env : Env) (sh : Sheets)
    (headers : list string) (more : list (list string)) :
  authorize sh = Returned tt ->
  values_get sh (sheetName env +:+ "!1:1") = Returned (Some (headers :: more)) ->
  "Scrap_Link" ∉ headers \/ "Symbol" ∉ headers \/ "Stock name" ∉ headers ->
  getStockUrlsFromSheet env sh =
  mkM [EvAuthorize;
       EvLog "NewsProcessor: Google Sheet authentication successful.";
       EvSheetGet (sheetName env +:+ "!1:1");
       EvError ("Error accessing Google Sheet: " +:+
                match headers with
                | [] => "Could not read headers from the Google Sheet. Make sure the sheet is not empty."
                | _ => "Required columns (Scrap_Link, Symbol, Stock name) not found in the Google Sheet."
                end)]
      (Returned []).
Proof.
  intros Hauth Hvals Hmiss.
  unfold getStockUrlsFromSheet. rewrite Hauth, Hvals.
  assert (((indexOf headers "Scrap_Link" =? -1) || (indexOf headers "Symbol" =? -1)
           || (indexOf headers "Stock name" =? -1)) = true) as Hcond.
  { rewrite !orb_true_iff, !Z.eqb_eq, !indexOf_absent. tauto. }
  destruct headers as [|h0 hs]; [reflexivity|].
  unfold mbind, M_bind, call, console_log, emit, mret, M_ret, try_catch.
  cbn [result trace length Nat.eqb].
  rewrite Hcond. reflexivity.
Qed.

Lemma scrapeTradingViewNews_no_stocks (w : World) (t : list event) :
  getStockUrlsFromSheet (env w) (sheets w) = mkM t (Returned []) ->
  scrapeTradingViewNews w =
  mkM ([EvLaunch; EvNewPage] ++ t
       ++ [EvLog "No stock URLs found to process. Exiting."; EvCloseBrowser])
      (Returned tt).
Proof.
  intros H. unfold scrapeTradingViewNews. rewrite H.
  unfold mbind, M_bind, try_catch, console_log, emit, mret, M_ret.
  cbn. rewrite !app_nil_r. reflexivity.
Qed.

(** With the [Symbol] header missing, the sheet reader does not raise: it
    logs the error and answers the empty list, and the run leaves through
    the exit of an empty sheet, returning normally. *)
Lemma missing_header_exits_cleanly :
  getStockUrlsFromSheet exampleEnv sheetWithoutSymbol =
  mkM [EvAuthorize;
       EvLog "NewsProcessor: Google Sheet authentication successful.";
       EvSheetGet "Stocks!1:1";
       EvError "Error accessing Google Sheet: Required columns (Scrap_Link, Symbol, Stock name) not found in the Google Sheet."]
      (Returned [])
  /\ scrapeTradingViewNews worldWithoutSymbol =
     mkM [EvLaunch; EvNewPage; EvAuthorize;
          EvLog "NewsProcessor: Google Sheet authentication successful.";
          EvSheetGet "Stocks!1:1";
          EvError "Error accessing Google Sheet: Required columns (Scrap_Link, Symbol, Stock name) not found in the Google Sheet.";
          EvLog "No stock URLs found to process. Exiting.";
          EvCloseBrowser]
         (Returned tt).
Proof. split; vm_compute; reflexivity. Qed.

(** C3, amended.  When the header row of the sheet lacks any of
    [Scrap_Link], [Symbol] and [Stock name], the sheet reader logs the
    configuration error, raises nothing and answers the empty list; the
    run then logs that there are no stock URLs, closes the browser and
    returns normally, and no page navigation occurs. *)
Theorem missing_header_ends_run_before_navigation (w : World)
    (headers : list string) (more : list (list string)) :
  authorize (sheets w) = Returned tt ->
  values_get (sheets w) (sheetName (env w) +:+ "!1:1")
  = Returned (Some (headers :: more)) ->
  "Scrap_Link" ∉ headers \/ "Symbol" ∉ headers \/ "Stock name" ∉ headers ->
  result (getStockUrlsFromSheet (env w) (sheets w)) = Returned [] /\
  (exists line : string,
      EvError ("Error accessing Google Sheet: " +:+ line)
      ∈ trace (getStockUrlsFromSheet (env w) (sheets w))) /\
  result (scrapeTradingViewNews w) = Returned tt /\
  navigations (trace (scrapeTradingViewNews w)) = [] /\
  (exists t : list event,
      trace (scrapeTradingViewNews w) =
      t ++ [EvLog "No stock URLs found to process. Exiting."; EvCloseBrowser]).
Proof.
  intros Hauth Hvals Hmiss.
  pose proof (getStockUrlsFromSheet_missing_header
                (env w) (sheets w) headers more Hauth Hvals Hmiss) as Hget.
  rewrite (scrapeTradingViewNews_no_stocks w _ Hget), Hget.
  cbn [result trace]. split; [reflexivity|]. split.
  - eexists. do 3 right. left.
  - split; [reflexivity|]. split; [reflexivity|].
    eexists. rewrite app_assoc. reflexivity.
Qed.

Lemma missing_header_ends_run_before_navigation_witness :
  result (scrapeTradingViewNews worldWithoutSymbol) = Returned tt
  /\ navigations (trace (scrapeTradingViewNews worldWithoutSymbol)) = [].
Proof.
  destruct (missing_header_ends_run_before_navigation worldWithoutSymbol
              ["Scrap_Link"; "Stock name"] [] eq_refl eq_refl)
    as (_ & _ & Hres & Hnav & _).
  - right. left. intros Hin. repeat (apply elem_of_cons in Hin as [Hin|Hin];
      [discriminate|]). inversion Hin.
  - split; [exact Hres | exact Hnav].
Defined.

(** ** The access gate *)

Lemma result_try_catch {A : Type} (body : M A) (handler : jsError -> M A) :
  result (try_catch body handler) =
  match result body with
  | Settled (Returned a) => Returned a
  | Settled (Thrown e) => result (handler e)
  | Pending => Pending
  end.
Proof.
  unfold try_catch.
  destruct (result body) as [[a|e]|] eqn:E; [exact E | reflexivity | exact E].
Qed.

Lemma trace_try_catch {A : Type} (body : M A) (handler : jsError -> M A) :
  trace (try_catch body handler) =
  match result body with
  | Settled (Thrown e) => trace body ++ trace (handler e)
  | _ => trace body
  end.
Proof. unfold try_catch. destruct (result body) as [[a|e]|]; reflexivity. Qed.

(** The three evaluations of the gate settle. *)
Lemma checkIfArticleRequiresLogin_body_settles (page : Page) :
  exists o : outcome bool,
    result (checkIfArticleRequiresLogin_body page) = Settled o.
Proof.
  unfold checkIfArticleRequiresLogin_body, page_evaluate.
  rewrite result_bind. cbn [call result].
  destruct (page_fault page (EvEvaluate ProviderScan)); [eauto|].
  destruct (existsb _ _); [rewrite result_bind; cbn; eauto|].
  rewrite result_bind. cbn [call result].
  destruct (page_fault page (EvEvaluate LoginIndicatorScan)); [eauto|].
  rewrite result_bind. cbn [call result].
  destruct (page_fault page (EvEvaluate LoginElementScan)); cbn; eauto.
Qed.

(** C9.  The gate returns a boolean for every page, whatever the browser
    rejects; when its evaluation raises an error, the error is caught,
    logged, and the gate returns false. *)
Theorem checkIfArticleRequiresLogin_fails_open (page : Page) :
  (exists b : bool, result (checkIfArticleRequiresLogin page) = Returned b) /\
  (forall e : jsError,
      result (checkIfArticleRequiresLogin_body page) = Thrown e ->
      result (checkIfArticleRequiresLogin page) = Returned false /\
      trace (checkIfArticleRequiresLogin page) =
      trace (checkIfArticleRequiresLogin_body page)
      ++ [EvLog ("Error during login check: " +:+ message e)]).
Proof.
  unfold checkIfArticleRequiresLogin.
  rewrite result_try_catch, trace_try_catch. split.
  - destruct (checkIfArticleRequiresLogin_body_settles page) as [[b|e] ->];
      eauto.
  - intros e ->. split; reflexivity.
Qed.

Lemma checkIfArticleRequiresLogin_fails_open_witness :
  result (checkIfArticleRequiresLogin_body crashingPage)
  = Thrown (Error "Execution context was destroyed")
  /\ result (checkIfArticleRequiresLogin crashingPage) = Returned false.
Proof.
  split; [reflexivity|].
  destruct (checkIfArticleRequiresLogin_fails_open crashingPage) as [_ Hcaught].
  apply (Hcaught (Error "Execution context was destroyed")). reflexivity.
Defined.

(** The scan of the visible text answers true exactly when a container
    that is laid out shows one of the phrases. *)
Lemma loginIndicatorsOf_spec (page : Page) :
  loginIndicatorsOf page = true <->
  exists (el : Node) (text phrase : string),
    el ∈ page_querySelectorAll page visibleContainers
    /\ offsetParent_isNull el = false
    /\ innerText el = JsStr text
    /\ phrase ∈ loginIndicatorPhrases
    /\ Js.includes (Js.toLowerCase text) phrase = true.
Proof.
  unfold loginIndicatorsOf. rewrite existsb_exists. split.
  - intros (el & Hel & Hphrase).
    apply list_elem_of_In, list_elem_of_filter in Hel as [Hvisible Hel].
    apply existsb_exists in Hphrase as (phrase & Hin & Hincl).
    unfold textIncludes in Hincl.
    destruct (innerText el) as [| |text] eqn:Htext; try discriminate.
    exists el, text, phrase. repeat split; try assumption.
    apply list_elem_of_In. exact Hin.
  - intros (el & text & phrase & Hel & Hvisible & Htext & Hin & Hincl).
    exists el. split.
    + apply list_elem_of_In, list_elem_of_filter. split; assumption.
    + apply existsb_exists. exists phrase. split.
      * apply list_elem_of_In. exact Hin.
      * unfold textIncludes. rewrite Htext. exact Hincl.
Qed.

(** The scan for login elements answers true exactly when one of its
    selectors finds an element. *)
Lemma hasLoginElementsOf_spec (page : Page) :
  hasLoginElementsOf page = true <->
  exists sel : selector,
    sel ∈ loginSelectors /\ is_Some (page_querySelector page sel).
Proof.
  unfold hasLoginElementsOf. rewrite existsb_exists. split.
  - intros (sel & Hin & Hfound). exists sel. split.
    + apply list_elem_of_In. exact Hin.
    + apply bool_decide_eq_true in Hfound. exact Hfound.
  - intros (sel & Hin & Hfound). exists sel. split.
    + apply list_elem_of_In. exact Hin.
    + apply bool_decide_eq_true. exact Hfound.
Qed.

(** Without a provider element, without a text in it, or with a text that
    holds none of the names, no known free provider is detected. *)
Lemma no_known_free_provider (page : Page) :
  (forall (el : Node) (text name : string),
      page_querySelector page (any [Contains "class" "provider"]) = Some el ->
      innerText el = JsStr text ->
      name ∈ knownFreeProviders ->
      Js.includes (Js.trim (Js.toLowerCase text)) name = false) ->
  existsb (Js.includes (providerTextOf page)) knownFreeProviders = false.
Proof.
  intros Hnone. unfold providerTextOf.
  destruct (page_querySelector page (any [Contains "class" "provider"]))
    as [el|]; [|reflexivity].
  destruct (innerText el) as [| |text] eqn:Htext; try reflexivity.
  destruct (existsb _ _) eqn:E; [|reflexivity].
  apply existsb_exists in E as (name & Hin & Hincl).
  rewrite (Hnone el text name eq_refl Htext) in Hincl; [discriminate|].
  apply list_elem_of_In. exact Hin.
Qed.

(** C6.  When the provider scan runs and the provider text (the rendered
    text of the first provider element, lower-cased and trimmed) contains
    a known free provider, the gate returns false and evaluates nothing
    else in the page, whatever paywall elements the document holds;
    otherwise, when the two further scans run, the gate returns the
    disjunction of the visible-text scan and the login-element scan: it
    returns true exactly when a container that is laid out ([div],
    [section], [article] or [header] with an [offsetParent]) shows one of
    the login phrases in its rendered text, compared in lower case, or
    one of the login selectors finds an element. *)
Theorem known_free_provider_short_circuits (page : Page) :
  page_fault page (EvEvaluate ProviderScan) = None ->
  (forall (el : Node) (text name : string),
      page_querySelector page (any [Contains "class" "provider"]) = Some el ->
      innerText el = JsStr text ->
      name ∈ knownFreeProviders ->
      Js.includes (Js.trim (Js.toLowerCase text)) name = true ->
      result (checkIfArticleRequiresLogin page) = Returned false /\
      evaluations (trace (checkIfArticleRequiresLogin page)) = [ProviderScan]) /\
  (existsb (Js.includes (providerTextOf page)) knownFreeProviders = true ->
   result (checkIfArticleRequiresLogin page) = Returned false /\
   evaluations (trace (checkIfArticleRequiresLogin page)) = [ProviderScan]) /\
  (existsb (Js.includes (providerTextOf page)) knownFreeProviders = false ->
   page_fault page (EvEvaluate LoginIndicatorScan) = None ->
   page_fault page (EvEvaluate LoginElementScan) = None ->
   result (checkIfArticleRequiresLogin page)
   = Returned (loginIndicatorsOf page || hasLoginElementsOf page) /\
   evaluations (trace (checkIfArticleRequiresLogin page))
   = [ProviderScan; LoginIndicatorScan; LoginElementScan]) /\
  ((forall (el : Node) (text name : string),
       page_querySelector page (any [Contains "class" "provider"]) = Some el ->
       innerText el = JsStr text ->
       name ∈ knownFreeProviders ->
       Js.includes (Js.trim (Js.toLowerCase text)) name = false) ->
   page_fault page (EvEvaluate LoginIndicatorScan) = None ->
   page_fault page (EvEvaluate LoginElementScan) = None ->
   (exists b : bool, result (checkIfArticleRequiresLogin page) = Returned b) /\
   evaluations (trace (checkIfArticleRequiresLogin page))
   = [ProviderScan; LoginIndicatorScan; LoginElementScan] /\
   (result (checkIfArticleRequiresLogin page) = Returned true <->
    (exists (el : Node) (text phrase : string),
        el ∈ page_querySelectorAll page visibleContainers
        /\ offsetParent_isNull el = false
        /\ innerText el = JsStr text
        /\ phrase ∈ loginIndicatorPhrases
        /\ Js.includes (Js.toLowerCase text) phrase = true)
    \/ (exists sel : selector,
           sel ∈ loginSelectors /\ is_Some (page_querySelector page sel)))).
Proof.
  intros Hprov.
  assert (existsb (Js.includes (providerTextOf page)) knownFreeProviders = true ->
          result (checkIfArticleRequiresLogin page) = Returned false /\
          evaluations (trace (checkIfArticleRequiresLogin page)) = [ProviderScan])
    as Hshort.
  { intros Hfree.
    unfold checkIfArticleRequiresLogin, checkIfArticleRequiresLogin_body,
      page_evaluate.
    rewrite Hprov.
    unfold mbind, M_bind, call, try_catch, console_log, emit, mret, M_ret.
    cbn [result trace]. rewrite Hfree. split; reflexivity. }
  assert (existsb (Js.includes (providerTextOf page)) knownFreeProviders = false ->
          page_fault page (EvEvaluate LoginIndicatorScan) = None ->
          page_fault page (EvEvaluate LoginElementScan) = None ->
          result (checkIfArticleRequiresLogin page)
          = Returned (loginIndicatorsOf page || hasLoginElementsOf page) /\
          evaluations (trace (checkIfArticleRequiresLogin page))
          = [ProviderScan; LoginIndicatorScan; LoginElementScan]) as Hscans.
  { intros Hfree Hind Hels.
    unfold checkIfArticleRequiresLogin, checkIfArticleRequiresLogin_body,
      page_evaluate.
    rewrite Hprov, Hind, Hels.
    unfold mbind, M_bind, call, try_catch, console_log, emit, mret, M_ret.
    cbn [result trace]. rewrite Hfree. split; reflexivity. }
  split; [|split; [|split]].
  - intros el text name Hel Htext Hname Hincl. apply Hshort.
    unfold providerTextOf. rewrite Hel, Htext.
    apply existsb_exists. exists name. split; [|exact Hincl].
    apply list_elem_of_In. exact Hname.
  - exact Hshort.
  - exact Hscans.
  - intros Hnone Hind Hels.
    destruct (Hscans (no_known_free_provider page Hnone) Hind Hels)
      as [Hres Hevals].
    split; [eauto|]. split; [exact Hevals|].
    rewrite Hres, <- loginIndicatorsOf_spec, <- hasLoginElementsOf_spec.
    rewrite <- orb_true_iff. split; [intros [= ->]; reflexivity|].
    intros ->. reflexivity.
Qed.

Lemma known_free_provider_short_circuits_witness :
  hasLoginElementsOf (paywalledPage "  REUTERS India ") = true
  /\ result (checkIfArticleRequiresLogin (paywalledPage "  REUTERS India "))
     = Returned false
  /\ result (checkIfArticleRequiresLogin (paywalledPage "Bloomberg"))
     = Returned true
  /\ result (checkIfArticleRequiresLogin
               (noticePage "Subscribe to read the full story." false))
     = Returned true
  /\ result (checkIfArticleRequiresLogin
               (noticePage "Subscribe to read the full story." true))
     <> Returned true.
Proof.
  split; [reflexivity|].
  destruct (known_free_provider_short_circuits
              (paywalledPage "  REUTERS India ") eq_refl) as (Hfree & _ & _).
  destruct (known_free_provider_short_circuits
              (paywalledPage "Bloomberg") eq_refl) as (_ & _ & Hother & _).
  destruct (known_free_provider_short_circuits
              (noticePage "Subscribe to read the full story." false) eq_refl)
    as (_ & _ & _ & Hshown).
  destruct (known_free_provider_short_circuits
              (noticePage "Subscribe to read the full story." true) eq_refl)
    as (_ & _ & _ & Hhidden).
  split; [|split; [|split]].
  - apply (Hfree (textElement "  REUTERS India ") "  REUTERS India " "reuters");
      [reflexivity | reflexivity | | reflexivity].
    right. left.
  - apply Hother; reflexivity.
  - destruct Hshown as (_ & _ & [_ Htrue]);
      [intros el text name Hel; discriminate Hel | reflexivity | reflexivity|].
    apply Htrue. left.
    eexists _, "Subscribe to read the full story.", "subscribe to read".
    split; [left|]. split; [reflexivity|]. split; [reflexivity|].
    split; [do 2 right; left | reflexivity].
  - destruct Hhidden as (_ & _ & [Hfalse _]);
      [intros el text name Hel; discriminate Hel | reflexivity | reflexivity|].
    intros Htrue.
    destruct (Hfalse Htrue)
      as [(el & text & phrase & Hel & Hvisible & _) | (sel & _ & Hfound)].
    + apply list_elem_of_singleton in Hel. subst el. discriminate Hvisible.
    + destruct Hfound as [x Hx]. discriminate Hx.
Defined.

(** ** The content extractor *)

Lemma checkIfArticleRequiresLogin_returns (page : Page) :
  exists b : bool, result (checkIfArticleRequiresLogin page) = Returned b.
Proof.
  unfold checkIfArticleRequiresLogin. rewrite result_try_catch.
  destruct (checkIfArticleRequiresLogin_body_settles page) as [[b|e] ->];
    eauto.
Qed.

Lemma longerThan_spec (n : nat) (content : string) :
  longerThan n content = true <-> (n < String.length content)%nat.
Proof.
  unfold longerThan. rewrite andb_true_iff, Nat.ltb_lt. split; [tauto|].
  intros H. split; [|exact H].
  destruct content; [simpl in H; lia | reflexivity].
Qed.

Ltac run_monad :=
  unfold mbind, M_bind, call, try_catch, console_log, emit, delay, mret,
    M_ret, throw;
  cbn [result trace].

(** One round of the loop on a selector whose element is found and read. *)
Lemma specificSelectors_reads (page : Page) (sel : selector)
    (rest : list selector) (el : Node) (raw : string) :
  page_querySelector page sel = Some el ->
  innerText el = JsStr raw ->
  page_fault page (EvWaitForSelector sel 3000) = None ->
  page_fault page (EvEvaluate (InnerText sel)) = None ->
  specificSelectors page (sel :: rest) =
  let content := Js.trim raw in
  if longerThan 50 content then
    if Js.includesAny (Js.toLowerCase content) restrictedPhrases then
      mkM [EvWaitForSelector sel 3000; EvEvaluate (InnerText sel);
           EvLog "Content contains restricted phrases - skipping"]
          (Returned (Some None))
    else
      mkM [EvWaitForSelector sel 3000; EvEvaluate (InnerText sel);
           EvLog ("Successfully extracted content ("
                  +:+ pretty (String.length content) +:+ " characters)")]
          (Returned (Some (Some content)))
  else
    mkM ([EvWaitForSelector sel 3000; EvEvaluate (InnerText sel)]
         ++ trace (specificSelectors page rest))
        (result (specificSelectors page rest)).
Proof.
  intros Hel Htext Hwait Heval. cbn [specificSelectors].
  unfold waitForSelector, evalInnerTextTrim, page_evaluate.
  rewrite Hel, Htext, Hwait, Heval. cbv zeta.
  run_monad.
  destruct (longerThan 50 (Js.trim raw)); cbn [result trace].
  - destruct (Js.includesAny _ _); reflexivity.
  - reflexivity.
Qed.

(** One round of the loop on any page: it moves on to the next selector,
    or it has read a long text and returns [null] or that text. *)
Lemma specificSelectors_cases (page : Page) (sel : selector)
    (rest : list selector) :
  (exists t, specificSelectors page (sel :: rest) =
             mkM (t ++ trace (specificSelectors page rest))
                 (result (specificSelectors page rest))) \/
  (exists t el raw restricted,
      specificSelectors page (sel :: rest)
      = mkM t (Returned (Some (if restricted : bool then None
                               else Some (Js.trim raw))))
      /\ page_querySelector page sel = Some el
      /\ innerText el = JsStr raw
      /\ (50 < String.length (Js.trim raw))%nat
      /\ Js.includesAny (Js.toLowerCase (Js.trim raw)) restrictedPhrases
         = restricted).
Proof.
  cbn [specificSelectors].
  unfold waitForSelector, evalInnerTextTrim, page_evaluate.
  destruct (page_fault page (EvWaitForSelector sel 3000)) as [e1|];
    [left; eexists; run_monad; reflexivity|].
  destruct (page_querySelector page sel) as [el|];
    [|left; eexists; run_monad; reflexivity].
  destruct (page_fault page (EvEvaluate (InnerText sel))) as [e2|];
    [left; eexists; run_monad; reflexivity|].
  destruct (innerText el) as [| |raw] eqn:Htext;
    try (left; eexists; run_monad; reflexivity).
  destruct (longerThan 50 (Js.trim raw)) eqn:Hlong.
  - apply longerThan_spec in Hlong as Hlen.
    destruct (Js.includesAny (Js.toLowerCase (Js.trim raw)) restrictedPhrases)
      eqn:Hr; right; eexists; exists el, raw; eexists;
      (split; [|split; [reflexivity|split; [exact Htext|split;
                 [exact Hlen|exact Hr]]]]);
      run_monad; rewrite Hlong; cbn [result trace]; rewrite Hr; reflexivity.
  - left. eexists. run_monad. rewrite Hlong. cbn [result trace]. reflexivity.
Qed.

Lemma specificSelectors_accepts_long_clean (page : Page)
    (sels : list selector) (c : string) :
  result (specificSelectors page sels) = Returned (Some (Some c)) ->
  (50 < String.length c)%nat
  /\ Js.includesAny (Js.toLowerCase c) restrictedPhrases = false.
Proof.
  induction sels as [|sel rest IH]; [discriminate|].
  destruct (specificSelectors_cases page sel rest)
    as [[t ->] | (t & el & raw & r & -> & Hel & Htext & Hlong & Hr)];
    cbn [result].
  - exact IH.
  - destruct r; [discriminate|]. intros [= <-]. split; [exact Hlong | exact Hr].
Qed.

Lemma specificSelectors_all_short (page : Page) (sels : list selector) :
  (forall sel el raw,
      page_querySelector page sel = Some el -> innerText el = JsStr raw ->
      (String.length (Js.trim raw) <= 50)%nat) ->
  result (specificSelectors page sels) = Returned None.
Proof.
  intros Hshort. induction sels as [|sel rest IH]; [reflexivity|].
  destruct (specificSelectors_cases page sel rest)
    as [[t ->] | (t & el & raw & r & _ & Hel & Htext & Hlong & _)].
  - exact IH.
  - specialize (Hshort sel el raw Hel Htext). lia.
Qed.

Lemma firstLongContainer_all_short (page : Page) (containers : list selector) :
  (forall sel el raw,
      page_querySelector page sel = Some el -> innerText el = JsStr raw ->
      (String.length (Js.trim raw) <= 50)%nat) ->
  firstLongContainer page containers = None.
Proof.
  intros Hshort. induction containers as [|sel rest IH]; [reflexivity|].
  cbn [firstLongContainer].
  destruct (page_querySelector page sel) as [el|] eqn:Hel; [|exact IH].
  destruct (innerText el) as [| |raw] eqn:Htext; cbn [trimmed]; try exact IH.
  destruct (longerThan 100 (Js.trim raw)) eqn:Hlong; [|exact IH].
  apply longerThan_spec in Hlong. specialize (Hshort sel el raw Hel Htext). lia.
Qed.

Lemma result_extractArticleContent (page : Page) :
  result (extractArticleContent page) =
  match result (checkIfArticleRequiresLogin page) with
  | Settled (Returned true) => Returned None
  | Settled (Returned false) =>
      match result (specificSelectors page (contentSelectors SELECTOR_REGISTRY)) with
      | Settled (Returned (Some returned)) => Returned returned
      | Settled (Returned None) =>
          match page_fault page (EvEvaluate FallbackScan) with
          | Some _ => Returned None
          | None =>
              match firstLongContainer page fallbackContainers with
              | Some content =>
                  if Js.includesAny (Js.toLowerCase content) restrictedPhrases
                  then Returned None else Returned (Some content)
              | None => Returned None
              end
          end
      | Settled (Thrown e) => Thrown e
      | Pending => Pending
      end
  | Settled (Thrown e) => Thrown e
  | Pending => Pending
  end.
Proof.
  unfold extractArticleContent. rewrite !result_bind. cbn [delay emit result].
  destruct (result (checkIfArticleRequiresLogin page)) as [[[|]|e]|];
    try reflexivity.
  rewrite result_bind.
  destruct (result (specificSelectors page (contentSelectors SELECTOR_REGISTRY)))
    as [[[r|]|e]|]; try reflexivity.
  unfold page_evaluate.
  destruct (page_fault page (EvEvaluate FallbackScan)); [reflexivity|].
  destruct (firstLongContainer page fallbackContainers) as [content|];
    [|reflexivity].
  run_monad. destruct (Js.includesAny _ _); reflexivity.
Qed.

Lemma waits_app (t1 t2 : list event) : waits (t1 ++ t2) = waits t1 ++ waits t2.
Proof. apply omap_app. Qed.

Lemma waits_bind {A B : Type} (m : M A) (f : A -> M B) :
  waits (trace (m ≫= f)) =
  waits (trace m) ++ match result m with
                     | Settled (Returned a) => waits (trace (f a))
                     | _ => []
                     end.
Proof.
  rewrite trace_bind. destruct (result m) as [[a|e]|]; [apply waits_app| |];
    rewrite app_nil_r; reflexivity.
Qed.

Lemma waits_try_catch {A : Type} (body : M A) (handler : jsError -> M A) :
  waits (trace (try_catch body handler)) =
  waits (trace body) ++ match result body with
                        | Settled (Thrown e) => waits (trace (handler e))
                        | _ => []
                        end.
Proof.
  rewrite trace_try_catch. destruct (result body) as [[a|e]|];
    [|apply waits_app|]; rewrite app_nil_r; reflexivity.
Qed.

Lemma checkIfArticleRequiresLogin_no_waits (page : Page) :
  waits (trace (checkIfArticleRequiresLogin page)) = [].
Proof.
  unfold checkIfArticleRequiresLogin, checkIfArticleRequiresLogin_body.
  repeat first
    [ reflexivity
    | rewrite waits_bind
    | rewrite waits_try_catch
    | progress cbn [trace result waits omap call emit console_log mret M_ret
                    page_evaluate app]
    | match goal with
      | |- context [match ?x with _ => _ end] => destruct x
      end ].
Qed.

(** One round of the loop on a selector that offers no text of more than
    50 characters: no element, a rejected call, an element without text,
    or a short text.  The loop has waited for the selector and goes on
    with the next. *)
Lemma specificSelectors_passes_on (page : Page) (sel : selector)
    (rest : list selector) :
  (forall el raw,
      page_fault page (EvWaitForSelector sel 3000) = None ->
      page_querySelector page sel = Some el ->
      page_fault page (EvEvaluate (InnerText sel)) = None ->
      innerText el = JsStr raw ->
      (String.length (Js.trim raw) <= 50)%nat) ->
  result (specificSelectors page (sel :: rest))
  = result (specificSelectors page rest)
  /\ waits (trace (specificSelectors page (sel :: rest)))
     = sel :: waits (trace (specificSelectors page rest)).
Proof.
  intros Hshort. cbn [specificSelectors].
  unfold waitForSelector, evalInnerTextTrim, page_evaluate.
  destruct (page_fault page (EvWaitForSelector sel 3000)) as [e1|];
    [run_monad; split; reflexivity|].
  destruct (page_querySelector page sel) as [el|];
    [|run_monad; split; reflexivity].
  destruct (page_fault page (EvEvaluate (InnerText sel))) as [e2|];
    [run_monad; split; reflexivity|].
  destruct (innerText el) as [| |raw] eqn:Htext;
    try (run_monad; split; reflexivity).
  specialize (Hshort el raw eq_refl eq_refl eq_refl Htext).
  assert (longerThan 50 (Js.trim raw) = false) as Hlong.
  { destruct (longerThan 50 (Js.trim raw)) eqn:E; [|reflexivity].
    apply longerThan_spec in E. lia. }
  run_monad. rewrite Hlong. cbn [result trace]. split; reflexivity.
Qed.

Lemma specificSelectors_skips (page : Page) (before rest : list selector) :
  Forall (fun b => forall el raw,
              page_fault page (EvWaitForSelector b 3000) = None ->
              page_querySelector page b = Some el ->
              page_fault page (EvEvaluate (InnerText b)) = None ->
              innerText el = JsStr raw ->
              (String.length (Js.trim raw) <= 50)%nat) before ->
  result (specificSelectors page (before ++ rest))
  = result (specificSelectors page rest)
  /\ waits (trace (specificSelectors page (before ++ rest)))
     = before ++ waits (trace (specificSelectors page rest)).
Proof.
  induction 1 as [|b before Hb _ [IHr IHw]]; [split; reflexivity|].
  destruct (specificSelectors_passes_on page b (before ++ rest) Hb)
    as [Hr Hw].
  cbn [app]. rewrite Hr, Hw, IHr, IHw. split; reflexivity.
Qed.

(** What the loop returns, the extractor returns, and the extractor waits
    for no selector but those of the loop. *)
Lemma extractArticleContent_specific (page : Page) (r : option string) :
  result (checkIfArticleRequiresLogin page) = Returned false ->
  result (specificSelectors page (contentSelectors SELECTOR_REGISTRY))
  = Returned (Some r) ->
  result (extractArticleContent page) = Returned r
  /\ waits (trace (extractArticleContent page))
     = waits (trace (specificSelectors page (contentSelectors SELECTOR_REGISTRY))).
Proof.
  intros Hgate Hloop. split.
  - rewrite result_extractArticleContent, Hgate, Hloop. reflexivity.
  - unfold extractArticleContent.
    rewrite waits_bind. cbn [delay emit trace result waits omap app].
    rewrite waits_bind, checkIfArticleRequiresLogin_no_waits, Hgate.
    cbn [app]. rewrite waits_bind, Hloop. cbn. apply app_nil_r.
Qed.

(** C5.  In the loop over the content selectors: a text the loop
    returns is longer than 50 characters and free of restricted phrases;
    on a selector whose element is found and read, a trimmed text of at
    most 50 characters makes the loop go on with the next selector, a
    longer text that contains a restricted phrase (compared in lower case)
    makes it return [null] at once, without a further selector being
    tried, and a longer clean text is returned, trimmed; a selector whose
    element is not there, whose call the browser rejects or whose element
    has no text makes the loop go on with the next selector as well; what
    the loop returns is what [extractArticleContent] returns once the
    gate has passed; a page on which no element carries more than 50
    characters of text yields [null].  So for the extractor as a whole,
    once the gate has passed: at the first content selector, in the order
    of the registry, that offers a text of more than 50 characters, it
    returns that text, trimmed, when it is clean, and [null] when it
    holds a restricted phrase, and it has waited for the selectors up to
    that one and for none after it. *)
Theorem specific_selector_phase (page : Page) :
  (forall (sels : list selector) (c : string),
      result (specificSelectors page sels) = Returned (Some (Some c)) ->
      (50 < String.length c)%nat
      /\ Js.includesAny (Js.toLowerCase c) restrictedPhrases = false) /\
  (forall (sel : selector) (rest : list selector) (el : Node) (raw : string),
      page_querySelector page sel = Some el ->
      innerText el = JsStr raw ->
      page_fault page (EvWaitForSelector sel 3000) = None ->
      page_fault page (EvEvaluate (InnerText sel)) = None ->
      ((String.length (Js.trim raw) <= 50)%nat ->
       result (specificSelectors page (sel :: rest))
       = result (specificSelectors page rest)
       /\ trace (specificSelectors page (sel :: rest))
          = [EvWaitForSelector sel 3000; EvEvaluate (InnerText sel)]
            ++ trace (specificSelectors page rest)) /\
      ((50 < String.length (Js.trim raw))%nat ->
       Js.includesAny (Js.toLowerCase (Js.trim raw)) restrictedPhrases = true ->
       specificSelectors page (sel :: rest)
       = mkM [EvWaitForSelector sel 3000; EvEvaluate (InnerText sel);
              EvLog "Content contains restricted phrases - skipping"]
             (Returned (Some None))) /\
      ((50 < String.length (Js.trim raw))%nat ->
       Js.includesAny (Js.toLowerCase (Js.trim raw)) restrictedPhrases = false ->
       result (specificSelectors page (sel :: rest))
       = Returned (Some (Some (Js.trim raw)))
       /\ evaluations (trace (specificSelectors page (sel :: rest)))
          = [InnerText sel])) /\
  (forall (sel : selector) (rest : list selector),
      page_fault page (EvWaitForSelector sel 3000) <> None
      \/ page_querySelector page sel = None
      \/ page_fault page (EvEvaluate (InnerText sel)) <> None
      \/ (forall el raw, page_querySelector page sel = Some el ->
                         innerText el <> JsStr raw) ->
      result (specificSelectors page (sel :: rest))
      = result (specificSelectors page rest)
      /\ waits (trace (specificSelectors page (sel :: rest)))
         = sel :: waits (trace (specificSelectors page rest))) /\
  (forall r : option string,
      result (checkIfArticleRequiresLogin page) = Returned false ->
      result (specificSelectors page (contentSelectors SELECTOR_REGISTRY))
      = Returned (Some r) ->
      result (extractArticleContent page) = Returned r) /\
  ((forall (sel : selector) (el : Node) (raw : string),
       page_querySelector page sel = Some el -> innerText el = JsStr raw ->
       (String.length (Js.trim raw) <= 50)%nat) ->
   result (extractArticleContent page) = Returned None) /\
  (forall (before after : list selector) (sel : selector) (el : Node)
          (raw : string),
      contentSelectors SELECTOR_REGISTRY = before ++ sel :: after ->
      result (checkIfArticleRequiresLogin page) = Returned false ->
      Forall (fun b => forall el' raw',
                  page_fault page (EvWaitForSelector b 3000) = None ->
                  page_querySelector page b = Some el' ->
                  page_fault page (EvEvaluate (InnerText b)) = None ->
                  innerText el' = JsStr raw' ->
                  (String.length (Js.trim raw') <= 50)%nat) before ->
      page_fault page (EvWaitForSelector sel 3000) = None ->
      page_querySelector page sel = Some el ->
      page_fault page (EvEvaluate (InnerText sel)) = None ->
      innerText el = JsStr raw ->
      (50 < String.length (Js.trim raw))%nat ->
      result (extractArticleContent page)
      = Returned (if Js.includesAny (Js.toLowerCase (Js.trim raw))
                       restrictedPhrases
                  then None else Some (Js.trim raw))
      /\ waits (trace (extractArticleContent page)) = before ++ [sel]).
Proof.
  split; [|split; [|split; [|split; [|split]]]].
  - intros sels c. apply specificSelectors_accepts_long_clean.
  - intros sel rest el raw Hel Htext Hwait Heval.
    rewrite (specificSelectors_reads page sel rest el raw Hel Htext Hwait Heval).
    cbv zeta. split; [|split].
    + intros Hshort.
      assert (longerThan 50 (Js.trim raw) = false) as ->.
      { destruct (longerThan 50 (Js.trim raw)) eqn:E; [|reflexivity].
        apply longerThan_spec in E. lia. }
      split; reflexivity.
    + intros Hlong Hr. apply longerThan_spec in Hlong. rewrite Hlong, Hr.
      reflexivity.
    + intros Hlong Hr. apply longerThan_spec in Hlong. rewrite Hlong, Hr.
      split; reflexivity.
  - intros sel rest Hnone. apply specificSelectors_passes_on.
    intros el raw Hwait Hel Heval Htext.
    destruct Hnone as [H | [H | [H | H]]]; try congruence.
    exfalso. exact (H el raw Hel Htext).
  - intros r Hgate Hloop. rewrite result_extractArticleContent, Hgate, Hloop.
    reflexivity.
  - intros Hshort. rewrite result_extractArticleContent.
    destruct (checkIfArticleRequiresLogin_returns page) as [b ->].
    destruct b; [reflexivity|].
    rewrite (specificSelectors_all_short page _ Hshort).
    rewrite (firstLongContainer_all_short page _ Hshort).
    destruct (page_fault page (EvEvaluate FallbackScan)); reflexivity.
  - intros before after sel el raw Hsels Hgate Hbefore Hwait Hel Heval Htext
      Hlong.
    destruct (specificSelectors_skips page before (sel :: after) Hbefore)
      as [Hr Hw].
    pose proof (specificSelectors_reads page sel after el raw Hel Htext Hwait
                  Heval) as Hread.
    cbv zeta in Hread. apply longerThan_spec in Hlong.
    rewrite Hlong in Hread.
    assert (result (specificSelectors page (contentSelectors SELECTOR_REGISTRY))
            = Returned (Some (if Js.includesAny (Js.toLowerCase (Js.trim raw))
                                   restrictedPhrases
                              then None else Some (Js.trim raw)))
            /\ waits (trace (specificSelectors page
                               (contentSelectors SELECTOR_REGISTRY)))
               = before ++ [sel]) as [Hres Hwaits].
    { rewrite Hsels, Hr, Hw, Hread.
      destruct (Js.includesAny _ _); split; reflexivity. }
    destruct (extractArticleContent_specific page _ Hgate Hres) as [-> ->].
    split; [reflexivity | exact Hwaits].
Qed.

Lemma specific_selector_phase_witness :
  String.length (Js.trim text40) = 40%nat
  /\ result (extractArticleContent (bodyPage text40)) = Returned None
  /\ String.length (Js.trim text60restricted) = 60%nat
  /\ result (extractArticleContent (contentPage text40 text60restricted))
     = Returned None
  /\ waits (trace (extractArticleContent (contentPage text40 text60restricted)))
     = [ any [ClassIs "body-KX2tCBZq"];
         tagged "div" [Contains "class" "body-"];
         tagged "div" [Contains "class" "content-"] ]
  /\ String.length (Js.trim text60clean) = 60%nat
  /\ result (extractArticleContent (contentPage text40 text60clean))
     = Returned (Some "Indian shares ended flat on Monday as banks offset IT losses").
Proof.
  destruct (specific_selector_phase (bodyPage text40))
    as (_ & _ & _ & _ & Hshort & _).
  destruct (specific_selector_phase (contentPage text40 text60restricted))
    as (_ & _ & _ & _ & _ & Hrestricted).
  destruct (specific_selector_phase (contentPage text40 text60clean))
    as (_ & _ & _ & _ & _ & Hclean).
  assert (forall text,
             Forall (fun b => forall el' raw',
                         page_fault (contentPage text40 text)
                           (EvWaitForSelector b 3000) = None ->
                         page_querySelector (contentPage text40 text) b
                         = Some el' ->
                         page_fault (contentPage text40 text)
                           (EvEvaluate (InnerText b)) = None ->
                         innerText el' = JsStr raw' ->
                         (String.length (Js.trim raw') <= 50)%nat)
                    [ any [ClassIs "body-KX2tCBZq"];
                      tagged "div" [Contains "class" "body-"] ]) as Hbefore.
  { intros text. constructor; [|constructor; [|constructor]].
    - intros el' raw' _ Hel. discriminate Hel.
    - intros el' raw' _ Hel _ Htext. injection Hel as <-.
      injection Htext as <-. vm_compute. lia. }
  split; [reflexivity|]. split.
  { apply Hshort. intros sel el raw. unfold bodyPage; cbn [page_querySelector].
    destruct (decide _); [|discriminate]. intros [= <-] [= <-].
    vm_compute. lia. }
  split; [reflexivity|].
  destruct (Hrestricted
              [ any [ClassIs "body-KX2tCBZq"];
                tagged "div" [Contains "class" "body-"] ]
              [ inside (tagged "article" [Equals "data-role" "article"])
                       (tagged "div" [Contains "class" "content"]);
                tagged "div" [Contains "class" "article-body"];
                any [Equals "itemprop" "articleBody"] ]
              (tagged "div" [Contains "class" "content-"])
              (textElement text60restricted) text60restricted
              eq_refl eq_refl (Hbefore text60restricted)
              eq_refl eq_refl eq_refl eq_refl)
    as [Hnull Hwaited]; [vm_compute; lia|].
  split; [exact Hnull|]. split; [exact Hwaited|].
  split; [reflexivity|].
  destruct (Hclean
              [ any [ClassIs "body-KX2tCBZq"];
                tagged "div" [Contains "class" "body-"] ]
              [ inside (tagged "article" [Equals "data-role" "article"])
                       (tagged "div" [Contains "class" "content"]);
                tagged "div" [Contains "class" "article-body"];
                any [Equals "itemprop" "articleBody"] ]
              (tagged "div" [Contains "class" "content-"])
              (textElement text60clean) text60clean
              eq_refl eq_refl (Hbefore text60clean)
              eq_refl eq_refl eq_refl eq_refl)
    as [Htext _]; [vm_compute; lia|].
  exact Htext.
Defined.

(** ** The article extractor *)

Lemma truthy_spec (v : jsval) :
  Js.truthy v = true <-> exists s : string, v = JsStr s /\ s <> "".
Proof.
  destruct v as [| |s]; simpl.
  - split; [discriminate | intros (s & H & _); discriminate].
  - split; [discriminate | intros (s & H & _); discriminate].
  - rewrite negb_true_iff. split.
    + intros H. exists s. split; [reflexivity|].
      intros ->. discriminate.
    + intros (s' & [= <-] & Hne). apply String.eqb_neq. exact Hne.
Qed.

Lemma or_default_truthy (v : jsval) (d : string) :
  d <> "" -> Js.truthy (Js.or v (JsStr d)) = true.
Proof.
  intros Hd. unfold Js.or. destruct (Js.truthy v) eqn:E; [exact E|].
  simpl. apply negb_true_iff, String.eqb_neq. exact Hd.
Qed.

Lemma extractCard_invariants (h : Host) (selectors : Registry) (symbol : jsval)
    (element : Card) (a : Article) :
  InPage.extractCard h selectors symbol element = Some a ->
  Js.truthy (headline a) = true /\
  Js.includesAny (Js.toLowerCase (Js.toStr (headline a)))
                 InPage.restrictedIndicators = false /\
  Js.truthy (link a) = true /\
  Js.truthy (timestamp a) = true /\
  InPage.isRecentArticle h (timestamp a) 3 = true /\
  provider a =
  Js.or (InPage.forSelectors InPage.readProvider element
           (providerSelectors selectors) JsNull)
        (JsStr "Unknown").
Proof.
  unfold InPage.extractCard.
  set (h0 := InPage.forSelectors InPage.readHeadline element _ JsNull).
  set (hl := if negb (Js.truthy h0) then _ else h0).
  destruct (Js.truthy hl) eqn:Hhl; [|discriminate]. cbn [negb].
  destruct (Js.includesAny _ InPage.restrictedIndicators) eqn:Hr; [discriminate|].
  set (lk := Js.or _ _).
  destruct (Js.truthy lk) eqn:Hlk; [|discriminate]. cbn [negb].
  set (ts := InPage.forSelectors InPage.readTimestamp element _ JsNull).
  destruct (Js.truthy ts) eqn:Hts; [|discriminate]. cbn [negb orb].
  destruct (InPage.isRecentArticle h ts 3) eqn:Hrec; [|discriminate].
  cbn [negb]. intros [= <-]. cbn [headline link timestamp provider].
  repeat split; assumption.
Qed.

Lemma run_elem (h : Host) (page : Page) (selectors : Registry) (symbol : jsval)
    (a : Article) :
  a ∈ InPage.run h page selectors symbol ->
  exists element : Card,
    element ∈ page_cards page (articleSelectors selectors)
    /\ InPage.extractCard h selectors symbol element = Some a.
Proof.
  unfold InPage.run, InPage.uniqueArticles. intros H.
  apply uniqueFrom_elem in H as [H _].
  apply list_elem_of_omap in H. exact H.
Qed.

Lemma trySelectors_returned (h : Host) (page : Page) (selectors : Registry)
    (symbol : jsval) (articles : list Article) :
  result (trySelectors h page selectors symbol) = Returned articles ->
  articles = InPage.run h page selectors symbol.
Proof.
  unfold trySelectors, page_evaluate, call. cbn [result].
  destruct (page_fault page (EvEvaluate Extraction)); [discriminate|].
  intros [= <-]. reflexivity.
Qed.



(** * Further properties *)

(** ** Recency windows *)

(** X1.  The storage check with window [w] is at least as strict as the
    in-page check with any window of [w + 1] days or more: in particular
    an article the storage step accepts (window 1) would pass the
    discovery filter (window 3). *)
Theorem storage_window_within_discovery_window (h : Host) (t : jsval)
    (w w' : Z) :
  w + 1 <= w' ->
  isRecentArticle h t w = mret true ->
  InPage.isRecentArticle h t w' = true.
Proof.
  intros Hw. rewrite isRecentArticle_eq, inPage_isRecentArticle_eq.
  intros [= H]. apply andb_prop in H as [_ H].
  destruct (Date_new h t) as [p|]; [|discriminate].
  apply Z.leb_le in H. apply Z.leb_le.
  pose proof (Z.div_mod (Date_now h - p) MS_PER_DAY ltac:(discriminate)) as Hdm.
  pose proof (Z.mod_pos_bound (Date_now h - p) MS_PER_DAY eq_refl) as Hmod.
  assert (0 < MS_PER_DAY) by reflexivity. nia.
Qed.

Lemma storage_window_within_discovery_window_witness :
  InPage.isRecentArticle exampleHost (JsStr "2026-11-01T12:00:00.000Z") 3 = true.
Proof.
  apply (storage_window_within_discovery_window exampleHost _ 1 3);
    [lia | reflexivity].
Defined.

(** X2.  An article whose age is at least two days and at most three passes
    the discovery filter of the listing page and is refused by the
    storage step: it is fetched and never posted. *)
Theorem discovered_but_not_stored (h : Host) (t : jsval) (p : Z) :
  Js.truthy t = true ->
  Date_new h t = Some p ->
  2 * MS_PER_DAY <= Date_now h - p <= 3 * MS_PER_DAY ->
  InPage.isRecentArticle h t 3 = true /\ isRecentArticle h t 1 = mret false.
Proof.
  intros Ht Hp [Hlo Hhi].
  rewrite isRecentArticle_eq, inPage_isRecentArticle_eq, Ht, Hp. cbn [andb].
  split; [apply Z.leb_le; exact Hhi|].
  assert (((Date_now h - p) / MS_PER_DAY <=? 1) = false) as ->; [|reflexivity].
  apply Z.leb_gt.
  assert (2 <= (Date_now h - p) / MS_PER_DAY); [|lia].
  apply Z.div_le_lower_bound; [reflexivity | lia].
Qed.

(** ** Deduplication, continued *)

Lemma uniqueFrom_covers (seen : gset string) (l : list Article) (a : Article) :
  a ∈ l -> InPage.key a ∉ seen ->
  InPage.key a ∈ map InPage.key (InPage.uniqueFrom seen l).
Proof.
  revert seen. induction l as [|x l IH]; intros seen Hin Hfresh.
  - inversion Hin.
  - simpl. destruct (decide (InPage.key x ∈ seen)) as [Hx|Hx].
    + apply elem_of_cons in Hin as [->|Hin]; [contradiction|].
      apply IH; assumption.
    + simpl. destruct (decide (InPage.key a = InPage.key x)) as [->|Hne];
        [left|].
      right. apply elem_of_cons in Hin as [->|Hin]; [congruence|].
      apply IH; [exact Hin | set_solver].
Qed.

(** X3.  The deduplicated list is a subsequence of the extracted one (the
    first-seen order is kept), its keys are pairwise distinct, and no key
    is lost: every extracted article has its key among the survivors. *)
Theorem uniqueArticles_order_and_keys (articles : list Article) :
  sublist (InPage.uniqueArticles articles) articles
  /\ NoDup (map InPage.key (InPage.uniqueArticles articles))
  /\ forall a : Article,
       a ∈ articles ->
       InPage.key a ∈ map InPage.key (InPage.uniqueArticles articles).
Proof.
  unfold InPage.uniqueArticles. split; [apply uniqueFrom_sublist|].
  split; [apply uniqueFrom_keys_NoDup|].
  intros a Hin. apply uniqueFrom_covers; [exact Hin | set_solver].
Qed.

Lemma uniqueFrom_fixed (seen : gset string) (l : list Article) :
  NoDup (map InPage.key l) ->
  (forall a, a ∈ l -> InPage.key a ∉ seen) ->
  InPage.uniqueFrom seen l = l.
Proof.
  revert seen. induction l as [|x l IH]; intros seen Hnd Hfresh; [reflexivity|].
  simpl. apply NoDup_cons in Hnd as [Hx Hnd].
  destruct (decide (InPage.key x ∈ seen)) as [Hin|_].
  - exfalso. apply (Hfresh x); [left | exact Hin].
  - f_equal. apply IH; [exact Hnd|].
    intros a Ha. apply not_elem_of_union. split.
    + apply not_elem_of_singleton. intros Heq. apply Hx. rewrite <- Heq.
      apply list_elem_of_fmap. exists a. split; [reflexivity | exact Ha].
    + apply Hfresh. right. exact Ha.
Qed.

(** X4.  Deduplication is idempotent. *)
Theorem uniqueArticles_idempotent (articles : list Article) :
  InPage.uniqueArticles (InPage.uniqueArticles articles)
  = InPage.uniqueArticles articles.
Proof.
  unfold InPage.uniqueArticles at 1. apply uniqueFrom_fixed.
  - apply uniqueFrom_keys_NoDup.
  - intros a _. set_solver.
Qed.

(** X5.  A later article whose key repeats the key of an earlier one leaves no
    mark on the result: the list is deduplicated as if it were absent. *)
Theorem repeated_key_is_dropped (before after : list Article) (a : Article) :
  InPage.key a ∈ map InPage.key before ->
  InPage.uniqueArticles (before ++ a :: after)
  = InPage.uniqueArticles (before ++ after).
Proof. apply uniqueArticles_drops_repeat. Qed.

Lemma repeated_key_is_dropped_witness :
  InPage.uniqueArticles ([listedArticle; articleA] ++ listedArticle :: [articleB])
  = InPage.uniqueArticles ([listedArticle; articleA] ++ [articleB]).
Proof.
  apply (repeated_key_is_dropped [listedArticle; articleA] [articleB]
           listedArticle).
  left.
Defined.

Lemma discovered_but_not_stored_witness :
  InPage.isRecentArticle archiveHost (JsStr "2026-10-31T12:00:00.000Z") 3 = true
  /\ isRecentArticle archiveHost (JsStr "2026-10-31T12:00:00.000Z") 1
     = mret false.
Proof.
  apply (discovered_but_not_stored archiveHost _ 1793448000000);
    [reflexivity | reflexivity | split; vm_compute; discriminate].
Defined.

(** ** The field loops of the article extractor *)

(** X6.  The loop over the selectors of a field answers the value read from
    the first selector, in the order of the list, whose element reads
    truthy; selectors without element or with a falsy reading before it
    are passed over, the selectors after it are not consulted. *)
Theorem forSelectors_first_truthy (read : Node -> jsval) (element : Card)
    (before after : list selector) (sel : selector) (el : Node)
    (field : jsval) :
  (forall s n, s ∈ before -> card_querySelector element s = Some n ->
               Js.truthy (read n) = false) ->
  card_querySelector element sel = Some el ->
  Js.truthy (read el) = true ->
  InPage.forSelectors read element (before ++ sel :: after) field = read el.
Proof.
  intros Hbefore Hel Htruthy. revert field.
  induction before as [|s before IH]; intros field; simpl.
  - rewrite Hel, Htruthy. reflexivity.
  - destruct (card_querySelector element s) as [n|] eqn:Hn.
    + rewrite (Hbefore s n); [|left|exact Hn].
      apply IH. intros s' n' Hs'. apply Hbefore. right. exact Hs'.
    + apply IH. intros s' n' Hs'. apply Hbefore. right. exact Hs'.
Qed.

Lemma forSelectors_first_truthy_witness :
  InPage.forSelectors InPage.readHeadline iconCard
    (headlineSelectors SELECTOR_REGISTRY) JsNull
  = JsStr "Tata Motors beats estimates".
Proof.
  apply (forSelectors_first_truthy InPage.readHeadline iconCard
           [ any [Has "data-overflow-tooltip-text"];
             any [Equals "data-qa-id" "news-headline-title"];
             tagged "div" [Contains "class" "title-"];
             tag "h3" ]
           [] (tag "h4")
           {| attributes := [("title", "Tata Motors beats estimates")];
              textContent := JsStr "Tata Motors beats...";
              innerText := JsStr "Tata Motors beats...";
              href := JsUndefined;
              src := "";
              offsetParent_isNull := false |});
    [|reflexivity|reflexivity].
  intros s n Hs. unfold iconCard; cbn [card_querySelector].
  repeat (apply elem_of_cons in Hs as [->|Hs];
          [vm_compute; intros [= <-]; reflexivity || discriminate|]);
    try (vm_compute; intros H; discriminate H).
  inversion Hs.
Defined.

(** What the loop answers is the starting value or the reading of an
    element some selector of the list found. *)
Lemma forSelectors_origin (read : Node -> jsval) (element : Card)
    (sels : list selector) (field : jsval) :
  InPage.forSelectors read element sels field = field
  \/ exists sel el,
       sel ∈ sels /\ card_querySelector element sel = Some el
       /\ InPage.forSelectors read element sels field = read el.
Proof.
  revert field. induction sels as [|s sels IH]; intros field; simpl; [left; reflexivity|].
  destruct (card_querySelector element s) as [n|] eqn:Hn.
  - destruct (Js.truthy (read n)) eqn:Ht.
    + right. exists s, n. split; [left|]. auto.
    + destruct (IH (read n)) as [Heq | (sel & el & Hin & Hel & Heq)].
      * right. exists s, n. split; [left|]. auto.
      * right. exists sel, el. split; [right; exact Hin|]. auto.
  - destruct (IH field) as [Heq | (sel & el & Hin & Hel & Heq)].
    + left. exact Heq.
    + right. exists sel, el. split; [right; exact Hin|]. auto.
Qed.

(** X7.  When no selector of the list gives a truthy reading, the loop started
    from a falsy value ends on a falsy value: the field is unresolved.
    The value need not be [null]: it is the last falsy reading, such as
    the empty string of a blank element. *)
Theorem forSelectors_unresolved (read : Node -> jsval) (element : Card)
    (sels : list selector) (field : jsval) :
  (forall s n, s ∈ sels -> card_querySelector element s = Some n ->
               Js.truthy (read n) = false) ->
  Js.truthy field = false ->
  Js.truthy (InPage.forSelectors read element sels field) = false.
Proof.
  revert field. induction sels as [|s sels IH]; intros field Hall Hfield; simpl;
    [exact Hfield|].
  destruct (card_querySelector element s) as [n|] eqn:Hn.
  - rewrite (Hall s n); [|left|exact Hn].
    apply IH; [|apply (Hall s n); [left | exact Hn]].
    intros s' n' Hs'. apply Hall. right. exact Hs'.
  - apply IH; [|exact Hfield].
    intros s' n' Hs'. apply Hall. right. exact Hs'.
Qed.

Lemma forSelectors_unresolved_witness :
  Js.truthy (InPage.forSelectors InPage.readProvider iconCard [tag "h3"] JsNull)
  = false
  /\ InPage.forSelectors InPage.readProvider iconCard [tag "h3"] JsNull
     = JsStr "".
Proof.
  split; [|reflexivity].
  apply forSelectors_unresolved; [|reflexivity].
  intros s n Hs. apply elem_of_cons in Hs as [->|Hs]; [|inversion Hs].
  intros [= <-]. reflexivity.
Defined.

(** ** Symbols read from the icons *)

Lemma includes_char (c d : ascii) (s : string) :
  Js.includes (String c s) (String d EmptyString)
  = Ascii.eqb d c || Js.includes s (String d EmptyString).
Proof.
  simpl. destruct (ascii_dec d c) as [->|Hne].
  - rewrite Ascii.eqb_refl. destruct s; reflexivity.
  - apply Ascii.eqb_neq in Hne as Hne'. rewrite Hne'. reflexivity.
Qed.

Lemma includes_char_app (d : ascii) (s1 s2 : string) :
  Js.includes (s1 +:+ s2) (String d EmptyString)
  = Js.includes s1 (String d EmptyString)
    || Js.includes s2 (String d EmptyString).
Proof.
  induction s1 as [|c s1 IH].
  - simpl. destruct s2; reflexivity.
  - change (String c s1 +:+ s2) with (String c (s1 +:+ s2)).
    rewrite !includes_char, IH, orb_assoc. reflexivity.
Qed.

Lemma stripHyphens_no_hyphen (s : string) :
  Js.includes (InPage.stripHyphens s) "-" = false.
Proof.
  induction s as [|c s IH]; [reflexivity|]. simpl InPage.stripHyphens.
  destruct (Ascii.eqb c "-") eqn:E; [exact IH|].
  rewrite includes_char, IH, Ascii.eqb_sym, E. reflexivity.
Qed.

Lemma iconCode_no_hyphen (url : string) :
  Js.includes (Js.toStr (InPage.iconCode url)) "-" = false.
Proof.
  unfold InPage.iconCode.
  destruct (InPage.withoutSvg url) as [body|]; [|reflexivity].
  destruct (InPage.afterLastSlash body) as [seg|]; [|reflexivity].
  destruct (String.eqb seg ""); [reflexivity|].
  apply stripHyphens_no_hyphen.
Qed.

Lemma concat_no_hyphen (l : list string) :
  Forall (fun s => Js.includes s "-" = false) l ->
  Js.includes (String.concat "" l) "-" = false.
Proof.
  induction 1 as [|x l Hx Hl IH]; [reflexivity|].
  destruct l as [|y l]; [exact Hx|].
  change (String.concat "" (x :: y :: l))
    with (x +:+ ("" +:+ String.concat "" (y :: l))).
  rewrite includes_char_app, Hx. exact IH.
Qed.

Lemma concat_nonempty (x : string) (l : list string) :
  x <> "" -> String.concat "" (x :: l) <> "".
Proof.
  intros Hx. destruct l as [|y l]; [exact Hx|].
  change (String.concat "" (x :: y :: l))
    with (x +:+ ("" +:+ String.concat "" (y :: l))).
  destruct x; [congruence | discriminate].
Qed.

(** X8.  The symbol read from the icons of a card is [null] or a non-empty
    string without any hyphen. *)
Theorem cardSymbol_has_no_hyphen (element : Card) :
  InPage.cardSymbol element = JsNull
  \/ exists code : string,
       InPage.cardSymbol element = JsStr code
       /\ code <> "" /\ Js.includes code "-" = false.
Proof.
  unfold InPage.cardSymbol.
  destruct (0 <? length (card_querySelectorAll element InPage.svgImages))%nat;
    [|left; reflexivity].
  set (codes := filter _ _).
  destruct (0 <? length codes)%nat eqn:Hlen; [|left; reflexivity].
  right. eexists. split; [reflexivity|].
  assert (Forall (fun c => Js.truthy c = true
                           /\ Js.includes (Js.toStr c) "-" = false) codes)
    as Hcodes.
  { apply Forall_forall. intros c Hc. apply list_elem_of_filter in Hc as [Ht Hc].
    split; [exact Ht|].
    apply list_elem_of_fmap in Hc as (img & -> & _). apply iconCode_no_hyphen. }
  unfold InPage.joinCodes. split.
  - destruct codes as [|c codes']; [discriminate|]. simpl map.
    apply concat_nonempty.
    apply Forall_cons in Hcodes as [[Ht _] _].
    apply truthy_spec in Ht as (s' & -> & Hne). exact Hne.
  - apply concat_no_hyphen. apply Forall_fmap.
    eapply Forall_impl; [exact Hcodes|]. intros c [_ Hc]. exact Hc.
Qed.

Lemma append_length (s1 s2 : string) :
  String.length (s1 +:+ s2) = (String.length s1 + String.length s2)%nat.
Proof.
  induction s1 as [|c s1 IH]; [reflexivity|].
  change (S (String.length (s1 +:+ s2))
          = S (String.length s1 + String.length s2)).
  f_equal. exact IH.
Qed.

Lemma append_assoc (s1 s2 s3 : string) :
  (s1 +:+ s2) +:+ s3 = s1 +:+ (s2 +:+ s3).
Proof.
  induction s1 as [|c s1 IH]; [reflexivity|].
  change (String c ((s1 +:+ s2) +:+ s3) = String c (s1 +:+ (s2 +:+ s3))).
  f_equal. exact IH.
Qed.

Lemma withoutSvg_app (s : string) : InPage.withoutSvg (s +:+ ".svg") = Some s.
Proof.
  induction s as [|c s IH]; [reflexivity|].
  change (String c s +:+ ".svg") with (String c (s +:+ ".svg")).
  cbn [InPage.withoutSvg].
  assert (String.eqb (String c (s +:+ ".svg")) ".svg" = false) as ->.
  { apply String.eqb_neq. intros H.
    apply (f_equal String.length) in H. simpl in H.
    rewrite append_length in H. simpl in H. lia. }
  rewrite IH. reflexivity.
Qed.

Lemma afterLastSlash_none (s : string) :
  Js.includes s "/" = false -> InPage.afterLastSlash s = None.
Proof.
  induction s as [|c s IH]; [reflexivity|].
  rewrite includes_char. intros H. apply orb_false_elim in H as [Hc Hs].
  cbn [InPage.afterLastSlash]. rewrite (IH Hs), Ascii.eqb_sym, Hc. reflexivity.
Qed.

Lemma afterLastSlash_app (dir name : string) :
  Js.includes name "/" = false ->
  InPage.afterLastSlash (dir +:+ "/" +:+ name) = Some name.
Proof.
  intros Hname. induction dir as [|c dir IH].
  - change ("" +:+ "/" +:+ name) with (String "/" name).
    cbn [InPage.afterLastSlash]. rewrite (afterLastSlash_none name Hname).
    reflexivity.
  - change (String c dir +:+ "/" +:+ name) with (String c (dir +:+ "/" +:+ name)).
    cbn [InPage.afterLastSlash]. rewrite IH. reflexivity.
Qed.

(** X9.  The code of an icon whose address ends with a slash, a file name
    without slash and [.svg] is the file name with its hyphens removed,
    whatever comes before the slash. *)
Theorem iconCode_of_icon_url (dir name : string) :
  name <> "" ->
  Js.includes name "/" = false ->
  InPage.iconCode (dir +:+ "/" +:+ name +:+ ".svg")
  = JsStr (InPage.stripHyphens name).
Proof.
  intros Hne Hslash. unfold InPage.iconCode.
  replace (dir +:+ "/" +:+ name +:+ ".svg")
    with ((dir +:+ "/" +:+ name) +:+ ".svg").
  2:{ rewrite !append_assoc. reflexivity. }
  rewrite withoutSvg_app, (afterLastSlash_app dir name Hslash).
  apply String.eqb_neq in Hne. rewrite Hne. reflexivity.
Qed.

Lemma iconCode_of_icon_url_witness :
  InPage.iconCode
    ("https://s3-symbol-logo.tradingview.com" +:+ "/" +:+ "bajaj-auto" +:+ ".svg")
  = JsStr "bajajauto".
Proof.
  apply (iconCode_of_icon_url "https://s3-symbol-logo.tradingview.com"
           "bajaj-auto"); [discriminate | reflexivity].
Defined.

(** ** The content extractor, continued *)

Lemma specificSelectors_returns (page : Page) (sels : list selector) :
  exists r, result (specificSelectors page sels) = Returned r.
Proof.
  induction sels as [|sel rest IH]; [eexists; reflexivity|].
  destruct (specificSelectors_cases page sel rest)
    as [[t ->] | (t & el & raw & r & -> & _)]; cbn [result]; eauto.
Qed.

Lemma firstLongContainer_long (page : Page) (containers : list selector)
    (c : string) :
  firstLongContainer page containers = Some c -> (100 < String.length c)%nat.
Proof.
  induction containers as [|sel rest IH]; [discriminate|].
  cbn [firstLongContainer].
  destruct (page_querySelector page sel) as [el|]; [|exact IH].
  destruct (innerText el) as [| |raw]; cbn [trimmed]; try exact IH.
  destruct (longerThan 100 (Js.trim raw)) eqn:Hlong; [|exact IH].
  intros [= <-]. apply longerThan_spec. exact Hlong.
Qed.

(** X10.  Whatever the page holds and whatever the browser rejects,
    [extractArticleContent] raises nothing, and a text it returns is
    longer than 50 characters and contains no restricted phrase, in any
    letter case. *)
Theorem extractArticleContent_returns_clean_text (page : Page) :
  exists r : option string,
    result (extractArticleContent page) = Returned r
    /\ forall c : string,
         r = Some c ->
         (50 < String.length c)%nat
         /\ Js.includesAny (Js.toLowerCase c) restrictedPhrases = false.
Proof.
  rewrite result_extractArticleContent.
  destruct (checkIfArticleRequiresLogin_returns page) as [b ->].
  destruct b; [eexists; split; [reflexivity | discriminate]|].
  destruct (specificSelectors_returns page (contentSelectors SELECTOR_REGISTRY))
    as [[r|] Hr]; rewrite Hr.
  - exists r. split; [reflexivity|]. intros c ->.
    apply (specificSelectors_accepts_long_clean page _ c Hr).
  - destruct (page_fault page (EvEvaluate FallbackScan));
      [eexists; split; [reflexivity | discriminate]|].
    destruct (firstLongContainer page fallbackContainers) as [c|] eqn:Hc;
      [|eexists; split; [reflexivity | discriminate]].
    destruct (Js.includesAny (Js.toLowerCase c) restrictedPhrases) eqn:Hclean;
      [eexists; split; [reflexivity | discriminate]|].
    exists (Some c). split; [reflexivity|]. intros c' [= <-].
    apply firstLongContainer_long in Hc. split; [lia | exact Hclean].
Qed.

(** X11.  When the gate answers that a login is required, the extractor
    returns [null] at once: after the settle delay and the scans of the
    gate it logs the skip, waits for no selector and reads no text. *)
Theorem extractArticleContent_behind_login (page : Page) :
  result (checkIfArticleRequiresLogin page) = Returned true ->
  extractArticleContent page =
  mkM (EvDelay 3000 :: trace (checkIfArticleRequiresLogin page)
       ++ [EvLog "Article requires login/subscription - skipping"])
      (Returned None).
Proof.
  intros Hgate. unfold extractArticleContent.
  unfold mbind, M_bind, delay, emit, console_log, mret, M_ret.
  cbn [result trace]. rewrite Hgate. cbn [result trace].
  rewrite app_nil_r. reflexivity.
Qed.

Lemma extractArticleContent_behind_login_witness :
  result (extractArticleContent (paywalledPage "Bloomberg")) = Returned None
  /\ evaluations (trace (extractArticleContent (paywalledPage "Bloomberg")))
     = [ProviderScan; LoginIndicatorScan; LoginElementScan].
Proof.
  rewrite (extractArticleContent_behind_login (paywalledPage "Bloomberg")
             eq_refl).
  split; reflexivity.
Defined.

(** ** Storage, continued *)

(** X12.  [storeInWordPress] raises nothing, and it returns true exactly when
    the article passes the 1-day window and the endpoint accepts the
    request; the request carries the calendar date of the parsed
    timestamp and the provider, [General] when there is none. *)
Theorem storeInWordPress_true_iff_accepted (h : Host) (env : Env)
    (net : Network) (data : WpData) :
  (exists b : bool, result (storeInWordPress h env net data) = Returned b) /\
  (result (storeInWordPress h env net data) = Returned true <->
   isRecentArticle h (wp_timestamp data) 1 = mret true /\
   exists (p : Z) (response : string),
     Date_new h (wp_timestamp data) = Some p /\
     net (wpApiUrl (CONFIG env))
         {| Headline := wp_headline data;
            Fullarticle := wp_content data;
            Provider := Js.or (wp_provider data) (JsStr "General");
            Symbol := wp_symbol data;
            date := Date_isoDate h p |}
     = Returned response).
Proof.
  destruct (isRecentArticle_cases h (wp_timestamp data) 1) as [H|H].
  - destruct (storeInWordPress_recent h env net data H) as (p & Hp & Heq).
    cbv zeta in Heq. rewrite Heq. split.
    + destruct (net _ _); eauto.
    + split.
      * intros Hres. split; [exact H|]. exists p.
        destruct (net _ _) as [response|e] eqn:Hnet; [eauto | discriminate].
      * intros (_ & p' & response & Hp' & Hnet).
        rewrite Hp in Hp'. injection Hp' as <-. rewrite Hnet. reflexivity.
  - rewrite (storeInWordPress_stale h env net data H). split; [eauto|].
    split; [discriminate|]. intros [H' _]. rewrite H in H'. discriminate.
Qed.

(** X13.  When the endpoint rejects the request of a recent article, the
    call returns false and the last line of its trace is the failure: it
    shows the answer of the server when the error carries one that is not
    empty, and the message of the error when it carries none or an empty
    one. *)
Theorem storeInWordPress_rejected (h : Host) (env : Env) (net : Network)
    (data : WpData) (error : jsError) :
  isRecentArticle h (wp_timestamp data) 1 = mret true ->
  (forall url body, net url body = Thrown error) ->
  result (storeInWordPress h env net data) = Returned false
  /\ last (trace (storeInWordPress h env net data))
     = Some (EvError ("WP API Error: " +:+
                      match response_data error with
                      | Some d => if String.eqb d "" then message error else d
                      | None => message error
                      end)).
Proof.
  intros H Hnet.
  destruct (storeInWordPress_recent h env net data H) as (p & _ & Heq).
  cbv zeta in Heq. rewrite Heq, Hnet. split; [reflexivity|].
  cbn [last]. do 3 f_equal.
  destruct (response_data error) as [d|]; [|reflexivity].
  unfold Js.or, optional, Js.truthy.
  destruct (String.eqb d ""); reflexivity.
Qed.

Lemma storeInWordPress_rejected_witness :
  last (trace (storeInWordPress exampleHost exampleEnv rejectingNetwork
                 exampleData))
  = Some (EvError "WP API Error: rest_forbidden")
  /\ last (trace (storeInWordPress exampleHost exampleEnv silentNetwork
                    exampleData))
     = Some (EvError "WP API Error: Request failed with status code 502")
  /\ result (storeInWordPress exampleHost exampleEnv silentNetwork exampleData)
     = Returned false.
Proof.
  destruct (storeInWordPress_rejected exampleHost exampleEnv rejectingNetwork
              exampleData
              {| message := "Request failed with status code 401";
                 code := None;
                 response_data := Some "rest_forbidden" |}
              eq_refl (fun _ _ => eq_refl)) as [_ Hanswer].
  destruct (storeInWordPress_rejected exampleHost exampleEnv silentNetwork
              exampleData
              {| message := "Request failed with status code 502";
                 code := None;
                 response_data := Some EmptyString |}
              eq_refl (fun _ _ => eq_refl)) as [Hfalse Hmessage].
  split; [exact Hanswer|]. split; [exact Hmessage | exact Hfalse].
Defined.

(** ** The sheet, continued *)

Lemma handler_returns_empty (error : jsError) :
  result (console_error ("Error accessing Google Sheet: " +:+ message error)
          ≫= (fun _ : unit =>
               (if decide (code error = Some 403) then
                  console_error
                    "Permission denied. Make sure the service account has read access to the Google Sheet."
                else mret tt)
               ≫= fun _ : unit => mret ([] : list StockEntry)))
  = Returned [].
Proof. destruct (decide (code error = Some 403)); reflexivity. Qed.

(** X14.  Of everything that can fail while the sheet is read, only a rejected
    authorization reaches the caller: every other failure ends in the
    empty list.  Every entry of a returned list has a non-empty link. *)
Theorem getStockUrlsFromSheet_only_authorization_escapes (env : Env)
    (sh : Sheets) :
  (forall e : jsError,
      result (getStockUrlsFromSheet env sh) = Thrown e <->
      authorize sh = Thrown e) /\
  (forall entries : list StockEntry,
      result (getStockUrlsFromSheet env sh) = Returned entries ->
      Forall (fun entry => Js.truthy (se_link entry) = true) entries).
Proof.
  unfold getStockUrlsFromSheet.
  rewrite result_bind. unfold call at 1. cbn [result].
  destruct (authorize sh) as [[]|e0].
  2:{ split; [intros e; split; intros H; congruence | discriminate]. }
  rewrite result_bind. cbn [console_log emit result].
  rewrite result_try_catch.
  assert (forall entries : list StockEntry,
             Settled (Returned []) = Settled (Returned entries) ->
             Forall (fun entry => Js.truthy (se_link entry) = true) entries)
    as Hempty by (intros entries [= <-]; constructor).
  rewrite result_bind. cbn [call result].
  destruct (values_get sh (sheetName env +:+ "!1:1")) as [hv|e1].
  2:{ rewrite handler_returns_empty. split; [split; discriminate | exact Hempty]. }
  rewrite result_bind.
  set (picked := match hv with
                 | Some [] => throw (Error "Cannot read properties of undefined (reading 'length')")
                 | Some (first :: _) => mret first
                 | None => mret []
                 end : M (list string)).
  assert ((exists headers, result picked = Returned headers)
          \/ exists e, result picked = Thrown e) as [[headers Hh] | [e Hh]].
  { subst picked. destruct hv as [[|first rest]|]; cbn; eauto. }
  2:{ rewrite Hh, handler_returns_empty. split; [split; discriminate | exact Hempty]. }
  rewrite Hh.
  destruct (length headers =? 0)%nat.
  { cbn [throw result]. rewrite handler_returns_empty.
    split; [split; discriminate | exact Hempty]. }
  destruct (_ || _ || _).
  { cbn [throw result]. rewrite handler_returns_empty.
    split; [split; discriminate | exact Hempty]. }
  rewrite result_bind. cbn [call result].
  destruct (values_get sh _) as [[[|hrow rows]|]|e2];
    try (cbn; split; [split; discriminate | exact Hempty]).
  2:{ rewrite handler_returns_empty. split; [split; discriminate | exact Hempty]. }
  cbn. split; [split; discriminate|].
  intros entries [= <-]. apply Forall_forall. intros entry Hin.
  apply list_elem_of_filter in Hin as [Hlink _]. exact Hlink.
Qed.

Lemma indexOf_lower_bound (headers : list string) (name : string) :
  -1 <= indexOf headers name.
Proof.
  induction headers as [|x hs IH]; simpl; [lia|].
  destruct (String.eqb x name); [lia|].
  destruct (Z.eqb_spec (indexOf hs name) (-1)); lia.
Qed.

Lemma indexOf_present (headers : list string) (name : string) :
  name ∈ headers -> 0 <= indexOf headers name.
Proof.
  intros Hin. pose proof (indexOf_lower_bound headers name).
  destruct (Z.eq_dec (indexOf headers name) (-1)) as [Heq|]; [|lia].
  apply indexOf_absent in Heq. contradiction.
Qed.

Lemma at_index_slice (row : list string) (s e i : Z) :
  0 <= s -> s <= i -> i <= e ->
  at_index (take (Z.to_nat (e - s + 1)) (drop (Z.to_nat s) row)) (i - s)
  = at_index row i.
Proof.
  intros Hs Hi He. unfold at_index.
  destruct (Z.ltb_spec (i - s) 0); [lia|].
  destruct (Z.ltb_spec i 0); [lia|].
  rewrite lookup_take_lt by lia. rewrite lookup_drop.
  replace (Z.to_nat s + Z.to_nat (i - s))%nat with (Z.to_nat i) by lia.
  reflexivity.
Qed.

(** X15.  When the three headers are present and the service answers the data
    range with the columns from the leftmost to the rightmost of them,
    the entries are the cells that stand under [Symbol], [Stock name] and
    [Scrap_Link] in the rows of the sheet below the header row, for the
    rows that have a link, in the order of the sheet. *)
Theorem sheet_columns_align (env : Env) (sh : Sheets)
    (headers : list string) (more table : list (list string)) :
  let iSymbol := indexOf headers "Symbol" in
  let iName := indexOf headers "Stock name" in
  let iLink := indexOf headers "Scrap_Link" in
  let startCol := Z.min (Z.min iSymbol iName) iLink in
  let endCol := Z.max (Z.max iSymbol iName) iLink in
  let slice := fun row : list string =>
    take (Z.to_nat (endCol - startCol + 1)) (drop (Z.to_nat startCol) row) in
  authorize sh = Returned tt ->
  values_get sh (sheetName env +:+ "!1:1") = Returned (Some (headers :: more)) ->
  "Scrap_Link" ∈ headers -> "Symbol" ∈ headers -> "Stock name" ∈ headers ->
  values_get sh (sheetName env +:+ "!" +:+ fromCharCode (65 + startCol) +:+ ":"
                 +:+ fromCharCode (65 + endCol))
  = Returned (Some (slice headers :: map slice table)) ->
  result (getStockUrlsFromSheet env sh) =
  Returned
    (filter (fun entry => Js.truthy (se_link entry) = true)
       (map (fun row => {| se_Symbol := at_index row iSymbol;
                           se_Stock_name := at_index row iName;
                           se_link := at_index row iLink |})
            table)).
Proof.
  intros iSymbol iName iLink startCol endCol slice Hauth Hhead HL HS HN Hdata.
  pose proof (indexOf_present _ _ HL) as HL0.
  pose proof (indexOf_present _ _ HS) as HS0.
  pose proof (indexOf_present _ _ HN) as HN0.
  fold iSymbol in HS0. fold iName in HN0. fold iLink in HL0.
  unfold getStockUrlsFromSheet. rewrite Hauth, Hhead.
  assert (((iLink =? -1) || (iSymbol =? -1) || (iName =? -1)) = false) as Hcond.
  { rewrite !orb_false_iff, !Z.eqb_neq. lia. }
  destruct headers as [|h0 hs]; [inversion HL|].
  unfold mbind, M_bind, call, console_log, emit, mret, M_ret, try_catch.
  cbn [result trace length Nat.eqb].
  fold iSymbol iName iLink. rewrite Hcond.
  fold startCol endCol. rewrite Hdata. cbn [result trace].
  do 3 f_equal. rewrite map_map. apply map_ext. intros row.
  unfold slice. f_equal; apply at_index_slice; lia.
Qed.

Lemma sheet_columns_align_witness :
  result (getStockUrlsFromSheet exampleEnv exampleSheet)
  = Returned
      [ {| se_Symbol := JsStr "NIFTY";
           se_Stock_name := JsStr "Nifty 50";
           se_link := JsStr "https://in.tradingview.com/symbols/NSE-NIFTY/news/" |} ].
Proof.
  apply (sheet_columns_align exampleEnv exampleSheet
           ["Symbol"; "Stock name"; "Scrap_Link"] []
           [ ["NIFTY"; "Nifty 50";
              "https://in.tradingview.com/symbols/NSE-NIFTY/news/"];
             ["SENSEX"; "BSE Sensex"] ]);
    try reflexivity.
  - do 2 right. left.
  - left.
  - right. left.
Defined.

(** X16.  A rejected request for the header row is logged, with the hint about
    the permissions of the service account exactly when the code of the
    error is 403, and the reader answers the empty list. *)
Theorem getStockUrlsFromSheet_rejected_request (env : Env) (sh : Sheets)
    (error : jsError) :
  authorize sh = Returned tt ->
  values_get sh (sheetName env +:+ "!1:1") = Thrown error ->
  getStockUrlsFromSheet env sh =
  mkM ([ EvAuthorize;
         EvLog "NewsProcessor: Google Sheet authentication successful.";
         EvSheetGet (sheetName env +:+ "!1:1");
         EvError ("Error accessing Google Sheet: " +:+ message error) ]
       ++ if decide (code error = Some 403) then
            [EvError "Permission denied. Make sure the service account has read access to the Google Sheet."]
          else [])
      (Returned []).
Proof.
  intros Hauth Hhead. unfold getStockUrlsFromSheet. rewrite Hauth, Hhead.
  unfold mbind, M_bind, call, console_log, console_error, emit, mret, M_ret,
    try_catch.
  cbn [result trace]. destruct (decide (code error = Some 403)); reflexivity.
Qed.

Lemma getStockUrlsFromSheet_rejected_request_witness :
  getStockUrlsFromSheet exampleEnv forbiddenSheet =
  mkM [ EvAuthorize;
        EvLog "NewsProcessor: Google Sheet authentication successful.";
        EvSheetGet "Stocks!1:1";
        EvError "Error accessing Google Sheet: The caller does not have permission";
        EvError "Permission denied. Make sure the service account has read access to the Google Sheet." ]
      (Returned []).
Proof.
  apply (getStockUrlsFromSheet_rejected_request exampleEnv forbiddenSheet
           {| message := "The caller does not have permission";
              code := Some 403;
              response_data := None |}); reflexivity.
Defined.

(** ** The run *)

(** X17.  When the authorization for the sheet is rejected, the run logs that
    the stock URLs could not be retrieved, closes the browser and returns
    normally; it reads no sheet and navigates nowhere. *)
Theorem scrapeTradingViewNews_authorization_rejected (w : World)
    (error : jsError) :
  authorize (sheets w) = Thrown error ->
  scrapeTradingViewNews w =
  mkM [ EvLaunch; EvNewPage; EvAuthorize;
        EvError ("Failed to retrieve stock URLs from Google Sheet: "
                 +:+ message error);
        EvCloseBrowser ]
      (Returned tt).
Proof.
  intros Hauth.
  assert (getStockUrlsFromSheet (env w) (sheets w)
          = mkM [EvAuthorize] (Thrown error)) as Hget.
  { unfold getStockUrlsFromSheet. rewrite Hauth. reflexivity. }
  unfold scrapeTradingViewNews. rewrite Hget. reflexivity.
Qed.

Lemma scrapeTradingViewNews_authorization_rejected_witness :
  scrapeTradingViewNews (worldWith unauthorizedSheet) =
  mkM [ EvLaunch; EvNewPage; EvAuthorize;
        EvError "Failed to retrieve stock URLs from Google Sheet: invalid_grant";
        EvCloseBrowser ]
      (Returned tt).
Proof.
  apply (scrapeTradingViewNews_authorization_rejected
           (worldWith unauthorizedSheet) (Error "invalid_grant")).
  reflexivity.
Defined.

(** ** What a run posts *)

Lemma posts_bind {A B : Type} (m : M A) (f : A -> M B) :
  posts (trace (m ≫= f)) =
  posts (trace m) ++ match result m with
                     | Settled (Returned a) => posts (trace (f a))
                     | _ => []
                     end.
Proof.
  rewrite trace_bind. destruct (result m) as [[a|e]|]; [apply posts_app| |];
    rewrite app_nil_r; reflexivity.
Qed.

Lemma posts_try_catch {A : Type} (body : M A) (handler : jsError -> M A) :
  posts (trace (try_catch body handler)) =
  posts (trace body) ++ match result body with
                        | Settled (Thrown e) => posts (trace (handler e))
                        | _ => []
                        end.
Proof.
  rewrite trace_try_catch. destruct (result body) as [[a|e]|];
    [|apply posts_app|]; rewrite app_nil_r; reflexivity.
Qed.

Lemma trace_try_finally {A : Type} (body : M A) (cleanup : M unit) :
  trace (try_finally body cleanup) =
  match result body with
  | Settled _ => trace body ++ trace cleanup
  | Pending => trace body
  end.
Proof.
  unfold try_finally. destruct (result body) as [o|]; [|reflexivity].
  destruct (result cleanup) as [[u|e]|]; reflexivity.
Qed.

Lemma posts_try_finally {A : Type} (body : M A) (cleanup : M unit) :
  posts (trace (try_finally body cleanup)) =
  posts (trace body) ++ match result body with
                        | Settled _ => posts (trace cleanup)
                        | Pending => []
                        end.
Proof.
  rewrite trace_try_finally. destruct (result body) as [o|];
    [apply posts_app | rewrite app_nil_r; reflexivity].
Qed.

Lemma result_try_finally {A : Type} (body : M A) (cleanup : M unit) :
  result (try_finally body cleanup) =
  match result body with
  | Settled o =>
      match result cleanup with
      | Settled (Returned _) => Settled o
      | Settled (Thrown e) => Thrown e
      | Pending => Pending
      end
  | Pending => Pending
  end.
Proof.
  unfold try_finally. destruct (result body) as [o|] eqn:E; [|exact E].
  destruct (result cleanup) as [[u|e]|]; reflexivity.
Qed.

Ltac no_posts :=
  repeat first
    [ reflexivity
    | rewrite posts_bind
    | rewrite posts_try_catch
    | progress cbn [trace result posts omap call emit console_log console_error
                    delay throw mret M_ret page_evaluate app]
    | match goal with
      | |- context [match ?x with _ => _ end] => destruct x
      end ].

Lemma checkIfArticleRequiresLogin_no_posts (page : Page) :
  posts (trace (checkIfArticleRequiresLogin page)) = [].
Proof.
  unfold checkIfArticleRequiresLogin, checkIfArticleRequiresLogin_body.
  no_posts.
Qed.

Lemma specificSelectors_no_posts (page : Page) (sels : list selector) :
  posts (trace (specificSelectors page sels)) = [].
Proof.
  induction sels as [|sel rest IH]; [reflexivity|].
  cbn [specificSelectors]. rewrite posts_bind, posts_try_catch.
  unfold waitForSelector, evalInnerTextTrim.
  no_posts; exact IH.
Qed.

Lemma extractArticleContent_no_posts (page : Page) :
  posts (trace (extractArticleContent page)) = [].
Proof.
  unfold extractArticleContent.
  rewrite posts_bind. cbn [delay emit trace result posts omap app].
  rewrite posts_bind, checkIfArticleRequiresLogin_no_posts. cbn [app].
  destruct (result (checkIfArticleRequiresLogin page)) as [[[|]|]|];
    try reflexivity.
  rewrite posts_bind, specificSelectors_no_posts. cbn [app].
  destruct (result (specificSelectors page _)) as [[[r|]|]|]; try reflexivity.
  no_posts.
Qed.

Lemma getStockUrlsFromSheet_no_posts (env : Env) (sh : Sheets) :
  posts (trace (getStockUrlsFromSheet env sh)) = [].
Proof. unfold getStockUrlsFromSheet. no_posts. Qed.

Lemma storeInWordPress_posts (h : Host) (env : Env) (net : Network)
    (data : WpData) :
  Forall (fun post : jsval * Payload =>
            post.1 = wpApiUrl (CONFIG env)
            /\ Headline post.2 = wp_headline data
            /\ Fullarticle post.2 = wp_content data
            /\ Provider post.2 = Js.or (wp_provider data) (JsStr "General"))
         (posts (trace (storeInWordPress h env net data))).
Proof.
  destruct (isRecentArticle_cases h (wp_timestamp data) 1) as [H|H].
  - destruct (storeInWordPress_recent h env net data H) as (p & _ & Heq).
    cbv zeta in Heq. rewrite Heq.
    destruct (net _ _); cbn; repeat constructor.
  - rewrite (storeInWordPress_stale h env net data H). constructor.
Qed.

Lemma extractArticleContent_result_clean (page : Page) (c : string) :
  result (extractArticleContent page) = Returned (Some c) ->
  (50 < String.length c)%nat
  /\ Js.includesAny (Js.toLowerCase c) restrictedPhrases = false.
Proof.
  rewrite result_extractArticleContent.
  destruct (checkIfArticleRequiresLogin_returns page) as [b ->].
  destruct b; [discriminate|].
  destruct (specificSelectors_returns page (contentSelectors SELECTOR_REGISTRY))
    as [[r|] Hr]; rewrite Hr.
  - intros [= ->]. apply (specificSelectors_accepts_long_clean page _ c Hr).
  - destruct (page_fault page (EvEvaluate FallbackScan)); [discriminate|].
    destruct (firstLongContainer page fallbackContainers) as [c'|] eqn:Hc;
      [|discriminate].
    destruct (Js.includesAny (Js.toLowerCase c') restrictedPhrases) eqn:Hclean;
      [discriminate|].
    intros [= <-]. apply firstLongContainer_long in Hc. split; [lia | exact Hclean].
Qed.

Section PostsOfATrace.

Context (Q : jsval * Payload -> Prop).

Lemma Forall_posts_bind {A B : Type} (m : M A) (f : A -> M B) :
  Forall Q (posts (trace m)) ->
  (forall a, result m = Returned a -> Forall Q (posts (trace (f a)))) ->
  Forall Q (posts (trace (m ≫= f))).
Proof.
  intros Hm Hf. rewrite posts_bind. apply Forall_app. split; [exact Hm|].
  destruct (result m) as [[a|]|]; [apply Hf; reflexivity | |]; constructor.
Qed.

Lemma Forall_posts_try_catch {A : Type} (body : M A) (handler : jsError -> M A) :
  Forall Q (posts (trace body)) ->
  (forall e, result body = Thrown e -> Forall Q (posts (trace (handler e)))) ->
  Forall Q (posts (trace (try_catch body handler))).
Proof.
  intros Hb Hh. rewrite posts_try_catch. apply Forall_app. split; [exact Hb|].
  destruct (result body) as [[|e]|];
    [constructor | apply Hh; reflexivity | constructor].
Qed.

Lemma Forall_posts_try_finally {A : Type} (body : M A) (cleanup : M unit) :
  Forall Q (posts (trace body)) ->
  Forall Q (posts (trace cleanup)) ->
  Forall Q (posts (trace (try_finally body cleanup))).
Proof.
  intros Hb Hc. rewrite posts_try_finally. apply Forall_app.
  split; [exact Hb|]. destruct (result body); [exact Hc | constructor].
Qed.

Lemma Forall_posts_none {A : Type} (m : M A) :
  posts (trace m) = [] -> Forall Q (posts (trace m)).
Proof. intros ->. constructor. Qed.

End PostsOfATrace.

Ltac quiet := apply Forall_posts_none; reflexivity.

Lemma processArticle_posts (w : World) (stockSymbol : jsval) (total index : nat)
    (article : Article) (c : counters) :
  Js.truthy (headline article) = true ->
  Js.includesAny (Js.toLowerCase (Js.toStr (headline article)))
                 InPage.restrictedIndicators = false ->
  Forall (safePost (wpApiUrl (CONFIG (env w))))
         (posts (trace (processArticle w stockSymbol total index article c))).
Proof.
  intros Hhead Hclean. unfold processArticle.
  destruct (Js.truthy (link article)); cbn [negb]; [|quiet].
  apply Forall_posts_bind; [quiet|]. intros _ _.
  apply Forall_posts_bind; [quiet|]. intros _ _.
  apply Forall_posts_bind.
  2:{ intros r _. destruct r.2; [quiet|].
      apply Forall_posts_bind; [quiet|]. intros; quiet. }
  apply Forall_posts_try_finally;
    [|destruct (isClosed w (link article)); quiet].
  unfold processArticle_try. apply Forall_posts_try_catch.
  2:{ intros e _. apply Forall_posts_bind; [quiet|]. intros; quiet. }
  apply Forall_posts_bind; [quiet|]. intros articlePage _.
  apply Forall_posts_bind; [quiet|]. intros _ _.
  apply Forall_posts_bind;
    [apply Forall_posts_none, extractArticleContent_no_posts|].
  intros [content|] Hcontent.
  2:{ apply Forall_posts_bind; [quiet|]. intros; quiet. }
  destruct (String.eqb content "").
  { apply Forall_posts_bind; [quiet|]. intros; quiet. }
  apply Forall_posts_bind; [quiet|]. intros _ _.
  apply Forall_posts_bind.
  - eapply Forall_impl; [apply storeInWordPress_posts|].
    cbn [wp_headline wp_content wp_provider].
    intros post (Hurl & Hh & Hc & Hp).
    apply extractArticleContent_result_clean in Hcontent as [Hlong Hfree].
    unfold safePost. rewrite Hh, Hc, Hp.
    split; [exact Hurl|]. split; [exact Hhead|]. split; [exact Hclean|].
    split; [exact Hlong|]. split; [exact Hfree|].
    apply or_default_truthy. discriminate.
  - intros [|] _; [|quiet].
    apply Forall_posts_bind; [quiet|]. intros; quiet.
Qed.

Lemma forArticles_posts (w : World) (stockSymbol : jsval) (total : nat)
    (articles : list Article) (index : nat) (c : counters) :
  Forall (fun a => Js.truthy (headline a) = true
                   /\ Js.includesAny (Js.toLowerCase (Js.toStr (headline a)))
                                     InPage.restrictedIndicators = false)
         articles ->
  Forall (safePost (wpApiUrl (CONFIG (env w))))
         (posts (trace (forArticles w stockSymbol total index articles c))).
Proof.
  intros Hall. revert index c.
  induction Hall as [|a articles [Hh Hc] _ IH]; intros index c; [quiet|].
  cbn [forArticles]. apply Forall_posts_bind.
  - apply processArticle_posts; assumption.
  - intros c' _. apply IH.
Qed.

Lemma run_headlines (h : Host) (page : Page) (selectors : Registry)
    (symbol : jsval) :
  Forall (fun a => Js.truthy (headline a) = true
                   /\ Js.includesAny (Js.toLowerCase (Js.toStr (headline a)))
                                     InPage.restrictedIndicators = false)
         (InPage.run h page selectors symbol).
Proof.
  apply Forall_forall. intros a Hin.
  apply run_elem in Hin as (element & _ & Hext).
  apply extractCard_invariants in Hext as (Hhead & Hclean & _).
  split; assumption.
Qed.

Lemma processStock_posts (w : World) (stockEntry : StockEntry) :
  Forall (safePost (wpApiUrl (CONFIG (env w))))
         (posts (trace (processStock w stockEntry))).
Proof.
  unfold processStock.
  apply Forall_posts_bind; [quiet|]. intros _ _.
  apply Forall_posts_bind.
  { apply Forall_posts_try_catch.
    - apply Forall_posts_bind; [quiet|]. intros page _.
      apply Forall_posts_bind; [quiet|]. intros _ _.
      apply Forall_posts_bind; [quiet|]. intros; quiet.
    - intros e _. apply Forall_posts_bind; [quiet|]. intros; quiet. }
  intros [page|] _; [|quiet].
  apply Forall_posts_bind; [quiet|]. intros _ _.
  apply Forall_posts_bind; [quiet|]. intros _ _.
  apply Forall_posts_bind; [quiet|]. intros articlesOnPage Harticles.
  apply trySelectors_returned in Harticles. subst articlesOnPage.
  apply Forall_posts_bind; [quiet|]. intros _ _.
  apply Forall_posts_bind; [apply forArticles_posts, run_headlines|].
  intros c _.
  apply Forall_posts_bind; [quiet|]. intros; quiet.
Qed.

Lemma forStocks_posts (w : World) (stockUrls : list StockEntry) :
  Forall (safePost (wpApiUrl (CONFIG (env w))))
         (posts (trace (forStocks w stockUrls))).
Proof.
  induction stockUrls as [|s rest IH]; [quiet|].
  cbn [forStocks]. apply Forall_posts_bind; [apply processStock_posts|].
  intros _ _. exact IH.
Qed.

(** X18.  Every request a run sends to the publishing endpoint, whatever the
    sheet, the pages and the endpoint do, goes to the configured address
    and carries a headline that is not empty and free of restricted
    indicators, a text of more than 50 characters free of restricted
    phrases, and a provider. *)
Theorem a_run_posts_only_safe_articles (w : World) :
  Forall (safePost (wpApiUrl (CONFIG (env w)))) (posts (trace (main w))).
Proof.
  unfold main. apply Forall_posts_try_catch; [|intros; quiet].
  unfold scrapeTradingViewNews.
  apply Forall_posts_bind; [quiet|]. intros _ _.
  apply Forall_posts_bind; [quiet|]. intros _ _.
  apply Forall_posts_bind.
  { apply Forall_posts_try_catch.
    - apply Forall_posts_bind;
        [apply Forall_posts_none, getStockUrlsFromSheet_no_posts|].
      intros stockUrls _. destruct (length stockUrls =? 0)%nat; [|quiet].
      apply Forall_posts_bind; [quiet|]. intros _ _.
      apply Forall_posts_bind; [quiet|]. intros; quiet.
    - intros e _. apply Forall_posts_bind; [quiet|]. intros _ _.
      apply Forall_posts_bind; [quiet|]. intros; quiet. }
  intros [stockUrls|] _; [|quiet].
  apply Forall_posts_bind; [apply forStocks_posts|]. intros _ _.
  apply Forall_posts_bind; [quiet|]. intros _ _.
  apply Forall_posts_bind; [quiet|]. intros _ _.
  apply Forall_posts_bind; [quiet|]. intros; quiet.
Qed.

Lemma storeInWordPress_stored_posts (h : Host) (env : Env) (net : Network)
    (data : WpData) :
  result (storeInWordPress h env net data) = Returned true ->
  length (posts (trace (storeInWordPress h env net data))) = 1%nat.
Proof.
  destruct (isRecentArticle_cases h (wp_timestamp data) 1) as [H|H].
  - destruct (storeInWordPress_recent h env net data H) as (p & _ & Heq).
    cbv zeta in Heq. rewrite Heq. destruct (net _ _); [reflexivity | discriminate].
  - rewrite (storeInWordPress_stale h env net data H). discriminate.
Qed.

Lemma storeInWordPress_returns (h : Host) (env : Env) (net : Network)
    (data : WpData) :
  exists b : bool, result (storeInWordPress h env net data) = Returned b.
Proof.
  destruct (isRecentArticle_cases h (wp_timestamp data) 1) as [H|H].
  - destruct (storeInWordPress_recent h env net data H) as (p & _ & Heq).
    cbv zeta in Heq. rewrite Heq. destruct (net _ _); eauto.
  - rewrite (storeInWordPress_stale h env net data H). eauto.
Qed.

Lemma extractArticleContent_returns (page : Page) :
  exists r, result (extractArticleContent page) = Returned r.
Proof.
  rewrite result_extractArticleContent.
  destruct (checkIfArticleRequiresLogin_returns page) as [b ->].
  destruct b; [eauto|].
  destruct (specificSelectors_returns page (contentSelectors SELECTOR_REGISTRY))
    as [[r|] ->]; [eauto|].
  destruct (page_fault page (EvEvaluate FallbackScan)); [eauto|].
  destruct (firstLongContainer page fallbackContainers); [|eauto].
  destruct (Js.includesAny _ _); eauto.
Qed.


(** ** Pages opened and closed *)

Lemma browserEvents_app (t1 t2 : list event) :
  browserEvents (t1 ++ t2) = browserEvents t1 ++ browserEvents t2.
Proof. apply filter_app. Qed.

Lemma browserEvents_bind {A B : Type} (m : M A) (f : A -> M B) :
  browserEvents (trace (m ≫= f)) =
  browserEvents (trace m) ++ match result m with
                          | Settled (Returned a) => browserEvents (trace (f a))
                          | _ => []
                          end.
Proof.
  rewrite trace_bind.
  destruct (result m) as [[a|e]|]; [apply browserEvents_app| |];
    rewrite app_nil_r; reflexivity.
Qed.

Lemma browserEvents_try_catch {A : Type} (body : M A) (handler : jsError -> M A) :
  browserEvents (trace (try_catch body handler)) =
  browserEvents (trace body) ++ match result body with
                             | Settled (Thrown e) =>
                                 browserEvents (trace (handler e))
                             | _ => []
                             end.
Proof.
  rewrite trace_try_catch.
  destruct (result body) as [[a|e]|]; [|apply browserEvents_app|];
    rewrite app_nil_r; reflexivity.
Qed.

Lemma browserEvents_try_finally {A : Type} (body : M A) (cleanup : M unit) :
  browserEvents (trace (try_finally body cleanup)) =
  browserEvents (trace body) ++ match result body with
                             | Settled _ => browserEvents (trace cleanup)
                             | Pending => []
                             end.
Proof.
  rewrite trace_try_finally. destruct (result body) as [o|];
    [apply browserEvents_app | rewrite app_nil_r; reflexivity].
Qed.

Ltac no_pages :=
  repeat first
    [ reflexivity
    | rewrite browserEvents_bind
    | rewrite browserEvents_try_catch
    | progress cbn [trace result call emit console_log console_error
                    delay throw mret M_ret page_evaluate app]
    | match goal with
      | |- context [match ?x with _ => _ end] => destruct x
      end ].

Lemma checkIfArticleRequiresLogin_no_pages (page : Page) :
  browserEvents (trace (checkIfArticleRequiresLogin page)) = [].
Proof.
  unfold checkIfArticleRequiresLogin, checkIfArticleRequiresLogin_body.
  no_pages.
Qed.

Lemma specificSelectors_no_pages (page : Page) (sels : list selector) :
  browserEvents (trace (specificSelectors page sels)) = [].
Proof.
  induction sels as [|sel rest IH]; [reflexivity|].
  cbn [specificSelectors]. rewrite browserEvents_bind, browserEvents_try_catch.
  unfold waitForSelector, evalInnerTextTrim.
  no_pages; exact IH.
Qed.

Lemma extractArticleContent_no_pages (page : Page) :
  browserEvents (trace (extractArticleContent page)) = [].
Proof.
  unfold extractArticleContent.
  rewrite browserEvents_bind. cbn [delay emit trace result].
  rewrite browserEvents_bind, checkIfArticleRequiresLogin_no_pages.
  destruct (result (checkIfArticleRequiresLogin page)) as [[[|]|]|];
    try reflexivity.
  rewrite browserEvents_bind, specificSelectors_no_pages.
  destruct (result (specificSelectors page _)) as [[[r|]|]|]; try reflexivity.
  no_pages.
Qed.

Lemma storeInWordPress_no_pages (h : Host) (env : Env) (net : Network)
    (data : WpData) :
  browserEvents (trace (storeInWordPress h env net data)) = [].
Proof.
  destruct (isRecentArticle_cases h (wp_timestamp data) 1) as [H|H].
  - destruct (storeInWordPress_recent h env net data H) as (p & _ & Heq).
    cbv zeta in Heq. rewrite Heq. destruct (net _ _); reflexivity.
  - rewrite (storeInWordPress_stale h env net data H). reflexivity.
Qed.

Lemma no_pages_bind {A B : Type} (m : M A) (f : A -> M B) :
  browserEvents (trace m) = [] ->
  (forall a, result m = Returned a -> browserEvents (trace (f a)) = []) ->
  browserEvents (trace (m ≫= f)) = [].
Proof.
  intros Hm Hf. rewrite browserEvents_bind, Hm.
  destruct (result m) as [[a|]|]; [apply Hf; reflexivity | |]; reflexivity.
Qed.

Lemma no_pages_try_catch {A : Type} (body : M A) (handler : jsError -> M A) :
  browserEvents (trace body) = [] ->
  (forall e, result body = Thrown e -> browserEvents (trace (handler e)) = []) ->
  browserEvents (trace (try_catch body handler)) = [].
Proof.
  intros Hb Hh. rewrite browserEvents_try_catch, Hb.
  destruct (result body) as [[|e]|];
    [reflexivity | apply Hh; reflexivity | reflexivity].
Qed.

Lemma processArticle_try_no_pages (w : World) (stockSymbol : jsval)
    (total index : nat) (article : Article) (c : counters) :
  browserEvents
    (trace (processArticle_try w stockSymbol total index article c)) = [].
Proof.
  unfold processArticle_try. apply no_pages_try_catch.
  - apply no_pages_bind; [reflexivity|]. intros articlePage _.
    apply no_pages_bind; [reflexivity|]. intros _ _.
    apply no_pages_bind; [apply extractArticleContent_no_pages|].
    intros [content|] _; [|reflexivity].
    destruct (String.eqb content ""); [reflexivity|].
    apply no_pages_bind; [reflexivity|]. intros _ _.
    apply no_pages_bind; [apply storeInWordPress_no_pages|].
    intros [|] _; reflexivity.
  - intros e _. reflexivity.
Qed.

(** Whatever fails inside the [try] is caught: the [try] with its [catch]
    returns, with at most one of the counters raised by one. *)
Lemma processArticle_try_returns (w : World) (stockSymbol : jsval)
    (total index : nat) (article : Article) (c : counters) :
  exists (c' : counters) (how : ending),
    result (processArticle_try w stockSymbol total index article c)
    = Returned (c', how)
    /\ (c' = c \/ c' = (S c.1, c.2) \/ c' = (c.1, S c.2)).
Proof.
  unfold processArticle_try.
  rewrite result_try_catch, result_bind. cbn [call result].
  destruct (goto w (link article)) as [articlePage|]; [|cbn; eauto].
  rewrite result_bind. cbn [console_log emit result]. rewrite result_bind.
  destruct (extractArticleContent_returns articlePage) as [[content|] ->];
    [|cbn; eauto 7].
  destruct (String.eqb content ""); [cbn; eauto 7|].
  rewrite result_bind. cbn [console_log emit result]. rewrite result_bind.
  destruct (storeInWordPress_returns (host w) (env w) (network w)
              {| wp_headline := headline article;
                 wp_content := content;
                 wp_symbol := Js.or (symbol article) stockSymbol;
                 wp_provider := provider article;
                 wp_timestamp := timestamp article |}) as [[|] ->];
    cbn; eauto 7.
Qed.

Lemma processArticle_browserEvents (w : World) (stockSymbol : jsval)
    (total index : nat) (article : Article) (c : counters) :
  browserEvents (trace (processArticle w stockSymbol total index article c))
  = if Js.truthy (link article) then
      match newPage w (link article) with
      | Returned _ =>
          EvNewPage :: (if isClosed w (link article) then [] else [EvClosePage])
      | Thrown _ => [EvNewPage]
      end
    else [].
Proof.
  unfold processArticle.
  destruct (Js.truthy (link article)); cbn [negb]; [|reflexivity].
  rewrite browserEvents_bind. cbn [call trace result].
  destruct (newPage w (link article)) as [[]|e]; [|reflexivity].
  rewrite browserEvents_bind. cbn [console_log emit trace result].
  rewrite browserEvents_bind, browserEvents_try_finally,
    processArticle_try_no_pages, result_try_finally.
  destruct (processArticle_try_returns w stockSymbol total index article c)
    as (c' & how & -> & _).
  destruct (isClosed w (link article)); cbn [negb].
  - destruct how; reflexivity.
  - cbn [call trace result].
    destruct (closePage w (link article)) as [[]|e]; [|reflexivity].
    destruct how; reflexivity.
Qed.

(** How an iteration ends: only the browser failing the tab makes it
    raise. *)
Lemma processArticle_outcome (w : World) (stockSymbol : jsval)
    (total index : nat) (article : Article) (c : counters) :
  match result (processArticle w stockSymbol total index article c) with
  | Settled (Returned c') =>
      (c' = c \/ c' = (S c.1, c.2) \/ c' = (c.1, S c.2))
      /\ forall e, ~ tabFails w e article
  | Settled (Thrown e) => tabFails w e article
  | Pending => False
  end.
Proof.
  unfold processArticle, tabFails.
  destruct (Js.truthy (link article)); cbn [negb];
    [|cbn; split; [auto|]; intros e [Hl _]; discriminate].
  rewrite result_bind. cbn [call result].
  destruct (newPage w (link article)) as [[]|e]; [|auto].
  rewrite result_bind. cbn [console_log emit result].
  rewrite result_bind, result_try_finally.
  destruct (processArticle_try_returns w stockSymbol total index article c)
    as (c' & how & -> & Hc').
  destruct (isClosed w (link article)); cbn [negb].
  - assert (forall e, ~ (true = true /\
                         (Returned () = Thrown e \/
                          Returned () = Returned () /\ true = false /\
                          closePage w (link article) = Thrown e))) as Hno.
    { intros e [_ [H | (_ & H & _)]]; discriminate. }
    destruct how; cbn; split; assumption.
  - cbn [call result].
    destruct (closePage w (link article)) as [[]|e]; [|auto].
    assert (forall e, ~ (true = true /\
                         (Returned () = Thrown e \/
                          Returned () = Returned () /\ false = false /\
                          Returned () = Thrown e))) as Hno.
    { intros e [_ [H | (_ & _ & H)]]; discriminate. }
    destruct how; cbn; split; assumption.
Qed.

Lemma forArticles_outcome (w : World) (stockSymbol : jsval) (total : nat)
    (articles : list Article) (index : nat) (c : counters) :
  match result (forArticles w stockSymbol total index articles c) with
  | Settled (Returned c') =>
      ((c.1 <= c'.1)%nat /\ (c.2 <= c'.2)%nat
       /\ (c'.1 + c'.2 <= c.1 + c.2 + length articles)%nat)
      /\ forall e a, a ∈ articles -> ~ tabFails w e a
  | Settled (Thrown e) => exists a, a ∈ articles /\ tabFails w e a
  | Pending => False
  end.
Proof.
  revert index c. induction articles as [|a articles IH]; intros index c.
  - cbn. split; [lia|]. intros e a Hin. inversion Hin.
  - cbn [forArticles]. rewrite result_bind.
    pose proof (processArticle_outcome w stockSymbol total index a c) as Ha.
    destruct (result (processArticle w stockSymbol total index a c))
      as [[c1|e]|]; [|exists a; split; [left | exact Ha]|exact Ha].
    destruct Ha as [Hc1 Hno].
    specialize (IH (S index) c1).
    destruct (result (forArticles w stockSymbol total (S index) articles c1))
      as [[c'|e]|]; [| |exact IH].
    + destruct IH as [(H1 & H2 & H3) Hrest]. split.
      * cbn [length].
        destruct Hc1 as [-> | [-> | ->]]; cbn [fst snd] in *; lia.
      * intros e b Hin. apply elem_of_cons in Hin as [->|Hin];
          [apply Hno | apply Hrest; exact Hin].
    + destruct IH as (b & Hin & Hb). exists b. split; [right; exact Hin | exact Hb].
Qed.

Lemma forArticles_tabs (w : World) (stockSymbol : jsval) (total : nat)
    (articles : list Article) (index : nat) (c : counters) :
  Forall tabEvent
    (browserEvents (trace (forArticles w stockSymbol total index articles c))).
Proof.
  revert index c. induction articles as [|a articles IH]; intros index c;
    [constructor|].
  cbn [forArticles]. rewrite browserEvents_bind. apply Forall_app. split.
  - rewrite processArticle_browserEvents. unfold tabEvent.
    destruct (Js.truthy (link a)); [|constructor].
    destruct (newPage w (link a)); [destruct (isClosed w (link a))|];
      repeat (constructor; auto).
  - destruct (result (processArticle w stockSymbol total index a c))
      as [[c1|]|]; [apply IH | constructor | constructor].
Qed.

Lemma tabs_bind {A B : Type} (m : M A) (f : A -> M B) :
  Forall tabEvent (browserEvents (trace m)) ->
  (forall a, result m = Returned a ->
             Forall tabEvent (browserEvents (trace (f a)))) ->
  Forall tabEvent (browserEvents (trace (m ≫= f))).
Proof.
  intros Hm Hf. rewrite browserEvents_bind. apply Forall_app.
  split; [exact Hm|].
  destruct (result m) as [[a|]|]; [apply Hf; reflexivity | |]; constructor.
Qed.

Lemma tabs_none {A : Type} (m : M A) :
  browserEvents (trace m) = [] -> Forall tabEvent (browserEvents (trace m)).
Proof. intros ->. constructor. Qed.

Ltac no_tabs := apply tabs_none; reflexivity.

Lemma processStock_tabs (w : World) (stockEntry : StockEntry) :
  Forall tabEvent (browserEvents (trace (processStock w stockEntry))).
Proof.
  unfold processStock.
  apply tabs_bind; [no_tabs|]. intros _ _.
  apply tabs_bind.
  { apply tabs_none, no_pages_try_catch.
    - apply no_pages_bind; [reflexivity|]. intros page _.
      apply no_pages_bind; [reflexivity|]. intros _ _.
      apply no_pages_bind; [reflexivity|]. intros; reflexivity.
    - intros e _. reflexivity. }
  intros [page|] _; [|no_tabs].
  apply tabs_bind; [no_tabs|]. intros _ _.
  apply tabs_bind; [no_tabs|]. intros _ _.
  apply tabs_bind; [no_tabs|]. intros articlesOnPage _.
  apply tabs_bind; [no_tabs|]. intros _ _.
  apply tabs_bind; [apply forArticles_tabs|]. intros c _.
  apply tabs_bind; [no_tabs|]. intros; no_tabs.
Qed.

Lemma forStocks_tabs (w : World) (stockUrls : list StockEntry) :
  Forall tabEvent (browserEvents (trace (forStocks w stockUrls))).
Proof.
  induction stockUrls as [|s rest IH]; [constructor|].
  cbn [forStocks]. apply tabs_bind; [apply processStock_tabs|].
  intros _ _. exact IH.
Qed.

Lemma getStockUrlsFromSheet_no_pages (env : Env) (sh : Sheets) :
  browserEvents (trace (getStockUrlsFromSheet env sh)) = [].
Proof. unfold getStockUrlsFromSheet. no_pages. Qed.

Lemma scrapeTradingViewNews_with_stocks (w : World)
    (stockUrls : list StockEntry) :
  result (getStockUrlsFromSheet (env w) (sheets w)) = Returned stockUrls ->
  stockUrls <> [] ->
  scrapeTradingViewNews w =
  mkM ([EvLaunch; EvNewPage]
       ++ trace (getStockUrlsFromSheet (env w) (sheets w))
       ++ trace (forStocks w stockUrls)
       ++ match result (forStocks w stockUrls) with
          | Settled (Returned _) =>
              [ EvLog (newline +:+ "--- Scraping Complete ---");
                EvLog "Finished processing all stock URLs from Google Sheet.";
                EvCloseBrowser;
                EvLog (newline +:+ "Browser closed.") ]
          | _ => []
          end)
      (result (forStocks w stockUrls)).
Proof.
  intros Hsheet Hsome. unfold scrapeTradingViewNews.
  destruct (getStockUrlsFromSheet (env w) (sheets w)) as [t r].
  cbn [result trace] in *. subst r.
  destruct stockUrls as [|s rest]; [congruence|].
  unfold mbind, M_bind, try_catch, console_log, emit, mret, M_ret.
  cbn [result trace length Nat.eqb].
  destruct (forStocks w (s :: rest)) as [t' [[[]|e]|]]; cbn [result trace];
    rewrite ?app_nil_r; reflexivity.
Qed.

(** X20.  Once the sheet has answered with stock URLs, the browser is told to
    close exactly when the loop over the stocks runs to its end, as the
    last thing the run asks of it, after the tabs of the articles.  When
    the loop ends with an error, or does not end, the run ends the same
    way and [browser.close()] is never called: the browser is left
    open. *)
Theorem browser_is_closed_iff_the_loop_ends (w : World)
    (stockUrls : list StockEntry) :
  result (getStockUrlsFromSheet (env w) (sheets w)) = Returned stockUrls ->
  stockUrls <> [] ->
  Forall tabEvent (browserEvents (trace (forStocks w stockUrls)))
  /\ browserEvents (trace (scrapeTradingViewNews w))
     = [EvLaunch; EvNewPage]
       ++ browserEvents (trace (forStocks w stockUrls))
       ++ match result (forStocks w stockUrls) with
          | Settled (Returned _) => [EvCloseBrowser]
          | _ => []
          end
  /\ (result (forStocks w stockUrls) <> Returned tt ->
      result (scrapeTradingViewNews w) = result (forStocks w stockUrls)
      /\ EvCloseBrowser ∉ trace (scrapeTradingViewNews w)).
Proof.
  intros Hsheet Hsome.
  pose proof (forStocks_tabs w stockUrls) as Htabs.
  assert (browserEvents (trace (scrapeTradingViewNews w))
          = [EvLaunch; EvNewPage]
            ++ browserEvents (trace (forStocks w stockUrls))
            ++ match result (forStocks w stockUrls) with
               | Settled (Returned _) => [EvCloseBrowser]
               | _ => []
               end) as Hshape.
  { rewrite (scrapeTradingViewNews_with_stocks w stockUrls Hsheet Hsome).
    cbn [trace]. rewrite !browserEvents_app, getStockUrlsFromSheet_no_pages.
    destruct (result (forStocks w stockUrls)) as [[[]|]|]; reflexivity. }
  split; [exact Htabs|]. split; [exact Hshape|].
  intros Hfail. split.
  - rewrite (scrapeTradingViewNews_with_stocks w stockUrls Hsheet Hsome).
    reflexivity.
  - intros Hin.
    assert (EvCloseBrowser ∈ browserEvents (trace (scrapeTradingViewNews w)))
      as Hb.
    { unfold browserEvents. apply list_elem_of_filter. split; [auto|exact Hin]. }
    rewrite Hshape in Hb.
    destruct (result (forStocks w stockUrls)) as [[[]|]|]; [congruence| |];
      rewrite app_nil_r in Hb;
      (apply elem_of_cons in Hb as [Hb|Hb]; [discriminate|]);
      (apply elem_of_cons in Hb as [Hb|Hb]; [discriminate|]);
      (eapply Forall_forall in Htabs; [|exact Hb]);
      destruct Htabs; discriminate.
Qed.

Lemma browser_is_closed_iff_the_loop_ends_witness :
  result (scrapeTradingViewNews stubbornTabWorld)
  = Thrown (Error "Protocol error (Target.closeTarget): Target closed")
  /\ EvCloseBrowser ∉ trace (scrapeTradingViewNews stubbornTabWorld).
Proof.
  destruct (browser_is_closed_iff_the_loop_ends stubbornTabWorld [niftyEntry]
              eq_refl ltac:(discriminate)) as (_ & _ & Hfail).
  destruct Hfail as [Hres Hopen]; [vm_compute; discriminate|].
  split; [|exact Hopen]. rewrite Hres. vm_compute. reflexivity.
Defined.

(** ** Completion and failure of a run *)

Lemma processStock_returns (w : World) (stockEntry : StockEntry) :
  (forall page, goto w (se_link stockEntry) = Returned page ->
                page_fault page (EvEvaluate AutoScroll) = None
                /\ page_fault page (EvEvaluate Extraction) = None
                /\ autoScroll_inPage (patience w) (page_scrollHeight page)
                   <> None) ->
  (forall e a, ~ tabFails w e a) ->
  result (processStock w stockEntry) = Returned tt.
Proof.
  intros Hok Htabs. unfold processStock.
  rewrite result_bind. cbn [console_log emit result].
  rewrite result_bind, result_try_catch, result_bind. cbn [call result].
  destruct (goto w (se_link stockEntry)) as [page|e]; [|reflexivity].
  destruct (Hok page eq_refl) as (Hscroll & Hextract & Hends).
  rewrite !result_bind. cbn [console_log emit delay mret M_ret result].
  unfold autoScroll, trySelectors, page_evaluate.
  rewrite Hscroll, Hextract.
  destruct (autoScroll_inPage (patience w) (page_scrollHeight page));
    [|congruence].
  rewrite !result_bind. cbn [call console_log emit delay mret M_ret result].
  rewrite !result_bind. cbn [call console_log emit delay mret M_ret result].
  match goal with
  | |- context [forArticles ?a ?b ?c ?d ?e ?f] =>
      pose proof (forArticles_outcome a b c e d f) as Hloop
  end.
  unfold counters in Hloop.
  match goal with
  | |- match ?x with _ => _ end = _ => destruct x as [[c'|e']|]
  end.
  - reflexivity.
  - destruct Hloop as (a & _ & Hfails). exfalso. exact (Htabs e' a Hfails).
  - contradiction.
Qed.

(** X21.  The loop over the stocks runs to its end, whatever pages fail to
    load, whatever text cannot be extracted and whatever the endpoint
    refuses, when four things hold of the browser: it rejects no scroll
    and no extraction on a listing page that has loaded, the scroll of
    every such page ends within the time the run is watched, it opens
    the tab of every article, and it closes every tab that does not say
    it is closed. *)
Theorem stock_loop_completes (w : World) (stockUrls : list StockEntry) :
  (forall stockEntry page,
      stockEntry ∈ stockUrls ->
      goto w (se_link stockEntry) = Returned page ->
      page_fault page (EvEvaluate AutoScroll) = None
      /\ page_fault page (EvEvaluate Extraction) = None
      /\ autoScroll_inPage (patience w) (page_scrollHeight page) <> None) ->
  (forall link : jsval,
      newPage w link = Returned tt
      /\ (isClosed w link = false -> closePage w link = Returned tt)) ->
  result (forStocks w stockUrls) = Returned tt.
Proof.
  intros Hok Htabs.
  assert (forall e a, ~ tabFails w e a) as Hno.
  { intros e a (_ & [Hopen | (_ & Hclosed & Hclose)]);
      destruct (Htabs (link a)) as [Hopen' Hclose'].
    - congruence.
    - rewrite (Hclose' Hclosed) in Hclose. discriminate. }
  induction stockUrls as [|s rest IH]; [reflexivity|].
  cbn [forStocks]. rewrite result_bind, processStock_returns.
  - apply IH. intros stockEntry page Hin. apply Hok. right. exact Hin.
  - intros page. apply Hok. left.
  - exact Hno.
Qed.

Lemma stock_loop_completes_witness :
  result (forStocks exampleWorld [niftyEntry]) = Returned tt.
Proof.
  apply stock_loop_completes.
  - intros stockEntry page _. unfold exampleWorld; cbn [goto].
    destruct (decide _); intros [= <-]; repeat split; discriminate.
  - intros link. split; reflexivity.
Defined.

(** X22.  A listing page that fails to load costs its stock three lines of the
    trace, the announcement, the navigation and the error, and the
    stocks after it are processed as they would be without it. *)
Theorem failed_listing_is_skipped (w : World) (stockEntry : StockEntry)
    (rest : list StockEntry) (error : jsError) :
  goto w (se_link stockEntry) = Thrown error ->
  forStocks w (stockEntry :: rest) =
  mkM ([ EvLog (newline +:+ "Processing news for "
                +:+ Js.toStr (se_Stock_name stockEntry) +:+ " ("
                +:+ Js.toStr (se_Symbol stockEntry) +:+ ") from "
                +:+ Js.toStr (se_link stockEntry) +:+ " ---");
         EvGoto (se_link stockEntry) 30000;
         EvError ("Failed to load news page for "
                  +:+ Js.toStr (se_Symbol stockEntry) +:+ ": "
                  +:+ message error) ]
       ++ trace (forStocks w rest))
      (result (forStocks w rest)).
Proof.
  intros Hgoto. cbn [forStocks]. unfold processStock. rewrite Hgoto.
  unfold mbind, M_bind, call, try_catch, console_log, console_error, emit,
    mret, M_ret.
  cbn [result trace]. reflexivity.
Qed.

Lemma failed_listing_is_skipped_witness :
  navigations
    (trace (forStocks (worldWithPage (Thrown (Error "net::ERR_TIMED_OUT")))
              [niftyEntry]))
  = [JsStr "https://in.tradingview.com/symbols/NSE-NIFTY/news/"]
  /\ result
       (forStocks (worldWithPage (Thrown (Error "net::ERR_TIMED_OUT")))
          [niftyEntry])
     = Returned tt.
Proof.
  rewrite (failed_listing_is_skipped
             (worldWithPage (Thrown (Error "net::ERR_TIMED_OUT"))) niftyEntry []
             (Error "net::ERR_TIMED_OUT") eq_refl).
  split; reflexivity.
Defined.

(** The first stock of the loop up to its scroll. *)
Lemma forStocks_up_to_the_scroll (w : World) (stockEntry : StockEntry)
    (rest : list StockEntry) (page : Page) :
  goto w (se_link stockEntry) = Returned page ->
  (forall u : unit,
      result (autoScroll (patience w) page) <> Returned u) ->
  forStocks w (stockEntry :: rest) =
  mkM [ EvLog (newline +:+ "Processing news for "
               +:+ Js.toStr (se_Stock_name stockEntry) +:+ " ("
               +:+ Js.toStr (se_Symbol stockEntry) +:+ ") from "
               +:+ Js.toStr (se_link stockEntry) +:+ " ---");
        EvGoto (se_link stockEntry) 30000;
        EvLog ("Successfully loaded news page for "
               +:+ Js.toStr (se_Symbol stockEntry) +:+ ".");
        EvDelay 3000;
        EvEvaluate AutoScroll ]
      (match result (autoScroll (patience w) page) with
       | Settled (Thrown e) => Thrown e
       | _ => Pending
       end).
Proof.
  intros Hgoto Hscroll. cbn [forStocks]. unfold processStock.
  rewrite Hgoto.
  unfold mbind, M_bind, call, try_catch, console_log, console_error, delay,
    emit, mret, M_ret.
  cbn [result trace].
  destruct (autoScroll (patience w) page) as [t r] eqn:Hauto.
  assert (t = [EvEvaluate AutoScroll]) as ->.
  { unfold autoScroll, page_evaluate, call in Hauto. congruence. }
  cbn [result trace] in *.
  destruct r as [[u|e]|]; [destruct (Hscroll u eq_refl) | |]; reflexivity.
Qed.

(** X23.  A rejected scroll is not contained: the error leaves the loop over
    the stocks and the run, no later stock is visited, and the entry
    point logs the message of the error. *)
Theorem rejected_scroll_aborts_the_run (w : World) (stockEntry : StockEntry)
    (rest : list StockEntry) (page : Page) (error : jsError) :
  goto w (se_link stockEntry) = Returned page ->
  page_fault page (EvEvaluate AutoScroll) = Some error ->
  result (forStocks w (stockEntry :: rest)) = Thrown error
  /\ navigations (trace (forStocks w (stockEntry :: rest)))
     = [se_link stockEntry]
  /\ (result (getStockUrlsFromSheet (env w) (sheets w))
      = Returned (stockEntry :: rest) ->
      result (scrapeTradingViewNews w) = Thrown error
      /\ result (main w) = Returned tt
      /\ last (trace (main w)) = Some (EvError (message error))).
Proof.
  intros Hgoto Hfault.
  assert (result (autoScroll (patience w) page) = Thrown error) as Hscroll.
  { unfold autoScroll, page_evaluate. rewrite Hfault. reflexivity. }
  assert (forStocks w (stockEntry :: rest) =
          mkM [ EvLog (newline +:+ "Processing news for "
                       +:+ Js.toStr (se_Stock_name stockEntry) +:+ " ("
                       +:+ Js.toStr (se_Symbol stockEntry) +:+ ") from "
                       +:+ Js.toStr (se_link stockEntry) +:+ " ---");
                EvGoto (se_link stockEntry) 30000;
                EvLog ("Successfully loaded news page for "
                       +:+ Js.toStr (se_Symbol stockEntry) +:+ ".");
                EvDelay 3000;
                EvEvaluate AutoScroll ]
              (Thrown error)) as Hloop.
  { rewrite (forStocks_up_to_the_scroll w stockEntry rest page Hgoto).
    - rewrite Hscroll. reflexivity.
    - intros u. rewrite Hscroll. discriminate. }
  rewrite Hloop. split; [reflexivity|]. split; [reflexivity|].
  intros Hsheet.
  assert (result (scrapeTradingViewNews w) = Thrown error) as Hrun.
  { rewrite (scrapeTradingViewNews_with_stocks w _ Hsheet ltac:(discriminate)).
    rewrite Hloop. reflexivity. }
  split; [exact Hrun|]. unfold main.
  rewrite result_try_catch, trace_try_catch, Hrun.
  split; [reflexivity|].
  cbn [console_error emit trace]. apply last_snoc.
Qed.

Lemma rejected_scroll_aborts_the_run_witness :
  result (scrapeTradingViewNews (worldWithPage (Returned unscrollablePage)))
  = Thrown (Error "Execution context was destroyed")
  /\ browserEvents
       (trace (scrapeTradingViewNews (worldWithPage (Returned unscrollablePage))))
     = [EvLaunch; EvNewPage].
Proof.
  split; [|reflexivity].
  apply (rejected_scroll_aborts_the_run
           (worldWithPage (Returned unscrollablePage)) niftyEntry
           [] unscrollablePage (Error "Execution context was destroyed"));
    reflexivity.
Defined.

(** ** The scroll loop *)

Lemma scrollLoop_sound (fuel : nat) (heightAt : nat -> Z) (firing n : nat)
    (total : Z) :
  total = 500 * Z.of_nat firing ->
  scrollLoop fuel heightAt firing total = Some n ->
  (firing < n <= firing + fuel)%nat
  /\ heightAt (n - 1)%nat <= 500 * Z.of_nat n
  /\ forall k : nat, (firing <= k < n - 1)%nat ->
                     500 * (Z.of_nat k + 1) < heightAt k.
Proof.
  revert firing total. induction fuel as [|fuel IH]; intros firing total Ht;
    [discriminate|].
  cbn [scrollLoop]. cbv zeta.
  destruct (Z.leb_spec (heightAt firing) (total + 500)) as [Hle|Hgt].
  - intros [= <-]. replace (S firing - 1)%nat with firing by lia.
    split; [lia|]. split; [lia|]. intros k Hk. lia.
  - intros Hrun. apply IH in Hrun as (Hn & Hlast & Hbefore); [|lia].
    split; [lia|]. split; [exact Hlast|].
    intros k Hk. destruct (Nat.eq_dec k firing) as [->|Hne]; [lia|].
    apply Hbefore. lia.
Qed.

Lemma scrollLoop_complete (fuel : nat) (heightAt : nat -> Z) (firing k : nat)
    (total : Z) :
  total = 500 * Z.of_nat firing ->
  (firing <= k < firing + fuel)%nat ->
  heightAt k <= 500 * (Z.of_nat k + 1) ->
  exists n : nat, scrollLoop fuel heightAt firing total = Some n.
Proof.
  revert firing total. induction fuel as [|fuel IH]; intros firing total Ht Hk Hstop;
    [lia|].
  cbn [scrollLoop]. cbv zeta.
  destruct (Z.leb_spec (heightAt firing) (total + 500)) as [Hle|Hgt]; [eauto|].
  apply IH; [lia| |exact Hstop].
  destruct (Nat.eq_dec k firing) as [->|Hne]; lia.
Qed.

(** X25.  On a document of fixed height the scroll loop ends, given the time
    for it: it fires once when the height is at most 500 pixels, and
    otherwise as many times as 500 pixels are needed to cover the height,
    the last one possibly in part. *)
Theorem autoScroll_on_a_fixed_height (fuel : nat) (height : Z) :
  (height + 499) / 500 <= Z.of_nat fuel ->
  (0 < fuel)%nat ->
  autoScroll_inPage fuel (fun _ => height)
  = Some (Z.to_nat (Z.max 1 ((height + 499) / 500))).
Proof.
  intros Hfuel Hpos. unfold autoScroll_inPage.
  pose proof (Z.div_mod (height + 499) 500 ltac:(discriminate)) as Hdm.
  pose proof (Z.mod_pos_bound (height + 499) 500 eq_refl) as Hmod.
  set (q := (height + 499) / 500) in *.
  destruct (scrollLoop_complete fuel (fun _ => height) 0
              (Z.to_nat (Z.max 1 q) - 1) 0 eq_refl) as [n Hn]; [lia|lia|].
  rewrite Hn. f_equal.
  apply scrollLoop_sound in Hn as (Hrange & Hlast & Hbefore); [|reflexivity].
  destruct (Nat.eq_dec n 1%nat) as [->|Hn1].
  - lia.
  - specialize (Hbefore (n - 2)%nat ltac:(lia)). lia.
Qed.

Lemma autoScroll_on_a_fixed_height_witness :
  autoScroll_inPage 10 (fun _ => 1200) = Some 3%nat.
Proof.
  apply (autoScroll_on_a_fixed_height 10 1200); [vm_compute; discriminate | lia].
Defined.

(** X26.  The loop has no bound of its own: on a document that at every firing
    is higher than the distance scrolled so far, it never ends. *)
Theorem autoScroll_never_ends_on_a_growing_page (heightAt : nat -> Z) :
  (forall k : nat, 500 * (Z.of_nat k + 1) < heightAt k) ->
  forall fuel : nat, autoScroll_inPage fuel heightAt = None.
Proof.
  intros Hgrow fuel. unfold autoScroll_inPage.
  destruct (scrollLoop fuel heightAt 0 0) as [n|] eqn:Hn; [|reflexivity].
  apply scrollLoop_sound in Hn as (Hrange & Hlast & _); [|reflexivity].
  specialize (Hgrow (n - 1)%nat). lia.
Qed.

Lemma autoScroll_never_ends_on_a_growing_page_witness :
  autoScroll_inPage 1000 (fun k => 600 * (Z.of_nat k + 1)) = None.
Proof.
  apply autoScroll_never_ends_on_a_growing_page. intros k. lia.
Defined.

(** X27.  A listing page that keeps growing under the scroll stops the run for
    good, however long it is watched: the scroll stays pending, nothing
    after it is run, no article of the page and no later stock, the
    entry point logs nothing and the browser is left open. *)
Theorem endless_listing_hangs_the_run (w : World) (stockEntry : StockEntry)
    (rest : list StockEntry) (page : Page) :
  goto w (se_link stockEntry) = Returned page ->
  page_fault page (EvEvaluate AutoScroll) = None ->
  (forall k : nat, 500 * (Z.of_nat k + 1) < page_scrollHeight page k) ->
  result (forStocks w (stockEntry :: rest)) = Pending
  /\ last (trace (forStocks w (stockEntry :: rest)))
     = Some (EvEvaluate AutoScroll)
  /\ (result (getStockUrlsFromSheet (env w) (sheets w))
      = Returned (stockEntry :: rest) ->
      result (main w) = Pending
      /\ last (trace (main w)) = Some (EvEvaluate AutoScroll)
      /\ EvCloseBrowser ∉ trace (main w)).
Proof.
  intros Hgoto Hfault Hgrow.
  assert (result (autoScroll (patience w) page) = Pending) as Hscroll.
  { unfold autoScroll, page_evaluate, autoScroll_inPage. rewrite Hfault.
    destruct (scrollLoop (patience w) (page_scrollHeight page) 0 0)
      as [n|] eqn:Hn; [|reflexivity].
    apply scrollLoop_sound in Hn as (Hrange & Hlast & _); [|reflexivity].
    specialize (Hgrow (n - 1)%nat). lia. }
  assert (forStocks w (stockEntry :: rest) =
          mkM [ EvLog (newline +:+ "Processing news for "
                       +:+ Js.toStr (se_Stock_name stockEntry) +:+ " ("
                       +:+ Js.toStr (se_Symbol stockEntry) +:+ ") from "
                       +:+ Js.toStr (se_link stockEntry) +:+ " ---");
                EvGoto (se_link stockEntry) 30000;
                EvLog ("Successfully loaded news page for "
                       +:+ Js.toStr (se_Symbol stockEntry) +:+ ".");
                EvDelay 3000;
                EvEvaluate AutoScroll ]
              Pending) as Hloop.
  { rewrite (forStocks_up_to_the_scroll w stockEntry rest page Hgoto).
    - rewrite Hscroll. reflexivity.
    - intros u. rewrite Hscroll. discriminate. }
  rewrite Hloop. split; [reflexivity|]. split; [reflexivity|].
  intros Hsheet. unfold main.
  rewrite result_try_catch, trace_try_catch.
  rewrite (scrapeTradingViewNews_with_stocks w _ Hsheet ltac:(discriminate)).
  rewrite Hloop. cbn [result trace]. rewrite app_nil_r.
  split; [reflexivity|]. split.
  - rewrite !last_app. reflexivity.
  - intros Hin.
    assert (EvCloseBrowser
            ∈ browserEvents
                ([EvLaunch; EvNewPage]
                 ++ trace (getStockUrlsFromSheet (env w) (sheets w))
                 ++ [ EvLog (newline +:+ "Processing news for "
                             +:+ Js.toStr (se_Stock_name stockEntry) +:+ " ("
                             +:+ Js.toStr (se_Symbol stockEntry) +:+ ") from "
                             +:+ Js.toStr (se_link stockEntry) +:+ " ---");
                      EvGoto (se_link stockEntry) 30000;
                      EvLog ("Successfully loaded news page for "
                             +:+ Js.toStr (se_Symbol stockEntry) +:+ ".");
                      EvDelay 3000;
                      EvEvaluate AutoScroll ])) as Hb.
    { unfold browserEvents. apply list_elem_of_filter. split; [auto|exact Hin]. }
    rewrite !browserEvents_app, getStockUrlsFromSheet_no_pages in Hb.
    cbn in Hb.
    repeat (apply elem_of_cons in Hb as [Hb|Hb]; [discriminate|]).
    inversion Hb.
Qed.

Lemma endless_listing_hangs_the_run_witness :
  result (main (worldWithPage (Returned endlessPage))) = Pending
  /\ EvCloseBrowser ∉ trace (main (worldWithPage (Returned endlessPage))).
Proof.
  destruct (endless_listing_hangs_the_run
              (worldWithPage (Returned endlessPage)) niftyEntry [] endlessPage
              eq_refl eq_refl) as (_ & _ & Hrun).
  - intros k. cbn [endlessPage page_scrollHeight]. lia.
  - destruct (Hrun eq_refl) as (Hres & _ & Hopen).
    split; [exact Hres | exact Hopen].
Defined.

(** ** The loop over the articles of a page *)

(** X19.  An article without link gets no tab.  For an article with a link
    the browser is asked for a tab; when it opens one, the tab is closed
    on every path through the iteration, a navigation that fails, a text
    that cannot be extracted, a stale article, a rejected request,
    unless the tab says that it is closed already; when the browser
    refuses the tab, nothing is closed. *)
Theorem article_tab_is_closed_on_every_path (w : World) (stockSymbol : jsval)
    (total index : nat) (article : Article) (c : counters) :
  browserEvents (trace (processArticle w stockSymbol total index article c))
  = if Js.truthy (link article) then
      match newPage w (link article) with
      | Returned _ =>
          EvNewPage :: (if isClosed w (link article) then [] else [EvClosePage])
      | Thrown _ => [EvNewPage]
      end
    else [].
Proof. apply processArticle_browserEvents. Qed.

(** X24.  What fails inside an iteration of the loop over the articles stays
    inside: the loop ends with an error only when the browser fails the
    tab of one of the articles, with that error, and it always ends.
    It runs to its end exactly when the browser fails no tab, and then
    its two counters, stored and skipped, together do not exceed the
    number of articles. *)
Theorem article_loop_counts (w : World) (stockSymbol : jsval) (total : nat)
    (articles : list Article) :
  (forall e : jsError,
      result (forArticles w stockSymbol total 0 articles (0%nat, 0%nat))
      = Thrown e ->
      exists a, a ∈ articles /\ tabFails w e a) /\
  result (forArticles w stockSymbol total 0 articles (0%nat, 0%nat))
  <> Pending /\
  ((exists c : counters,
       result (forArticles w stockSymbol total 0 articles (0%nat, 0%nat))
       = Returned c)
   <-> forall e a, a ∈ articles -> ~ tabFails w e a) /\
  (forall c : counters,
      result (forArticles w stockSymbol total 0 articles (0%nat, 0%nat))
      = Returned c ->
      (c.1 + c.2 <= length articles)%nat).
Proof.
  pose proof (forArticles_outcome w stockSymbol total articles 0 (0%nat, 0%nat))
    as H.
  destruct (result (forArticles w stockSymbol total 0 articles (0%nat, 0%nat)))
    as [[c|e]|]; [| |contradiction].
  - destruct H as [(_ & _ & Hsum) Hno]. cbn [fst snd] in Hsum.
    split; [discriminate|]. split; [discriminate|]. split.
    + split; [intros _; exact Hno | eauto].
    + intros c' [= <-]. lia.
  - destruct H as (a & Hin & Hfails).
    split; [intros e' [= <-]; eauto|]. split; [discriminate|]. split.
    + split; [intros [c Hc]; discriminate|].
      intros Hno. exfalso. exact (Hno e a Hin Hfails).
    + discriminate.
Qed.

Lemma article_loop_counts_witness :
  (exists a, a ∈ [listedArticle]
             /\ tabFails stubbornTabWorld
                  (Error "Protocol error (Target.closeTarget): Target closed") a)
  /\ exists c : counters,
       result (forArticles exampleWorld (JsStr "NIFTY") 1 0 [listedArticle]
                 (0%nat, 0%nat)) = Returned c.
Proof.
  destruct (article_loop_counts stubbornTabWorld (JsStr "NIFTY") 1
              [listedArticle]) as (Hthrown & _).
  destruct (article_loop_counts exampleWorld (JsStr "NIFTY") 1
              [listedArticle]) as (_ & _ & [_ Hreturns] & _).
  split.
  - apply Hthrown. vm_compute. reflexivity.
  - apply Hreturns. intros e a _ (_ & [H | (_ & _ & H)]); discriminate.
Defined.
